(** * robust_etl: a shallow embedding of the robust multi-source ETL pipeline

    The development follows [robust_etl.py]: the error ledger
    ([ErrorHandler]), the validation and rectification passes
    ([DataValidator]) and the four-phase orchestrator
    ([RobustMultiSourceETL]).  Tables are pandas data frames, embedded as
    an ordered list of column names and a list of rows of cells; the
    ledger and the source registry are threaded as explicit state. *)

From Stdlib Require Import List String Ascii Bool Arith ZArith Lia.
From Stdlib Require Import DecimalString.
Import ListNotations.

Local Open Scope string_scope.
Local Open Scope list_scope.

(* ================================================================== *)
(** ** Python strings *)

Module PyStr.

(** [str.lower] on the ASCII range. *)
Definition lower_ascii (a : ascii) : ascii :=
  let n := nat_of_ascii a in
  if ((65 <=? n) && (n <=? 90))%nat then ascii_of_nat (n + 32)%nat else a.

Fixpoint lower (s : string) : string :=
  match s with
  | EmptyString => EmptyString
  | String a s' => String (lower_ascii a) (lower s')
  end.

(** [str.isspace] on the ASCII range: tab, line feed, vertical tab,
    form feed, carriage return, the four separators 0x1c..0x1f and the
    space. *)
Definition isspace (a : ascii) : bool :=
  let n := nat_of_ascii a in
  (((9 <=? n) && (n <=? 13)) || ((28 <=? n) && (n <=? 32)))%nat.

Fixpoint lstrip (s : string) : string :=
  match s with
  | EmptyString => EmptyString
  | String a s' => if isspace a then lstrip s' else s
  end.

(** [rstrip]: a character is kept when it is not a space or when
    something survives to its right. *)
Fixpoint rstrip (s : string) : string :=
  match s with
  | EmptyString => EmptyString
  | String a s' =>
      match rstrip s' with
      | EmptyString => if isspace a then EmptyString else String a EmptyString
      | t => String a t
      end
  end.

Definition strip (s : string) : string := rstrip (lstrip s).

(** [sub in s]. *)
Fixpoint contains (sub s : string) : bool :=
  match s with
  | EmptyString => String.prefix sub EmptyString
  | String _ s' => String.prefix sub s || contains sub s'
  end.

(** [x in [..]] for a list of strings. *)
Definition mem (x : string) (l : list string) : bool :=
  existsb (String.eqb x) l.

(** [str(n)] for an integer. *)
Definition of_Z (z : Z) : string := NilZero.string_of_int (Z.to_int z).

Definition of_nat (n : nat) : string := of_Z (Z.of_nat n).

(** [sep.join(l)]. *)
Fixpoint join (sep : string) (l : list string) : string :=
  match l with
  | [] => ""
  | [x] => x
  | x :: l' => (x ++ sep ++ join sep l')%string
  end.

(** [str(l)] for a list of strings: ['a', 'b'].  The labels are put
    between single quotes as they are, which is their [repr] as long as
    they hold no quote, backslash or control character. *)
Definition repr_list (l : list string) : string :=
  ("[" ++ join ", " (map (fun x => "'" ++ x ++ "'")%string l) ++ "]")%string.

End PyStr.

(* ================================================================== *)
(** ** pathlib paths *)

Module PyPath.

(** [a / b]: an absolute right operand replaces the left one.  The
    operands are taken as normalized: no trailing or doubled
    separator. *)
Definition join (a b : string) : string :=
  match b with
  | String "/" _ => b
  | _ => (a ++ "/" ++ b)%string
  end.

(** The final component of a path. *)
Fixpoint name (p : string) : string :=
  match p with
  | EmptyString => EmptyString
  | String a p' =>
      if PyStr.contains "/" p' then name p'
      else if Ascii.eqb a "/" then p' else p
  end.

(** The part of a file name from its last dot on, or nothing when the
    dot is missing, leads the name or ends it. *)
Fixpoint last_dot (n : string) : option string :=
  match n with
  | EmptyString => None
  | String a n' =>
      match last_dot n' with
      | Some s => Some s
      | None => if Ascii.eqb a "." then Some n else None
      end
  end.

Definition suffix (p : string) : string :=
  match name p with
  | EmptyString => ""
  | String _ rest =>
      match last_dot rest with
      | Some "." => ""
      | Some s => s
      | None => ""
      end
  end.

End PyPath.

(* ================================================================== *)
(** ** Exceptions *)

Inductive exn : Type :=
| TypeError (msg : string)
| ValueError (msg : string)
| KeyError (key : string)
| OSError (msg : string)
| InvalidIndexError (msg : string).

(** The result of a call that either returns or raises. *)
Inductive outcome (A : Type) : Type :=
| Return (a : A)
| Raise (e : exn).

Arguments Return {A} a.
Arguments Raise {A} e.

(** [str(e)].  A [KeyError] carries the missing key and prints its
    [repr]: the key between single quotes, for a key that holds no
    quote, backslash or control character. *)
Definition str_exn (e : exn) : string :=
  match e with
  | KeyError k => ("'" ++ k ++ "'")%string
  | TypeError m | ValueError m | OSError m | InvalidIndexError m => m
  end.

(** Truth values of an optional value and of a list. *)
Definition is_some {A : Type} (o : option A) : bool :=
  match o with
  | Some _ => true
  | None => false
  end.

Definition is_nil {A : Type} (l : list A) : bool :=
  match l with
  | [] => true
  | _ :: _ => false
  end.

(* ================================================================== *)
(** ** Python dictionaries

    A [dict] keeps its keys in insertion order; assigning to a key that
    is present replaces the value where it stands. *)

Module PyDict.

Definition dict (V : Type) : Type := list (string * V).

Fixpoint get {V : Type} (d : dict V) (k : string) : option V :=
  match d with
  | [] => None
  | (k', v) :: d' => if String.eqb k' k then Some v else get d' k
  end.

Fixpoint set {V : Type} (d : dict V) (k : string) (v : V) : dict V :=
  match d with
  | [] => [(k, v)]
  | (k', v') :: d' =>
      if String.eqb k' k then (k', v) :: d' else (k', v') :: set d' k v
  end.

Definition keys {V : Type} (d : dict V) : list string := map fst d.

Definition values {V : Type} (d : dict V) : list V := map snd d.

End PyDict.

(* ================================================================== *)
(** ** Data frames

    A frame is its ordered column labels and its rows, each row holding
    one cell per column; the row index is not kept, no operation of the
    pipeline reads it.  An operation addressed by a label reads the
    first column of that label and writes every column of it.  pandas
    treats repeated labels operation by operation (a selection by a
    repeated label is a frame, not a series), so the properties about
    cells addressed by label are stated for frames with distinct
    labels. *)

(** A proper (non-missing) value of a cell. *)
Inductive value : Type :=
| Str (s : string)
| Num (n : Z)
| Date (t : Z).

(** A cell holds a value or is missing ([None], [NaN], [NaT]). *)
Definition cell : Type := option value.

Definition Null : cell := None.

Definition row : Type := list cell.

Record DataFrame : Type := mkDataFrame {
  columns : list string;
  rows : list row
}.

Definition value_eqb (a b : value) : bool :=
  match a, b with
  | Str x, Str y => String.eqb x y
  | Num x, Num y => Z.eqb x y
  | Date x, Date y => Z.eqb x y
  | _, _ => false
  end.

Definition cell_eqb (a b : cell) : bool :=
  match a, b with
  | None, None => true
  | Some x, Some y => value_eqb x y
  | _, _ => false
  end.

Fixpoint row_eqb (r1 r2 : row) : bool :=
  match r1, r2 with
  | [], [] => true
  | a :: r1', b :: r2' => cell_eqb a b && row_eqb r1' r2'
  | _, _ => false
  end.

Module Pandas.

(** [len(df)]. *)
Definition len (df : DataFrame) : nat := List.length (rows df).

(** [df.empty]: some axis has length zero. *)
Definition empty (df : DataFrame) : bool :=
  (List.length (columns df) =? 0)%nat || (len df =? 0)%nat.

(** [pd.isna] on a scalar. *)
Definition isna (c : cell) : bool :=
  match c with
  | None => true
  | Some _ => false
  end.

(** The cell of a row under the column named [c]. *)
Fixpoint get_cell (cols : list string) (r : row) (c : string) : option cell :=
  match cols, r with
  | n :: cols', x :: r' =>
      if String.eqb n c then Some x else get_cell cols' r' c
  | _, _ => None
  end.

(** Every cell of a row that stands under a column named [c]. *)
Fixpoint pick (c : string) (cols : list string) (r : row) : list cell :=
  match cols, r with
  | n :: cols', x :: r' =>
      if String.eqb n c then x :: pick c cols' r' else pick c cols' r'
  | _, _ => []
  end.

(** The row with the cells under [c] rewritten by [f]. *)
Fixpoint update_row (f : cell -> cell) (c : string)
         (cols : list string) (r : row) : row :=
  match cols, r with
  | n :: cols', x :: r' =>
      (if String.eqb n c then f x else x) :: update_row f c cols' r'
  | _, _ => r
  end.

(** [df[c]] as the series of its cells, one per row, for a label that
    the frame has once.  (Under a repeated label pandas hands out a
    frame and not a series; the properties of the methods that read a
    column are stated for frames with distinct labels.) *)
Definition getitem (df : DataFrame) (c : string) : list cell :=
  map (fun r => match get_cell (columns df) r c with
                | Some x => x
                | None => Null
                end) (rows df).

Fixpoint set_rows (c : string) (cols : list string)
         (rs : list row) (vs : list cell) : list row :=
  match rs, vs with
  | r :: rs', v :: vs' =>
      update_row (fun _ => v) c cols r :: set_rows c cols rs' vs'
  | _, _ => rs
  end.

(** [df[c] = vs] for a series [vs] and a column that exists once. *)
Definition setitem_series (df : DataFrame) (c : string) (vs : list cell)
  : DataFrame :=
  mkDataFrame (columns df) (set_rows c (columns df) (rows df) vs).

(** [df[c] = v] for a scalar: an existing column is overwritten, a new
    one is appended on the right. *)
Definition setitem_scalar (df : DataFrame) (c : string) (v : cell)
  : DataFrame :=
  if PyStr.mem c (columns df)
  then mkDataFrame (columns df)
                   (map (update_row (fun _ => v) c (columns df)) (rows df))
  else mkDataFrame (columns df ++ [c]) (map (fun r => r ++ [v]) (rows df)).

(** [df[names]]: the listed columns, in the order of the list. *)
Definition getitem_list (df : DataFrame) (names : list string) : DataFrame :=
  mkDataFrame
    (flat_map (fun c => filter (String.eqb c) (columns df)) names)
    (map (fun r => flat_map (fun c => pick c (columns df) r) names) (rows df)).

(** [df.rename(columns=m)]: every label that is a key of [m] is
    replaced, all at once. *)
Definition rename (df : DataFrame) (m : PyDict.dict string) : DataFrame :=
  mkDataFrame
    (map (fun c => match PyDict.get m c with
                   | Some c' => c'
                   | None => c
                   end) (columns df))
    (rows df).

(** [df.drop_duplicates()]: the first occurrence of every row is kept. *)
Fixpoint drop_seen (seen : list row) (rs : list row) : list row :=
  match rs with
  | [] => []
  | r :: rs' =>
      if existsb (row_eqb r) seen then drop_seen seen rs'
      else r :: drop_seen (r :: seen) rs'
  end.

Definition drop_duplicates (df : DataFrame) : DataFrame :=
  mkDataFrame (columns df) (drop_seen [] (rows df)).

(** The union of column labels in order of first appearance. *)
Definition union_columns (acc : list string) (cols : list string)
  : list string :=
  fold_left (fun acc c => if PyStr.mem c acc then acc else acc ++ [c])
            cols acc.

Definition reindex_row (cols_all : list string) (cols : list string)
           (r : row) : row :=
  map (fun c => match get_cell cols r c with
                | Some x => x
                | None => Null
                end) cols_all.

(** The outer join of frames with distinct labels: the columns are the
    union of the labels, the rows are stacked, each reindexed to the
    union. *)
Definition outer_concat (dfs : list DataFrame) : DataFrame :=
  let cols_all := fold_left (fun acc df => union_columns acc (columns df))
                            dfs [] in
  mkDataFrame cols_all
    (flat_map (fun df => map (reindex_row cols_all (columns df)) (rows df))
              dfs).

(** [Index.is_unique]: no label occurs twice. *)
Fixpoint is_unique (cols : list string) : bool :=
  match cols with
  | [] => true
  | c :: cols' => negb (PyStr.mem c cols') && is_unique cols'
  end.

(** [Index.equals]: the same labels in the same order. *)
Fixpoint equals (a b : list string) : bool :=
  match a, b with
  | [], [] => true
  | x :: a', y :: b' => String.eqb x y && equals a' b'
  | _, _ => false
  end.

(** All frames carry the same labels in the same order. *)
Definition same_labels (dfs : list DataFrame) : bool :=
  match dfs with
  | [] => true
  | df :: dfs' => forallb (fun d => equals (columns d) (columns df)) dfs'
  end.

(** [pd.concat(dfs, ignore_index=True, sort=False)].  Without a frame
    it raises.  Frames whose labels are distinct are joined on the union
    of their labels, and frames that all carry the same labels are
    stacked as they are, repeated labels included (on rectangular frames
    the two agree where both apply).  Otherwise a frame with a repeated
    label has to be reindexed to other labels, which raises. *)
Definition concat (dfs : list DataFrame) : outcome DataFrame :=
  match dfs with
  | [] => Raise (ValueError "No objects to concatenate")
  | df :: _ =>
      if forallb (fun d => is_unique (columns d)) dfs
      then Return (outer_concat dfs)
      else if same_labels dfs
      then Return (mkDataFrame (columns df) (flat_map rows dfs))
      else Raise (InvalidIndexError
                    "Reindexing only valid with uniquely valued Index objects")
  end.

(** [series.fillna(v)]. *)
Definition fillna (v : value) (c : cell) : cell :=
  match c with
  | None => Some v
  | Some _ => c
  end.

(** [series.isna().sum()]. *)
Definition count_na (vs : list cell) : nat :=
  List.length (filter isna vs).

(** What a pandas converter makes of one cell under [errors='coerce']:
    a parsed value, nothing usable, or an exception. *)
Inductive conv : Type :=
| Parsed (z : Z)
| Unparseable
| Fails (e : exn).

(** The converters and formatters of pandas that the pipeline calls.
    They are external to the repository. *)
Class Lib : Type := {
  parse_datetime : cell -> conv;
  parse_numeric : cell -> conv;
  strftime_ymd : Z -> string;
  str_timestamp : Z -> string
}.

Definition coerce (parse : cell -> conv) (wrap : Z -> value)
  : list cell -> outcome (list cell) :=
  fold_right
    (fun c acc =>
       match parse c with
       | Fails e => Raise e
       | Parsed z =>
           match acc with
           | Return l => Return (Some (wrap z) :: l)
           | Raise e => Raise e
           end
       | Unparseable =>
           match acc with
           | Return l => Return (Null :: l)
           | Raise e => Raise e
           end
       end)
    (Return []).

(** [pd.to_datetime(series, errors='coerce')]. *)
Definition to_datetime {L : Lib} : list cell -> outcome (list cell) :=
  coerce parse_datetime Date.

(** [pd.to_numeric(series, errors='coerce')]. *)
Definition to_numeric {L : Lib} : list cell -> outcome (list cell) :=
  coerce parse_numeric Num.

(** [str(v)] for a cell. *)
Definition str {L : Lib} (c : cell) : string :=
  match c with
  | None => "nan"
  | Some (Str s) => s
  | Some (Num n) => PyStr.of_Z n
  | Some (Date t) => str_timestamp t
  end.

End Pandas.

(* ================================================================== *)
(** ** The error ledger: class [ErrorHandler]

    Records are kept without their time stamp and traceback, which come
    from the clock and the interpreter. *)

Module ErrorHandler.

Record error_record : Type := mkError {
  err_stage : string;
  err_error : string;
  err_details : option string
}.

Record warning_record : Type := mkWarning {
  warn_stage : string;
  warn_warning : string
}.

Record correction_record : Type := mkCorrection {
  corr_stage : string;
  corr_action : string;
  corr_affected_rows : nat
}.

Record t : Type := mk {
  errors : list error_record;
  warnings : list warning_record;
  corrections : list correction_record
}.

(** [__init__]. *)
Definition init : t := mk [] [] [].

Definition log_error (stage error_msg : string) (details : option string)
           (h : t) : t :=
  mk (errors h ++ [mkError stage error_msg details])
     (warnings h) (corrections h).

Definition log_warning (stage warning_msg : string) (h : t) : t :=
  mk (errors h) (warnings h ++ [mkWarning stage warning_msg])
     (corrections h).

Definition log_correction (stage action : string) (affected_rows : nat)
           (h : t) : t :=
  mk (errors h) (warnings h)
     (corrections h ++ [mkCorrection stage action affected_rows]).

Record report : Type := mkReport {
  total_errors : nat;
  total_warnings : nat;
  total_corrections : nat;
  report_errors : list error_record;
  report_warnings : list warning_record;
  report_corrections : list correction_record
}.

Definition get_error_report (h : t) : report :=
  mkReport (List.length (errors h)) (List.length (warnings h))
           (List.length (corrections h))
           (errors h) (warnings h) (corrections h).

End ErrorHandler.

(* ================================================================== *)
(** ** The files the pipeline reads and writes *)

Record FileSystem : Type := mkFileSystem {
  fs_exists : string -> bool;
  fs_read_csv : string -> outcome DataFrame;
  fs_read_excel : string -> outcome DataFrame;
  fs_to_csv : string -> DataFrame -> outcome unit;
  fs_dump_json : string -> ErrorHandler.report -> outcome unit
}.

(** [ErrorHandler.save_error_log]: the report is dumped to
    [error_log.json] under the output path. *)
Definition save_error_log (fs : FileSystem) (h : ErrorHandler.t)
           (output_path : string) : outcome unit :=
  let error_log_path := PyPath.join output_path "error_log.json" in
  fs_dump_json fs error_log_path (ErrorHandler.get_error_report h).

(* ================================================================== *)
(** ** Validation and rectification: class [DataValidator]

    The validator shares the ledger of the pipeline that owns it; its
    methods are transformers of that ledger. *)

Module DataValidator.

Import Pandas ErrorHandler.

Definition validate_file_exists (fs : FileSystem) (file_path : string)
           (h : ErrorHandler.t) : bool * ErrorHandler.t :=
  if negb (fs_exists fs file_path)
  then (false,
        log_error "validation" ("File not found: " ++ file_path)%string
                  (Some "This file is required for processing") h)
  else (true, h).

(** The list [issues] of [validate_dataframe]. *)
Definition frame_issues (df : DataFrame) : list string :=
  (if empty df then ["DataFrame is empty"] else [])
    ++ (if (List.length (columns df) =? 0)%nat
        then ["DataFrame has no columns"] else [])
    ++ (if (len df =? 0)%nat then ["DataFrame has no rows"] else []).

Definition validate_dataframe (df : DataFrame) (source_name : string)
           (h : ErrorHandler.t) : bool * ErrorHandler.t :=
  let issues := frame_issues df in
  if negb (is_nil issues)
  then (false,
        log_warning source_name ("Issues: " ++ PyStr.join ", " issues)%string h)
  else (true, h).

Definition rectify_missing_columns (df : DataFrame)
           (required_columns : list string) (source_name : string)
           (h : ErrorHandler.t) : DataFrame * ErrorHandler.t :=
  let missing_cols :=
    filter (fun col => negb (PyStr.mem col (columns df))) required_columns in
  if is_nil missing_cols then (df, h)
  else
    fold_left
      (fun acc col =>
         let '(df, h) := acc in
         let df := setitem_scalar df col Null in
         (df,
          log_correction source_name
            ("Added missing column: " ++ col ++ " (filled with None)")%string
            (len df) h))
      missing_cols
      (df, log_warning source_name
             ("Missing columns detected: "
                ++ PyStr.repr_list missing_cols)%string h).

(** The test of a date column: its lowered name contains [date] or
    [dob]. *)
Definition date_like (col : string) : bool :=
  PyStr.contains "date" (PyStr.lower col)
  || PyStr.contains "dob" (PyStr.lower col).

(** The test of a numeric column: its lowered name contains [salary],
    or the name is one of four listed ones. *)
Definition numeric_like (col : string) : bool :=
  PyStr.contains "salary" (PyStr.lower col)
  || PyStr.mem col ["salary"; "pay"; "annual_salary"; "compensation"].

(** One turn of the loop of [rectify_data_types], with its [try]. *)
Definition rectify_column {L : Lib} (col : string)
           (acc : DataFrame * nat * ErrorHandler.t)
  : DataFrame * nat * ErrorHandler.t :=
  let '(df, corrections_made, h) := acc in
  let on_error e :=
    (df, corrections_made,
     log_warning "type_rectification"
                 ("Could not convert " ++ col ++ ": " ++ str_exn e)%string h) in
  if date_like col then
    match to_datetime (getitem df col) with
    | Return vs => (setitem_series df col vs, corrections_made + 1, h)
    | Raise e => on_error e
    end
  else if numeric_like col then
    match to_numeric (getitem df col) with
    | Return vs => (setitem_series df col vs, corrections_made + 1, h)
    | Raise e => on_error e
    end
  else acc.

Definition rectify_data_types {L : Lib} (df : DataFrame)
           (h : ErrorHandler.t) : DataFrame * ErrorHandler.t :=
  let '(df', corrections_made, h') :=
    fold_left (fun acc col => rectify_column col acc) (columns df)
              (df, 0, h) in
  if (0 <? corrections_made)%nat
  then (df',
        log_correction "data_type_fix"
          ("Rectified data types for " ++ PyStr.of_nat corrections_made
             ++ " columns")%string
          (len df') h')
  else (df', h').

Definition rectify_duplicates (df : DataFrame) (source_name : string)
           (h : ErrorHandler.t) : DataFrame * ErrorHandler.t :=
  let initial_count := len df in
  let df' := drop_duplicates df in
  let removed := initial_count - len df' in
  if (0 <? removed)%nat
  then (df', log_correction source_name "Removed duplicate rows" removed h)
  else (df', h).

(** One turn of the loop of [rectify_missing_values]. *)
Definition fill_rule {L : Lib} (acc : DataFrame * ErrorHandler.t)
           (rule : string * value) : DataFrame * ErrorHandler.t :=
  let '(df, h) := acc in
  let '(col, fill_value) := rule in
  if PyStr.mem col (columns df) then
    let missing_count := count_na (getitem df col) in
    if (0 <? missing_count)%nat
    then (setitem_series df col (map (fillna fill_value) (getitem df col)),
          log_correction "missing_values"
            ("Filled " ++ PyStr.of_nat missing_count
               ++ " missing values in " ++ col ++ " with '"
               ++ str (Some fill_value) ++ "'")%string
            missing_count h)
    else acc
  else acc.

(** [fillna] wants a proper value, so a rule carries a [value]. *)
Definition rectify_missing_values {L : Lib} (df : DataFrame)
           (fill_rules : PyDict.dict value) (h : ErrorHandler.t)
  : DataFrame * ErrorHandler.t :=
  fold_left fill_rule fill_rules (df, h).

End DataValidator.

(* ================================================================== *)
(** ** The orchestrator: class [RobustMultiSourceETL] *)

Inductive source_status : Type :=
| registered
| file_not_found
| extracted
| extraction_failed
| validation_failed
| error
| mapped
| mapping_failed
| mapping_error.

Inductive PipelineStatus : Type :=
| initialized
| failed_extract
| failed_consolidate
| failed_transform
| failed_load
| completed_successfully
| failed_unexpected.

(** An entry of [data_sources]. *)
Record source_info : Type := mkSource {
  filename : string;
  mapping : PyDict.dict string;
  data : option DataFrame;
  status : source_status
}.

(** The attributes of a pipeline object. *)
Record ETL : Type := mkETL {
  input_path : string;
  output_path : string;
  error_handler : ErrorHandler.t;
  data_sources : PyDict.dict source_info;
  consolidated_data : option DataFrame;
  transformed_data : option DataFrame;
  pipeline_status : PipelineStatus
}.

(** The transformation options, a dictionary whose known keys may each
    be absent; [other_keys] are the further keys it holds. *)
Record Config : Type := mkConfig {
  date_columns : option (list string);
  remove_duplicates : option bool;
  fill_missing_values : option (PyDict.dict value);
  final_columns : option (list string);
  other_keys : list string
}.

(** The truth value of [config]: [None] and the empty dictionary are
    false. *)
Definition config_truthy (config : option Config) : bool :=
  match config with
  | None => false
  | Some c =>
      is_some (date_columns c) || is_some (remove_duplicates c)
      || is_some (fill_missing_values c) || is_some (final_columns c)
      || negb (is_nil (other_keys c))
  end.

(** *** Methods run in a state and exception monad over the object *)

Definition M (A : Type) : Type := ETL -> outcome A * ETL.

Definition ret {A : Type} (a : A) : M A := fun s => (Return a, s).

Definition bind {A B : Type} (m : M A) (f : A -> M B) : M B :=
  fun s =>
    match m s with
    | (Return a, s') => f a s'
    | (Raise e, s') => (Raise e, s')
    end.

Definition raise {A : Type} (e : exn) : M A := fun s => (Raise e, s).

Definition get : M ETL := fun s => (Return s, s).

Definition modify (f : ETL -> ETL) : M unit := fun s => (Return tt, f s).

(** [try: m except Exception as e: h e]. *)
Definition try_except {A : Type} (m : M A) (h : exn -> M A) : M A :=
  fun s =>
    match m s with
    | (Return a, s') => (Return a, s')
    | (Raise e, s') => h e s'
    end.

(** [try: m finally: fin]: an exception of [fin] replaces the result. *)
Definition try_finally {A : Type} (m : M A) (fin : M unit) : M A :=
  fun s =>
    let '(r, s') := m s in
    match fin s' with
    | (Return _, s'') => (r, s'')
    | (Raise e, s'') => (Raise e, s'')
    end.

Definition lift_outcome {A : Type} (o : outcome A) : M A := fun s => (o, s).

Declare Scope etl_scope.
Delimit Scope etl_scope with etl.

Notation "x <- m ;; k" := (bind m (fun x => k))
  (at level 100, m at next level, right associativity) : etl_scope.
Notation "m ;; k" := (bind m (fun _ => k))
  (at level 100, right associativity) : etl_scope.

Module RobustMultiSourceETL.

Import Pandas.

Local Open Scope etl_scope.

(** [__init__]. *)
Definition init (input_path output_path : string) : ETL :=
  mkETL input_path output_path ErrorHandler.init [] None None initialized.

Definition with_error_handler (h : ErrorHandler.t) (s : ETL) : ETL :=
  mkETL (input_path s) (output_path s) h (data_sources s)
        (consolidated_data s) (transformed_data s) (pipeline_status s).

Definition with_data_sources (d : PyDict.dict source_info) (s : ETL) : ETL :=
  mkETL (input_path s) (output_path s) (error_handler s) d
        (consolidated_data s) (transformed_data s) (pipeline_status s).

Definition with_consolidated_data (c : option DataFrame) (s : ETL) : ETL :=
  mkETL (input_path s) (output_path s) (error_handler s) (data_sources s)
        c (transformed_data s) (pipeline_status s).

Definition with_transformed_data (t : option DataFrame) (s : ETL) : ETL :=
  mkETL (input_path s) (output_path s) (error_handler s) (data_sources s)
        (consolidated_data s) t (pipeline_status s).

Definition with_pipeline_status (p : PipelineStatus) (s : ETL) : ETL :=
  mkETL (input_path s) (output_path s) (error_handler s) (data_sources s)
        (consolidated_data s) (transformed_data s) p.

Definition with_status (st : source_status) (i : source_info) : source_info :=
  mkSource (filename i) (mapping i) (data i) st.

Definition with_data (d : option DataFrame) (i : source_info) : source_info :=
  mkSource (filename i) (mapping i) d (status i).

(** A method of the validator or of the ledger, run on the shared
    ledger. *)
Definition on_ledger {A : Type}
           (f : ErrorHandler.t -> A * ErrorHandler.t) : M A :=
  fun s => let '(a, h) := f (error_handler s) in
           (Return a, with_error_handler h s).

Definition log_error (stage error_msg : string) (details : option string)
  : M unit :=
  modify (fun s => with_error_handler
                     (ErrorHandler.log_error stage error_msg details
                                             (error_handler s)) s).

Definition log_warning (stage warning_msg : string) : M unit :=
  modify (fun s => with_error_handler
                     (ErrorHandler.log_warning stage warning_msg
                                               (error_handler s)) s).

(** [self.data_sources[source_name]]. *)
Definition source (source_name : string) : M source_info :=
  fun s =>
    match PyDict.get (data_sources s) source_name with
    | Some i => (Return i, s)
    | None => (Raise (KeyError source_name), s)
    end.

(** [self.data_sources[source_name]['status'] = st]. *)
Definition set_status (source_name : string) (st : source_status) : M unit :=
  i <- source source_name ;;
  modify (fun s => with_data_sources
                     (PyDict.set (data_sources s) source_name
                                 (with_status st i)) s).

(** [self.data_sources[source_name]['data'] = df]. *)
Definition set_data (source_name : string) (df : DataFrame) : M unit :=
  i <- source source_name ;;
  modify (fun s => with_data_sources
                     (PyDict.set (data_sources s) source_name
                                 (with_data (Some df) i)) s).

Definition register_source (source_name filename : string)
           (column_mapping : PyDict.dict string) : M unit :=
  modify (fun s => with_data_sources
                     (PyDict.set (data_sources s) source_name
                                 (mkSource filename column_mapping None
                                           registered)) s).

(** The reading of a file, by its suffix. *)
Definition read_file (fs : FileSystem) (file_path : string)
  : outcome DataFrame :=
  let suffix := PyPath.suffix file_path in
  if String.eqb suffix ".csv" then fs_read_csv fs file_path
  else if PyStr.mem suffix [".xlsx"; ".xls"] then fs_read_excel fs file_path
  else Raise (ValueError ("Unsupported file format: " ++ suffix)%string).

Definition extract_source (fs : FileSystem) (source_name : string)
  : M (option DataFrame) :=
  try_except
    (source_info <- source source_name ;;
     s <- get ;;
     let file_path := PyPath.join (input_path s) (filename source_info) in
     found <- on_ledger (DataValidator.validate_file_exists fs file_path) ;;
     if negb found
     then (set_status source_name file_not_found ;; ret None)
     else
       (read <- try_except
                  (df <- lift_outcome (read_file fs file_path) ;;
                   set_status source_name extracted ;;
                   ret (Some df))
                  (fun e =>
                     log_error ("extraction_" ++ source_name)%string
                               ("Failed to read file: " ++ file_path)%string
                               (Some (str_exn e)) ;;
                     set_status source_name extraction_failed ;;
                     ret None) ;;
        match read with
        | None => ret None
        | Some df =>
            valid <- on_ledger (DataValidator.validate_dataframe df source_name) ;;
            if negb valid
            then (set_status source_name validation_failed ;; ret None)
            else ret (Some df)
        end))
    (fun e =>
       log_error "extract_source"
                 ("Unexpected error extracting " ++ source_name)%string
                 (Some (str_exn e)) ;;
       set_status source_name error ;;
       ret None).

Definition map_columns (df : DataFrame) (source_name : string)
  : M (option DataFrame) :=
  try_except
    (source_info <- source source_name ;;
     let mapping := mapping source_info in
     let available_cols :=
       filter (fun col => PyStr.mem col (columns df)) (PyDict.keys mapping) in
     let missing_cols :=
       filter (fun col => negb (PyStr.mem col (columns df)))
              (PyDict.keys mapping) in
     (if is_nil missing_cols then ret tt
      else log_warning ("mapping_" ++ source_name)%string
             ("Missing columns in mapping: "
                ++ PyStr.repr_list missing_cols)%string) ;;
     if negb (is_nil available_cols)
     then
       (let df_mapped := getitem_list df available_cols in
        let renaming :=
          flat_map (fun col => match PyDict.get mapping col with
                               | Some new => [(col, new)]
                               | None => []
                               end) available_cols in
        let df_mapped := rename df_mapped renaming in
        let df_mapped := setitem_scalar df_mapped "source"
                                        (Some (Str source_name)) in
        set_status source_name mapped ;;
        ret (Some df_mapped))
     else
       (log_error ("mapping_" ++ source_name)%string
                  "No columns could be mapped"
                  (Some ("Available cols: "
                           ++ PyStr.repr_list (columns df))%string) ;;
        set_status source_name mapping_failed ;;
        ret None))
    (fun e =>
       log_error ("map_columns_" ++ source_name)%string
                 "Error during column mapping" (Some (str_exn e)) ;;
       set_status source_name mapping_error ;;
       ret None).

(** One turn of the loop of [extract_and_map_all]: the counters are
    the number of successful sources and the list of failed ones. *)
Definition process_source {L : Lib} (fs : FileSystem) (source_name : string)
           (acc : nat * list string) : M (nat * list string) :=
  let '(successful_sources, failed_sources) := acc in
  try_except
    (df <- extract_source fs source_name ;;
     match df with
     | None => ret (successful_sources, failed_sources ++ [source_name])
     | Some df =>
         df_mapped <- map_columns df source_name ;;
         match df_mapped with
         | None => ret (successful_sources, failed_sources ++ [source_name])
         | Some df_mapped =>
             df_mapped <- on_ledger (DataValidator.rectify_data_types df_mapped) ;;
             df_mapped <- on_ledger (DataValidator.rectify_duplicates
                                       df_mapped source_name) ;;
             set_data source_name df_mapped ;;
             ret (successful_sources + 1, failed_sources)
         end
     end)
    (fun e =>
       log_error ("extract_and_map_" ++ source_name)%string
                 ("Unexpected error processing " ++ source_name)%string
                 (Some (str_exn e)) ;;
       ret (successful_sources, failed_sources ++ [source_name])).

Fixpoint process_sources {L : Lib} (fs : FileSystem) (names : list string)
         (acc : nat * list string) : M (nat * list string) :=
  match names with
  | [] => ret acc
  | source_name :: names' =>
      acc' <- process_source fs source_name acc ;;
      process_sources fs names' acc'
  end.

Definition extract_and_map_all {L : Lib} (fs : FileSystem) : M bool :=
  s <- get ;;
  acc <- process_sources fs (PyDict.keys (data_sources s)) (0, []) ;;
  ret (0 <? fst acc)%nat.

Definition consolidate : M bool :=
  try_except
    (s <- get ;;
     let dataframes :=
       flat_map (fun kv => match data (snd kv) with
                           | Some df => [df]
                           | None => []
                           end) (data_sources s) in
     if is_nil dataframes
     then (log_error "consolidation" "No data sources to consolidate"
                     (Some "All sources failed to process") ;;
           ret false)
     else (consolidated <- lift_outcome (concat dataframes) ;;
           modify (with_consolidated_data (Some consolidated)) ;;
           ret true))
    (fun e =>
       log_error "consolidation" "Failed to consolidate data"
                 (Some (str_exn e)) ;;
       ret false).

Definition normalize_gender {L : Lib} (gender_value : cell) : string :=
  if isna gender_value then "Unknown"
  else
    let gender_str := PyStr.lower (PyStr.strip (str gender_value)) in
    if PyStr.mem gender_str ["m"; "mm"; "male"; "1"] then "M"
    else if PyStr.mem gender_str ["f"; "ff"; "female"; "2"] then "F"
    else if PyStr.mem gender_str ["0"; "unknown"] then "Unknown"
    else "Unknown".

Definition format_date {L : Lib} (date_value : cell) : cell :=
  if isna date_value then Null
  else
    match parse_datetime date_value with
    | Parsed t => Some (Str (strftime_ymd t))
    | Unparseable => Null
    | Fails _ => Null
    end.

(** [df[col] = df[col].apply(f)] for a column that exists once: [f] is
    applied to every cell of the series. *)
Definition apply_column (f : cell -> cell) (df : DataFrame) (col : string)
  : DataFrame :=
  setitem_series df col (map f (getitem df col)).

(** The blocks of [transform], in the order of the source: "Normalize
    gender", "Format dates", "Rectify missing values", "Remove
    duplicates" and "Select final columns". *)
Definition normalize_gender_column {L : Lib} (transformed : DataFrame)
  : DataFrame :=
  if PyStr.mem "gender" (columns transformed)
  then apply_column (fun v => Some (Str (normalize_gender v)))
                    transformed "gender"
  else transformed.

Definition format_date_columns {L : Lib} (config : option Config)
           (transformed : DataFrame) : DataFrame :=
  let date_columns :=
    match config with
    | Some c => if config_truthy config
                then match date_columns c with
                     | Some l => l
                     | None => []
                     end
                else []
    | None => []
    end in
  fold_left (fun df col => if PyStr.mem col (columns df)
                           then apply_column format_date df col
                           else df)
            date_columns transformed.

Definition fill_missing {L : Lib} (config : option Config)
           (transformed : DataFrame) : M DataFrame :=
  let fill_rules :=
    match config with
    | Some c => if config_truthy config
                then match fill_missing_values c with
                     | Some r => r
                     | None => []
                     end
                else []
    | None => []
    end in
  if negb (is_nil fill_rules)
  then on_ledger (DataValidator.rectify_missing_values transformed fill_rules)
  else ret transformed.

(** [config and config.get('remove_duplicates', True)]. *)
Definition wants_duplicates_removed (config : option Config) : bool :=
  config_truthy config
  && match config with
     | Some c => match remove_duplicates c with
                 | Some b => b
                 | None => true
                 end
     | None => false
     end.

Definition remove_duplicate_rows (config : option Config)
           (transformed : DataFrame) : M DataFrame :=
  if wants_duplicates_removed config
  then on_ledger (DataValidator.rectify_duplicates transformed "transform")
  else ret transformed.

Definition select_final_columns (config : option Config)
           (transformed : DataFrame) : M DataFrame :=
  match config with
  | Some c =>
      match final_columns c with
      | Some final_cols =>
          if config_truthy config && negb (is_nil final_cols)
          then
            let available_cols :=
              filter (fun col => PyStr.mem col (columns transformed))
                     final_cols in
            let missing_cols :=
              filter (fun col => negb (PyStr.mem col (columns transformed)))
                     final_cols in
            (if is_nil missing_cols then ret tt
             else log_warning "transform"
                    ("Requested columns not in data: "
                       ++ PyStr.repr_list missing_cols)%string) ;;
            ret (getitem_list transformed available_cols)
          else ret transformed
      | None => ret transformed
      end
  | None => ret transformed
  end.

Definition transform {L : Lib} (config : option Config) : M bool :=
  try_except
    (s <- get ;;
     match consolidated_data s with
     | None =>
         log_error "transform" "No consolidated data to transform"
                   (Some "Run consolidate() first") ;;
         ret false
     | Some consolidated =>
         let transformed := consolidated in
         let transformed := normalize_gender_column transformed in
         let transformed := format_date_columns config transformed in
         transformed <- fill_missing config transformed ;;
         transformed <- remove_duplicate_rows config transformed ;;
         transformed <- select_final_columns config transformed ;;
         modify (with_transformed_data (Some transformed)) ;;
         ret true
     end)
    (fun e =>
       log_error "transform" "Transformation failed" (Some (str_exn e)) ;;
       ret false).

Definition load (fs : FileSystem) (output_filename : string) : M bool :=
  try_except
    (s <- get ;;
     match transformed_data s with
     | None =>
         log_error "load" "No transformed data to load"
                   (Some "Run transform() first") ;;
         ret false
     | Some transformed =>
         let output_file := PyPath.join (output_path s) output_filename in
         lift_outcome (fs_to_csv fs output_file transformed) ;;
         ret true
     end)
    (fun e =>
       log_error "load" "Failed to save data" (Some (str_exn e)) ;;
       ret false).

(** [enumerate] of an integer. *)
Definition enumerate_int {A : Type} (n : nat) : M A :=
  raise (TypeError "'int' object is not iterable").

(** The three blocks print the errors, the warnings and the
    corrections; the second one iterates over
    [report['total_warnings']], an integer. *)
Definition print_error_summary : M unit :=
  s <- get ;;
  let report := ErrorHandler.get_error_report (error_handler s) in
  (if (0 <? ErrorHandler.total_warnings report)%nat
   then enumerate_int (ErrorHandler.total_warnings report)
   else ret tt) ;;
  ret tt.

Definition set_pipeline_status (p : PipelineStatus) : M unit :=
  modify (with_pipeline_status p).

(** The four phases, the body of the [try] block of [run]. *)
Definition run_phases {L : Lib} (fs : FileSystem) (output_filename : string)
           (config : option Config) : M bool :=
  ok <- extract_and_map_all fs ;;
  if negb ok
  then (log_error "pipeline" "Extract and map phase failed"
                  (Some "No sources processed successfully") ;;
        set_pipeline_status failed_extract ;;
        ret false)
  else
    (ok <- consolidate ;;
     if negb ok
     then (log_error "pipeline" "Consolidation phase failed"
                     (Some "Could not merge sources") ;;
           set_pipeline_status failed_consolidate ;;
           ret false)
     else
       (ok <- transform config ;;
        if negb ok
        then (log_error "pipeline" "Transformation phase failed"
                        (Some "Could not transform data") ;;
              set_pipeline_status failed_transform ;;
              ret false)
        else
          (ok <- load fs output_filename ;;
           if negb ok
           then (log_error "pipeline" "Load phase failed"
                           (Some "Could not save output") ;;
                 set_pipeline_status failed_load ;;
                 ret false)
           else (set_pipeline_status completed_successfully ;;
                 ret true)))).

Definition run {L : Lib} (fs : FileSystem) (output_filename : string)
           (config : option Config) : M bool :=
  try_finally
    (try_except
       (run_phases fs output_filename config)
       (fun e =>
          log_error "pipeline" "Unexpected pipeline error"
                    (Some (str_exn e)) ;;
          set_pipeline_status failed_unexpected ;;
          ret false))
    (s <- get ;;
     lift_outcome (save_error_log fs (error_handler s) (output_path s)) ;;
     print_error_summary).

End RobustMultiSourceETL.

(* ================================================================== *)
(** ** A sample library and sample files

    A small instance of the pandas converters, used to run the pipeline
    on concrete tables: numbers and dates are read from digit strings,
    a date being written [YYYYMMDD]. *)

Module Sample.

Import Pandas.

Fixpoint digits (s : string) (acc : Z) : option Z :=
  match s with
  | EmptyString => Some acc
  | String a s' =>
      let n := nat_of_ascii a in
      if ((48 <=? n) && (n <=? 57))%nat
      then digits s' (10 * acc + Z.of_nat (n - 48))%Z
      else None
  end.

Definition number (c : cell) : conv :=
  match c with
  | None => Unparseable
  | Some (Num n) => Parsed n
  | Some (Date t) => Parsed t
  | Some (Str EmptyString) => Unparseable
  | Some (Str s) =>
      match digits s 0 with
      | Some z => Parsed z
      | None => Unparseable
      end
  end.

Definition valid_ymd (z : Z) : bool :=
  let m := ((z / 100) mod 100)%Z in
  let d := (z mod 100)%Z in
  ((1 <=? m) && (m <=? 12) && (1 <=? d) && (d <=? 31))%Z.

Definition datetime (c : cell) : conv :=
  match number c with
  | Parsed z => if valid_ymd z then Parsed z else Unparseable
  | other => other
  end.

Definition ymd (z : Z) : string :=
  (PyStr.of_Z (z / 10000) ++ "-" ++ PyStr.of_Z ((z / 100) mod 100)
     ++ "-" ++ PyStr.of_Z (z mod 100))%string.

Definition lib : Lib := Build_Lib datetime number ymd ymd.

(** A file system holding the given [csv] files; every write succeeds. *)
Definition disk (files : PyDict.dict DataFrame) : FileSystem :=
  mkFileSystem
    (fun p => is_some (PyDict.get files p))
    (fun p => match PyDict.get files p with
              | Some df => Return df
              | None => Raise (OSError p)
              end)
    (fun p => Raise (ValueError p))
    (fun _ _ => Return tt)
    (fun _ _ => Return tt).

Definition staff : DataFrame :=
  mkDataFrame ["emp_id"; "sex"; "base_pay"]
    [ [Some (Num 1); Some (Str "  MALE "); Some (Str "5000")];
      [Some (Num 2); Some (Str "f"); Some (Str "n/a")];
      [Some (Num 1); Some (Str "  MALE "); Some (Str "5000")] ].

(** A consolidated table whose two rows are equal. *)
Definition twins : DataFrame :=
  mkDataFrame ["employee_id"; "first_name"]
    [ [Some (Num 1); Some (Str "Ann")];
      [Some (Num 1); Some (Str "Ann")] ].

(** A table with a header and no record. *)
Definition header_only : DataFrame := mkDataFrame ["emp_id"; "sex"] [].

(** A table with a date column, a salary column and two pay columns. *)
Definition payroll : DataFrame :=
  mkDataFrame ["hire_date"; "salary"; "base_pay"; "Compensation"]
    [ [Some (Str "20200105"); Some (Str "5000"); Some (Str "70");
       Some (Str "9")];
      [Some (Str "20201345"); Some (Str "n/a"); Some (Str "n/a");
       Some (Str "n/a")] ].

(** A table with missing cells. *)
Definition gaps : DataFrame :=
  mkDataFrame ["employee_id"; "department"]
    [ [Some (Num 1); Null];
      [Some (Num 2); Some (Str "Sales")];
      [Null; Null] ].

(** A pipeline with one source whose mapping names a column, [dept],
    that its file lacks. *)
Definition hr_pipeline : ETL :=
  snd (RobustMultiSourceETL.register_source
         "hr" "staff.csv"
         [("emp_id", "employee_id"); ("sex", "gender"); ("dept", "department")]
         (RobustMultiSourceETL.init "in" "out")).

(** A pipeline with two sources. *)
Definition two_sources : ETL :=
  snd (RobustMultiSourceETL.register_source
         "b" "b.csv" [("emp_id", "employee_id")]
         (snd (RobustMultiSourceETL.register_source
                 "a" "a.csv" [("emp_id", "employee_id")]
                 (RobustMultiSourceETL.init "in" "out")))).

(** A table with two identifier columns. *)
Definition badges : DataFrame :=
  mkDataFrame ["emp_id"; "badge"]
    [ [Some (Num 1); Some (Num 71)];
      [Some (Num 2); Some (Num 72)] ].

(** A pipeline whose first source renames two columns of its file to
    the same label. *)
Definition shared_label : ETL :=
  snd (RobustMultiSourceETL.register_source
         "b" "b.csv" [("emp_id", "employee_id")]
         (snd (RobustMultiSourceETL.register_source
                 "a" "a.csv"
                 [("emp_id", "employee_id"); ("badge", "employee_id")]
                 (RobustMultiSourceETL.init "in" "out")))).

(** A pipeline after extraction, with the tables of two sources. *)
Definition two_tables : ETL :=
  mkETL "in" "out" ErrorHandler.init
        [("a", mkSource "a.csv" [] (Some twins) mapped);
         ("b", mkSource "b.csv" [] (Some gaps) mapped)]
        None None initialized.

End Sample.

(* ================================================================== *)
(** ** Definitions used to state the properties *)

(** Every row has one cell per column. *)
Definition well_formed (df : DataFrame) : Prop :=
  Forall (fun r => List.length r = List.length (columns df)) (rows df).

Definition cell_or_null (o : option cell) : cell :=
  match o with
  | Some x => x
  | None => Null
  end.

(** The table of the specification: after trimming and lowering, [m],
    [mm], [male], [1] give M; [f], [ff], [female], [2] give F; anything
    else, a missing value included, gives Unknown. *)
Definition gender_table {L : Pandas.Lib} (v : cell) : string :=
  match v with
  | None => "Unknown"
  | Some _ =>
      let g := PyStr.lower (PyStr.strip (Pandas.str v)) in
      if PyStr.mem g ["m"; "mm"; "male"; "1"] then "M"
      else if PyStr.mem g ["f"; "ff"; "female"; "2"] then "F"
      else "Unknown"
  end.


(** The correction that a fill rule logs when it fills [k] cells. *)
Definition fill_correction {L : Pandas.Lib} (col : string) (v : value)
           (k : nat) : ErrorHandler.correction_record :=
  ErrorHandler.mkCorrection "missing_values"
    ("Filled " ++ PyStr.of_nat k ++ " missing values in " ++ col
       ++ " with '" ++ Pandas.str (Some v) ++ "'")%string
    k.

(** The corrections that a dictionary of fill rules logs on a table: one
    for every rule whose column exists and holds a missing value. *)
Definition fill_corrections {L : Pandas.Lib} (df : DataFrame)
           (fill_rules : PyDict.dict value)
  : list ErrorHandler.correction_record :=
  flat_map (fun rule =>
              let k := Pandas.count_na (Pandas.getitem df (fst rule)) in
              if PyStr.mem (fst rule) (columns df) && (0 <? k)%nat
              then [fill_correction (fst rule) (snd rule) k]
              else [])
           fill_rules.

(** A cell after filling: a missing value under a column with a rule
    takes the value of the rule, every other cell stays. *)
Definition filled (fill_rules : PyDict.dict value) (c : string)
           (x : option cell) : option cell :=
  match x with
  | Some None =>
      match PyDict.get fill_rules c with
      | Some v => Some (Some v)
      | None => Some None
      end
  | other => other
  end.

(** The converter that [rectify_data_types] picks for a column label:
    dates first, numbers otherwise, none for the other labels. *)
Definition converter {L : Pandas.Lib} (col : string)
  : option ((cell -> Pandas.conv) * (Z -> value)) :=
  if DataValidator.date_like col then Some (Pandas.parse_datetime, Date)
  else if DataValidator.numeric_like col then Some (Pandas.parse_numeric, Num)
  else None.

(** The exception of the first cell on which a converter raises. *)
Fixpoint first_failure (parse : cell -> Pandas.conv) (vs : list cell)
  : option exn :=
  match vs with
  | [] => None
  | c :: vs' =>
      match parse c with
      | Pandas.Fails e => Some e
      | _ => first_failure parse vs'
      end
  end.

(** The exception raised by the conversion of a column, if any. *)
Definition conversion_error {L : Pandas.Lib} (df : DataFrame) (col : string)
  : option exn :=
  match converter col with
  | Some (parse, _) => first_failure parse (Pandas.getitem df col)
  | None => None
  end.

(** A column is touched when it has a converter and the conversion does
    not raise. *)
Definition touched {L : Pandas.Lib} (df : DataFrame) (col : string) : bool :=
  is_some (converter col) && negb (is_some (conversion_error df col)).

(** A cell under [errors='coerce']: the parsed value, or missing. *)
Definition coerce_cell (parse : cell -> Pandas.conv) (wrap : Z -> value)
           (c : cell) : cell :=
  match parse c with
  | Pandas.Parsed z => Some (wrap z)
  | _ => Null
  end.

(** A cell of column [col] after type rectification. *)
Definition rectified_cell {L : Pandas.Lib} (df : DataFrame) (col : string)
           (x : cell) : cell :=
  match converter col with
  | Some (parse, wrap) =>
      if touched df col then coerce_cell parse wrap x else x
  | None => x
  end.

(** The warning logged for a column whose conversion raises. *)
Definition conversion_warnings {L : Pandas.Lib} (df : DataFrame)
           (col : string) : list ErrorHandler.warning_record :=
  match conversion_error df col with
  | Some e =>
      [ErrorHandler.mkWarning "type_rectification"
         ("Could not convert " ++ col ++ ": " ++ str_exn e)%string]
  | None => []
  end.

(** The summary correction of type rectification over [n] touched
    columns of a table of [k] rows. *)
Definition type_corrections (n k : nat)
  : list ErrorHandler.correction_record :=
  if (0 <? n)%nat
  then [ErrorHandler.mkCorrection "data_type_fix"
          ("Rectified data types for " ++ PyStr.of_nat n ++ " columns")%string
          k]
  else [].

(** The mapping keys found among the columns of a table, and the ones
    that are not. *)
Definition available_keys (df : DataFrame) (mapping : PyDict.dict string)
  : list string :=
  filter (fun col => PyStr.mem col (columns df)) (PyDict.keys mapping).

Definition missing_keys (df : DataFrame) (mapping : PyDict.dict string)
  : list string :=
  filter (fun col => negb (PyStr.mem col (columns df))) (PyDict.keys mapping).

(** The selected columns of a source under their new labels, before the
    provenance column is set. *)
Definition renamed (df : DataFrame) (mapping : PyDict.dict string)
  : DataFrame :=
  Pandas.rename
    (Pandas.getitem_list df (available_keys df mapping))
    (flat_map (fun col => match PyDict.get mapping col with
                          | Some new => [(col, new)]
                          | None => []
                          end) (available_keys df mapping)).

(** The ledger after the warning about mapping keys that the table
    lacks, if there are any. *)
Definition warn_missing_keys (df : DataFrame) (source_name : string)
           (mapping : PyDict.dict string) (h : ErrorHandler.t)
  : ErrorHandler.t :=
  if is_nil (missing_keys df mapping) then h
  else ErrorHandler.log_warning
         ("mapping_" ++ source_name)%string
         ("Missing columns in mapping: "
            ++ PyStr.repr_list (missing_keys df mapping))%string h.

(** The tables of the sources that came through extraction and mapping,
    in the order of registration. *)
Definition surviving (s : ETL) : list DataFrame :=
  flat_map (fun kv => match data (snd kv) with
                      | Some df => [df]
                      | None => []
                      end) (data_sources s).

(** The number of rows of a list of tables. *)
Definition total_rows (dfs : list DataFrame) : nat :=
  list_sum (map Pandas.len dfs).

(** The rows of [t'] are the rows of [t], each rewritten on its own. *)
Definition rowwise (t t' : DataFrame) : Prop :=
  exists F : row -> row, rows t' = map F (rows t).

(** The status in which extraction and mapping leave a source, read off
    the files: the four failures of [extract_source] and [map_columns],
    or [mapped]. *)
Definition fate (fs : FileSystem) (input_path : string) (info : source_info)
  : source_status :=
  let file_path := PyPath.join input_path (filename info) in
  if negb (fs_exists fs file_path) then file_not_found
  else
    match RobustMultiSourceETL.read_file fs file_path with
    | Raise _ => extraction_failed
    | Return df =>
        if negb (is_nil (DataValidator.frame_issues df)) then validation_failed
        else if is_nil (available_keys df (mapping info)) then mapping_failed
             else mapped
    end.

Definition survives (st : source_status) : bool :=
  match st with
  | mapped => true
  | _ => false
  end.

(** The number of error records that the failure of a source leaves in
    the ledger: a table that fails validation gives a warning, every
    other failure gives one error. *)
Definition failure_errors (st : source_status) : nat :=
  match st with
  | validation_failed => 0
  | _ => 1
  end.

(** What stays of a pipeline while its sources are processed. *)
Definition same_frame (s s' : ETL) : Prop :=
  input_path s' = input_path s
  /\ output_path s' = output_path s
  /\ consolidated_data s' = consolidated_data s
  /\ transformed_data s' = transformed_data s
  /\ pipeline_status s' = pipeline_status s
  /\ PyDict.keys (data_sources s') = PyDict.keys (data_sources s).

(** The errors that the failures of the listed sources leave. *)
Definition errors_of_failures (fs : FileSystem) (s : ETL)
           (names : list string) : nat :=
  list_sum
    (map (fun name =>
            match PyDict.get (data_sources s) name with
            | Some info => failure_errors (fate fs (input_path s) info)
            | None => 0
            end) names).

(** The record that [run] adds when the extraction phase fails. *)
Definition extract_phase_error : ErrorHandler.error_record :=
  ErrorHandler.mkError "pipeline" "Extract and map phase failed"
                       (Some "No sources processed successfully").

(** The exception raised by the [finally] block of [run], if any: from
    writing the error log, or from the summary when a warning was
    logged. *)
Definition finally_result (fs : FileSystem) (s : ETL) : outcome unit :=
  match save_error_log fs (error_handler s) (output_path s) with
  | Raise e => Raise e
  | Return _ =>
      match ErrorHandler.warnings (error_handler s) with
      | [] => Return tt
      | _ :: _ => Raise (TypeError "'int' object is not iterable")
      end
  end.

(* ================================================================== *)
(** ** Definitions used to state the further properties *)

(** A ledger [h'] holds the records of [h], in order, and possibly more
    after them. *)
Definition extends (h h' : ErrorHandler.t) : Prop :=
  (exists es, ErrorHandler.errors h' = ErrorHandler.errors h ++ es)
  /\ (exists ws, ErrorHandler.warnings h' = ErrorHandler.warnings h ++ ws)
  /\ (exists cs, ErrorHandler.corrections h'
                 = ErrorHandler.corrections h ++ cs).

(** A method only appends to the ledger. *)
Definition appends {A : Type} (m : M A) : Prop :=
  forall s, extends (error_handler s) (error_handler (snd (m s))).

(** A frame is valid for [validate_dataframe] when it has a column and
    a row. *)
Definition has_content (df : DataFrame) : bool :=
  negb (is_nil (columns df)) && negb (is_nil (rows df)).

(** The status of a pipeline is one of the six final ones. *)
Definition terminal (p : PipelineStatus) : bool :=
  match p with
  | initialized => false
  | _ => true
  end.

(** The correction logged for a column that [rectify_missing_columns]
    adds to a frame of [k] rows. *)
Definition added_column (source_name : string) (k : nat) (col : string)
  : ErrorHandler.correction_record :=
  ErrorHandler.mkCorrection source_name
    ("Added missing column: " ++ col ++ " (filled with None)")%string k.

(** The required columns that a frame lacks, as often as they are
    listed. *)
Definition missing_columns (df : DataFrame) (required_columns : list string)
  : list string :=
  filter (fun col => negb (PyStr.mem col (columns df))) required_columns.

(** The columns that [transform] keeps of a table with the columns
    [cols]: the requested final columns that exist, in the order of the
    request, or all columns when no final column is requested. *)
Definition final_projection (config : option Config) (cols : list string)
  : list string :=
  match config with
  | Some c =>
      match final_columns c with
      | Some (col :: final_cols) =>
          filter (fun col => PyStr.mem col cols) (col :: final_cols)
      | _ => cols
      end
  | None => cols
  end.

(** The warning of [transform] about requested final columns that the
    table lacks, if there are any. *)
Definition projection_warnings (config : option Config) (cols : list string)
  : list ErrorHandler.warning_record :=
  match config with
  | Some c =>
      match final_columns c with
      | Some (col :: final_cols) =>
          let missing_cols :=
            filter (fun col => negb (PyStr.mem col cols)) (col :: final_cols) in
          if is_nil missing_cols then []
          else [ErrorHandler.mkWarning "transform"
                  ("Requested columns not in data: "
                     ++ PyStr.repr_list missing_cols)%string]
      | _ => []
      end
  | None => []
  end.

(** What [extract_source] makes of a registered source, read off the
    files: the status it sets and the table it returns. *)
Definition extraction (fs : FileSystem) (input_path : string)
           (info : source_info) : source_status * option DataFrame :=
  let file_path := PyPath.join input_path (filename info) in
  if negb (fs_exists fs file_path) then (file_not_found, None)
  else
    match RobustMultiSourceETL.read_file fs file_path with
    | Raise _ => (extraction_failed, None)
    | Return df =>
        if has_content df then (extracted, Some df)
        else (validation_failed, None)
    end.

(** The sources that survive extraction and mapping, by name. *)
Definition survivors (fs : FileSystem) (s : ETL) : list string :=
  map fst (filter (fun kv => survives (fate fs (input_path s) (snd kv)))
                  (data_sources s)).

(** The new labels of the mapping keys that a table has, in the order
    of the mapping. *)
Definition mapped_labels (df : DataFrame) (mapping : PyDict.dict string)
  : list string :=
  map snd (filter (fun kv => PyStr.mem (fst kv) (columns df)) mapping).

(** The label that a mapping gives to a key. *)
Definition new_label (m : PyDict.dict string) (k : string) : string :=
  match PyDict.get m k with
  | Some v => v
  | None => k
  end.


(** The list [date_columns] that [transform] reads from its
    configuration. *)
Definition configured_dates (config : option Config) : list string :=
  match config with
  | Some c => match date_columns c with
              | Some l => l
              | None => []
              end
  | None => []
  end.
(* ================================================================== *)
(** * Properties *)

(** ** Membership *)

Lemma mem_In x l : PyStr.mem x l = true <-> In x l.
Proof.
unfold PyStr.mem. rewrite existsb_exists. split.
- intros [y [Hy He]]. apply String.eqb_eq in He. now subst.
- intros H. exists x. split; [assumption | apply String.eqb_refl].
Qed.

Lemma mem_not_In x l : PyStr.mem x l = false <-> ~ In x l.
Proof.
rewrite <- mem_In. destruct (PyStr.mem x l); split; intros; congruence.
Qed.

(** ** Equality of rows *)

Lemma value_eqb_eq (a b : value) : value_eqb a b = true <-> a = b.
Proof.
  destruct a, b; simpl; split; intros H; try discriminate;
    try (apply String.eqb_eq in H; congruence);
    try (apply Z.eqb_eq in H; congruence);
    inversion H; subst;
    first [apply String.eqb_refl | apply Z.eqb_refl].
Qed.

Lemma cell_eqb_eq (a b : cell) : cell_eqb a b = true <-> a = b.
Proof.
  destruct a as [x|], b as [y|]; simpl; split; intros H;
    try discriminate; try reflexivity.
  - apply value_eqb_eq in H. congruence.
  - inversion H; subst. now apply value_eqb_eq.
Qed.

Lemma row_eqb_eq (r1 r2 : row) : row_eqb r1 r2 = true <-> r1 = r2.
Proof.
  revert r2. induction r1 as [|a r1 IH]; intros [|b r2]; simpl;
    split; intros H; try discriminate; try reflexivity.
  - apply andb_true_iff in H as [Ha Hr].
    apply cell_eqb_eq in Ha. apply IH in Hr. congruence.
  - inversion H; subst. apply andb_true_iff. split.
    + now apply cell_eqb_eq.
    + now apply IH.
Qed.

Lemma seen_In (r : row) (seen : list row) :
  existsb (row_eqb r) seen = true <-> In r seen.
Proof.
  rewrite existsb_exists. split.
  - intros [x [Hx He]]. apply row_eqb_eq in He. now subst.
  - intros H. exists r. split; [assumption | now apply row_eqb_eq].
Qed.

Lemma seen_not_In (r : row) (seen : list row) :
  existsb (row_eqb r) seen = false <-> ~ In r seen.
Proof.
  rewrite <- seen_In. destruct (existsb (row_eqb r) seen);
    split; intros; congruence.
Qed.

(** ** Duplicate removal *)

Section DropDuplicates.

Import Pandas.

Lemma drop_seen_In (rs seen : list row) (r : row) :
  In r (drop_seen seen rs) <-> In r rs /\ ~ In r seen.
Proof.
  revert seen. induction rs as [|x rs IH]; intros seen; simpl.
  - tauto.
  - destruct (existsb (row_eqb x) seen) eqn:E.
    + apply seen_In in E. rewrite IH. split.
      * intros [H1 H2]. tauto.
      * intros [[->|H1] H2]; [contradiction | tauto].
    + apply seen_not_In in E. simpl. rewrite IH. simpl. split.
      * intros [->|[H1 H2]]; [tauto|]. split; [tauto|].
        intros H. apply H2. now right.
      * intros [[->|H1] H2]; [now left|].
        destruct (row_eqb x r) eqn:Ex.
        -- apply row_eqb_eq in Ex. now left.
        -- right. split; [assumption|]. intros [->|H]; [|contradiction].
           assert (row_eqb r r = true) by now apply row_eqb_eq.
           congruence.
Qed.

Lemma drop_seen_NoDup (rs seen : list row) : NoDup (drop_seen seen rs).
Proof.
  revert seen. induction rs as [|x rs IH]; intros seen; simpl.
  - constructor.
  - destruct (existsb (row_eqb x) seen); [apply IH|].
    constructor; [|apply IH].
    rewrite drop_seen_In. intros [_ H]. apply H. now left.
Qed.

Lemma drop_seen_fixed (l seen : list row) :
  NoDup l -> (forall r, In r l -> ~ In r seen) -> drop_seen seen l = l.
Proof.
  revert seen. induction l as [|x l IH]; intros seen Hnd Hdis; simpl.
  - reflexivity.
  - inversion Hnd as [|? ? Hx Hl]; subst.
    assert (E : existsb (row_eqb x) seen = false).
    { apply seen_not_In. apply Hdis. now left. }
    rewrite E. f_equal. apply IH; [assumption|].
    intros r Hr [->|Hs]; [contradiction|].
    apply (Hdis r); [now right | assumption].
Qed.

Lemma drop_seen_length (rs seen : list row) :
  List.length (drop_seen seen rs) <= List.length rs.
Proof.
  revert seen. induction rs as [|x rs IH]; intros seen; simpl.
  - lia.
  - destruct (existsb (row_eqb x) seen); simpl.
    + specialize (IH seen). lia.
    + specialize (IH (x :: seen)). lia.
Qed.

Lemma drop_duplicates_idempotent (df : DataFrame) :
  drop_duplicates (drop_duplicates df) = drop_duplicates df.
Proof.
  unfold drop_duplicates. simpl. f_equal.
  apply drop_seen_fixed.
  - apply drop_seen_NoDup.
  - intros r _ H. exact H.
Qed.

Lemma drop_duplicates_len (df : DataFrame) :
  len (drop_duplicates df) <= len df.
Proof. unfold len, drop_duplicates. simpl. apply drop_seen_length. Qed.

End DropDuplicates.

(** C9 -- Duplicate removal is idempotent.  A second pass of
    [rectify_duplicates] returns the table of the first pass, with the
    same number of rows, and leaves the ledger as it is; a pass logs a
    correction exactly when it removed rows, with the number of rows
    removed, and logs nothing else. *)
Theorem rectify_duplicates_idempotent
        (df : DataFrame) (source_name : string) (h : ErrorHandler.t) :
  let (df1, h1) := DataValidator.rectify_duplicates df source_name h in
  let (df2, h2) := DataValidator.rectify_duplicates df1 source_name h1 in
  df2 = df1
  /\ Pandas.len df2 = Pandas.len df1
  /\ h2 = h1
  /\ ErrorHandler.errors h1 = ErrorHandler.errors h
  /\ ErrorHandler.warnings h1 = ErrorHandler.warnings h
  /\ ErrorHandler.corrections h1 =
       ErrorHandler.corrections h
         ++ (if (Pandas.len df1 <? Pandas.len df)%nat
             then [ErrorHandler.mkCorrection source_name
                     "Removed duplicate rows"
                     (Pandas.len df - Pandas.len df1)]
             else []).
Proof.
  unfold DataValidator.rectify_duplicates.
  pose proof (drop_duplicates_len df) as Hle.
  set (d := Pandas.drop_duplicates df) in *.
  assert (Hd : Pandas.drop_duplicates d = d)
    by apply drop_duplicates_idempotent.
  destruct (0 <? Pandas.len df - Pandas.len d)%nat eqn:E1;
    rewrite Hd, Nat.sub_diag; simpl;
    repeat split; try reflexivity.
  - apply Nat.ltb_lt in E1.
    assert (Hlt : (Pandas.len d <? Pandas.len df)%nat = true)
      by (apply Nat.ltb_lt; lia).
    now rewrite Hlt.
  - apply Nat.ltb_ge in E1.
    assert (Hlt : (Pandas.len d <? Pandas.len df)%nat = false)
      by (apply Nat.ltb_ge; lia).
    rewrite Hlt. now rewrite app_nil_r.
Qed.

(** ** Gender normalization *)

(** C8 -- Gender normalization is total and returns M, F or Unknown for
    every value: it agrees with the table of the specification (so [0],
    [unknown], missing, empty and unrecognized values all give Unknown),
    and the four examples evaluate as stated. *)
Theorem normalize_gender_total (L : Pandas.Lib) (v : cell) :
  (RobustMultiSourceETL.normalize_gender v = "M"
   \/ RobustMultiSourceETL.normalize_gender v = "F"
   \/ RobustMultiSourceETL.normalize_gender v = "Unknown")
  /\ RobustMultiSourceETL.normalize_gender v = gender_table v
  /\ RobustMultiSourceETL.normalize_gender (Some (Str "  MALE ")) = "M"
  /\ RobustMultiSourceETL.normalize_gender (Some (Str "0")) = "Unknown"
  /\ RobustMultiSourceETL.normalize_gender Null = "Unknown"
  /\ RobustMultiSourceETL.normalize_gender (Some (Str "xyz")) = "Unknown"
  /\ RobustMultiSourceETL.normalize_gender (Some (Str "")) = "Unknown"
  /\ RobustMultiSourceETL.normalize_gender (Some (Num 1)) = "M"
  /\ RobustMultiSourceETL.normalize_gender (Some (Str " Ff")) = "F"
  /\ RobustMultiSourceETL.normalize_gender (Some (Num 2)) = "F".
Proof.
  repeat split; try reflexivity.
  - unfold RobustMultiSourceETL.normalize_gender.
    destruct (Pandas.isna v); [tauto|].
    destruct (PyStr.mem _ ["m"; "mm"; "male"; "1"]); [tauto|].
    destruct (PyStr.mem _ ["f"; "ff"; "female"; "2"]); [tauto|].
    destruct (PyStr.mem _ ["0"; "unknown"]); tauto.
  - unfold RobustMultiSourceETL.normalize_gender, gender_table.
    destruct v as [x|]; [|reflexivity].
    cbn [Pandas.isna].
    destruct (PyStr.mem _ ["m"; "mm"; "male"; "1"]); [reflexivity|].
    destruct (PyStr.mem _ ["f"; "ff"; "female"; "2"]); [reflexivity|].
    destruct (PyStr.mem _ ["0"; "unknown"]); reflexivity.
Qed.

(** ** Cells of a table addressed by row and column label *)

Section Cells.

Import Pandas.

Lemma get_cell_update_same f c cols r :
  get_cell cols (update_row f c cols r) c = option_map f (get_cell cols r c).
Proof.
  revert r. induction cols as [|n cols IH]; intros [|x r]; simpl;
    try reflexivity.
  destruct (String.eqb n c); [reflexivity | apply IH].
Qed.

Lemma get_cell_update_other f c c' cols r :
  c <> c' ->
  get_cell cols (update_row f c cols r) c' = get_cell cols r c'.
Proof.
  intros Hne. revert r. induction cols as [|n cols IH]; intros [|x r]; simpl;
    try reflexivity.
  destruct (String.eqb n c') eqn:E'.
  - apply String.eqb_eq in E'. subst n.
    destruct (String.eqb c' c) eqn:E; [|reflexivity].
    apply String.eqb_eq in E. congruence.
  - apply IH.
Qed.

Lemma get_cell_In cols r c x : get_cell cols r c = Some x -> In c cols.
Proof.
  revert r. induction cols as [|n cols IH]; intros [|y r]; simpl;
    try discriminate.
  destruct (String.eqb n c) eqn:E.
  - apply String.eqb_eq in E. now left.
  - intros H. right. eapply IH; eassumption.
Qed.

Lemma get_cell_Some cols r c :
  In c cols -> List.length r = List.length cols ->
  exists x, get_cell cols r c = Some x.
Proof.
  revert r. induction cols as [|n cols IH]; intros [|y r]; simpl;
    intros Hin Hlen; try contradiction; try discriminate.
  destruct (String.eqb n c) eqn:E.
  - now exists y.
  - apply IH.
    + destruct Hin as [->|Hin]; [|assumption].
      rewrite String.eqb_refl in E. discriminate.
    + now injection Hlen.
Qed.

Lemma update_row_length f c cols r :
  List.length (update_row f c cols r) = List.length r.
Proof.
  revert r. induction cols as [|n cols IH]; intros [|x r]; simpl;
    try reflexivity.
  now rewrite IH.
Qed.

Lemma set_rows_map (g : row -> cell) c cols rs :
  set_rows c cols rs (map g rs)
  = map (fun r => update_row (fun _ => g r) c cols r) rs.
Proof.
  induction rs as [|r rs IH]; simpl; [reflexivity | now rewrite IH].
Qed.

(** Writing back a series computed cell by cell from the column. *)
Lemma setitem_map (f : cell -> cell) (df : DataFrame) (c : string) :
  setitem_series df c (map f (getitem df c))
  = mkDataFrame (columns df)
      (map (fun r => update_row
                       (fun _ => f (cell_or_null (get_cell (columns df) r c)))
                       c (columns df) r)
           (rows df)).
Proof.
  unfold setitem_series, getitem. rewrite map_map.
  f_equal.
  exact (set_rows_map
           (fun r => f (cell_or_null (get_cell (columns df) r c)))
           c (columns df) (rows df)).
Qed.

Lemma getitem_setitem_other f df c c' :
  c <> c' ->
  getitem (setitem_series df c (map f (getitem df c))) c' = getitem df c'.
Proof.
  intros Hne. rewrite setitem_map. unfold getitem. simpl.
  rewrite map_map. apply map_ext. intros r.
  now rewrite get_cell_update_other.
Qed.

Lemma count_na_pos vs : In Null vs -> 0 < count_na vs.
Proof.
  unfold count_na. intros H.
  assert (Hin : In Null (filter isna vs)) by (apply filter_In; now split).
  destruct (filter isna vs); [contradiction | simpl; lia].
Qed.

Lemma getitem_In df i r c :
  nth_error (rows df) i = Some r ->
  In (cell_or_null (get_cell (columns df) r c)) (getitem df c).
Proof.
  intros H. unfold getitem. apply nth_error_In in H.
  apply in_map_iff. exists r. split; [reflexivity | assumption].
Qed.

End Cells.

(** ** Filling of missing values *)

Section FillRules.

Import Pandas ErrorHandler.

Context {L : Lib}.

Lemma fill_rule_step (df : DataFrame) (h : ErrorHandler.t)
      (col : string) (v : value) :
  let k := count_na (getitem df col) in
  let '(df1, h1) := DataValidator.fill_rule (df, h) (col, v) in
  columns df1 = columns df
  /\ List.length (rows df1) = List.length (rows df)
  /\ (forall i r r1,
         nth_error (rows df) i = Some r ->
         nth_error (rows df1) i = Some r1 ->
         forall c,
           get_cell (columns df) r1 c =
           if String.eqb c col
           then filled [(col, v)] c (get_cell (columns df) r c)
           else get_cell (columns df) r c)
  /\ (forall c, c <> col -> getitem df1 c = getitem df c)
  /\ h1 = (if PyStr.mem col (columns df) && (0 <? k)%nat
           then log_correction "missing_values"
                  (corr_action (fill_correction col v k)) k h
           else h).
Proof.
  intros k. unfold DataValidator.fill_rule. fold k.
  destruct (PyStr.mem col (columns df)) eqn:Hmem;
    [destruct (0 <? k)%nat eqn:Hk|]; cbv beta iota.
  - rewrite setitem_map. simpl. repeat split.
    + now rewrite length_map.
    + intros i r r1 Hr Hr1 c.
      rewrite nth_error_map, Hr in Hr1. simpl in Hr1.
      injection Hr1 as <-.
      destruct (String.eqb c col) eqn:E.
      * apply String.eqb_eq in E. subst c.
        rewrite get_cell_update_same. unfold filled. simpl.
        rewrite String.eqb_refl.
        destruct (get_cell (columns df) r col) as [[x|]|]; reflexivity.
      * apply String.eqb_neq in E.
        apply get_cell_update_other. congruence.
    + intros c Hc. rewrite <- setitem_map.
      apply getitem_setitem_other. congruence.
  - repeat split.
    intros i r r1 Hr Hr1 c. rewrite Hr in Hr1. injection Hr1 as <-.
    destruct (String.eqb c col) eqn:E; [|reflexivity].
    apply String.eqb_eq in E. subst c.
    unfold filled.
    destruct (get_cell (columns df) r col) as [[x|]|] eqn:G; try reflexivity.
    exfalso. apply Nat.ltb_ge in Hk.
    pose proof (getitem_In df i r col Hr) as Hin. rewrite G in Hin.
    apply count_na_pos in Hin. fold k in Hin. lia.
  - repeat split.
    intros i r r1 Hr Hr1 c. rewrite Hr in Hr1. injection Hr1 as <-.
    destruct (String.eqb c col) eqn:E; [|reflexivity].
    apply String.eqb_eq in E. subst c.
    destruct (get_cell (columns df) r col) as [x|] eqn:G; [|reflexivity].
    apply get_cell_In in G. apply mem_In in G. congruence.
Qed.

Lemma nth_error_same_length {A B : Type} (l : list A) (l' : list B) i x :
  List.length l' = List.length l ->
  nth_error l i = Some x -> exists y, nth_error l' i = Some y.
Proof.
  intros Hlen Hx.
  destruct (nth_error l' i) as [y|] eqn:E; [now exists y|].
  apply nth_error_None in E.
  assert (i < List.length l) by (apply nth_error_Some; congruence).
  lia.
Qed.

Lemma flat_map_ext_In {A B : Type} (f g : A -> list B) (l : list A) :
  (forall x, In x l -> f x = g x) -> flat_map f l = flat_map g l.
Proof.
  induction l as [|a l IH]; intros H; simpl; [reflexivity|].
  rewrite (H a) by now left.
  rewrite IH; [reflexivity|]. intros x Hx. apply H. now right.
Qed.

Lemma filled_cons (col : string) (v : value) (rules : PyDict.dict value)
      (c : string) (x : option cell) :
  filled rules c
         (if String.eqb c col then filled [(col, v)] c x else x)
  = filled ((col, v) :: rules) c x.
Proof.
  destruct (String.eqb c col) eqn:E.
  - apply String.eqb_eq in E. subst c.
    unfold filled. simpl. rewrite String.eqb_refl.
    destruct x as [[y|]|]; reflexivity.
  - unfold filled. simpl. rewrite String.eqb_sym, E. reflexivity.
Qed.

(** C7 -- Missing-value rectification, on a table with distinct column
    labels and rules with distinct columns: every missing cell under a
    column that has a rule takes the fill value of that rule and every
    other cell, in particular every non-missing one, is unchanged; the
    columns and the number of rows stay; exactly one correction is logged
    for every rule whose column exists and holds k > 0 missing cells,
    with k as its affected rows, and none for a rule whose column is
    absent or holds no missing cell; nothing else is logged. *)
Theorem rectify_missing_values_fills
        (df : DataFrame) (fill_rules : PyDict.dict value)
        (h : ErrorHandler.t) :
  NoDup (columns df) ->
  NoDup (PyDict.keys fill_rules) ->
  let '(df', h') := DataValidator.rectify_missing_values df fill_rules h in
  columns df' = columns df
  /\ len df' = len df
  /\ (forall i r r' c,
         nth_error (rows df) i = Some r ->
         nth_error (rows df') i = Some r' ->
         get_cell (columns df) r' c
         = filled fill_rules c (get_cell (columns df) r c))
  /\ corrections h' = corrections h ++ fill_corrections df fill_rules
  /\ errors h' = errors h
  /\ warnings h' = warnings h.
Proof.
  intros _. unfold DataValidator.rectify_missing_values.
  revert df h.
  induction fill_rules as [|[col v] rules IH]; intros df h Hnd.
  - simpl. repeat split; try (now rewrite app_nil_r).
    intros i r r' c Hr Hr'. rewrite Hr in Hr'. injection Hr' as <-.
    unfold filled. simpl. destruct (get_cell _ r c) as [[x|]|]; reflexivity.
  - cbn [fold_left].
    pose proof (fill_rule_step df h col v) as Hstep. cbv zeta in Hstep.
    destruct (DataValidator.fill_rule (df, h) (col, v)) as [df1 h1].
    destruct Hstep as (Hc1 & Hl1 & Hcell1 & Hget1 & Hh1).
    simpl in Hnd. apply NoDup_cons_iff in Hnd as [Hcol Hnd'].
    specialize (IH df1 h1 Hnd').
    destruct (fold_left DataValidator.fill_rule rules (df1, h1))
      as [df' h'].
    destruct IH as (Hc & Hl & Hcell & Hcorr & Herr & Hwarn).
    subst h1.
    assert (Hfc : fill_corrections df1 rules = fill_corrections df rules).
    { unfold fill_corrections. apply flat_map_ext_In.
      intros [c w] Hin. simpl.
      assert (c <> col).
      { intros ->. apply Hcol. unfold PyDict.keys.
        apply in_map_iff. now exists (col, w). }
      rewrite Hget1, Hc1 by assumption. reflexivity. }
    repeat split.
    + congruence.
    + unfold len in *. congruence.
    + intros i r r' c Hr Hr'.
      destruct (nth_error_same_length (rows df) (rows df1) i r Hl1 Hr)
        as [r1 Hr1].
      rewrite Hc1 in Hcell.
      rewrite (Hcell i r1 r' c Hr1 Hr').
      rewrite (Hcell1 i r r1 Hr Hr1 c).
      apply filled_cons.
    + rewrite Hcorr, Hfc. unfold fill_corrections at 2. simpl flat_map.
      fold (fill_corrections df rules).
      destruct (PyStr.mem col (columns df)
                && (0 <? count_na (getitem df col))%nat); simpl.
      * now rewrite <- app_assoc.
      * reflexivity.
    + rewrite Herr.
      destruct (PyStr.mem col (columns df)
                && (0 <? count_na (getitem df col))%nat); reflexivity.
    + rewrite Hwarn.
      destruct (PyStr.mem col (columns df)
                && (0 <? count_na (getitem df col))%nat); reflexivity.
Qed.

End FillRules.

(** ** Type rectification *)

Section RectifyTypes.

Import Pandas ErrorHandler.

Context {L : Lib}.

Lemma coerce_spec (parse : cell -> conv) (wrap : Z -> value) (vs : list cell) :
  coerce parse wrap vs =
  match first_failure parse vs with
  | Some e => Raise e
  | None => Return (map (coerce_cell parse wrap) vs)
  end.
Proof.
  induction vs as [|c vs IH]; [reflexivity|].
  change (coerce parse wrap (c :: vs)) with
    (match parse c with
     | Fails e => Raise e
     | Parsed z =>
         match coerce parse wrap vs with
         | Return l => Return (Some (wrap z) :: l)
         | Raise e => Raise e
         end
     | Unparseable =>
         match coerce parse wrap vs with
         | Return l => Return (Null :: l)
         | Raise e => Raise e
         end
     end).
  rewrite IH. simpl.
  destruct (parse c) eqn:E; destruct (first_failure parse vs);
    unfold coerce_cell; rewrite ?E; reflexivity.
Qed.

Lemma rectify_column_step (df : DataFrame) (n : nat) (h : ErrorHandler.t)
      (col : string) :
  let '(df1, n1, h1) := DataValidator.rectify_column col (df, n, h) in
  columns df1 = columns df
  /\ List.length (rows df1) = List.length (rows df)
  /\ (forall i r r1,
         nth_error (rows df) i = Some r ->
         nth_error (rows df1) i = Some r1 ->
         forall c,
           get_cell (columns df) r1 c =
           if String.eqb c col
           then option_map (rectified_cell df col) (get_cell (columns df) r c)
           else get_cell (columns df) r c)
  /\ (forall c, c <> col -> getitem df1 c = getitem df c)
  /\ n1 = n + (if touched df col then 1 else 0)
  /\ h1 = mk (errors h) (warnings h ++ conversion_warnings df col)
             (corrections h).
Proof.
  assert (Hsame : forall (f : cell -> cell),
    columns (setitem_series df col (map f (getitem df col))) = columns df
    /\ List.length (rows (setitem_series df col (map f (getitem df col))))
       = List.length (rows df)
    /\ (forall i r r1,
         nth_error (rows df) i = Some r ->
         nth_error (rows (setitem_series df col (map f (getitem df col)))) i
           = Some r1 ->
         forall c,
           get_cell (columns df) r1 c =
           if String.eqb c col
           then option_map f (get_cell (columns df) r c)
           else get_cell (columns df) r c)
    /\ (forall c, c <> col ->
          getitem (setitem_series df col (map f (getitem df col))) c
          = getitem df c)).
  { intros f. repeat split.
    - rewrite setitem_map. simpl. now rewrite length_map.
    - intros i r r1 Hr Hr1 c. rewrite setitem_map in Hr1. simpl in Hr1.
      rewrite nth_error_map, Hr in Hr1. simpl in Hr1. injection Hr1 as <-.
      destruct (String.eqb c col) eqn:E.
      + apply String.eqb_eq in E. subst c.
        rewrite get_cell_update_same.
        destruct (get_cell (columns df) r col); reflexivity.
      + apply String.eqb_neq in E.
        apply get_cell_update_other. congruence.
    - intros c Hc. apply getitem_setitem_other. congruence. }
  assert (Hkeep :
    columns df = columns df
    /\ List.length (rows df) = List.length (rows df)
    /\ (forall i r r1,
         nth_error (rows df) i = Some r ->
         nth_error (rows df) i = Some r1 ->
         forall c,
           get_cell (columns df) r1 c =
           if String.eqb c col
           then option_map (fun x => x) (get_cell (columns df) r c)
           else get_cell (columns df) r c)
    /\ (forall c, c <> col -> getitem df c = getitem df c)).
  { repeat split. intros i r r1 Hr Hr1 c. rewrite Hr in Hr1.
    injection Hr1 as <-.
    destruct (String.eqb c col); [|reflexivity].
    destruct (get_cell (columns df) r c); reflexivity. }
  unfold DataValidator.rectify_column, rectified_cell, touched,
    conversion_warnings, conversion_error, converter.
  unfold to_datetime, to_numeric. rewrite !coerce_spec.
  destruct (DataValidator.date_like col);
    [|destruct (DataValidator.numeric_like col)]; simpl.
  - destruct (first_failure parse_datetime (getitem df col)) as [e|]; simpl.
    + destruct Hkeep as (H1 & H2 & H3 & H4).
      repeat split; auto.
    + destruct (Hsame (coerce_cell parse_datetime Date)) as (H1 & H2 & H3 & H4).
      repeat split; auto. now rewrite app_nil_r; destruct h.
  - destruct (first_failure parse_numeric (getitem df col)) as [e|]; simpl.
    + destruct Hkeep as (H1 & H2 & H3 & H4).
      repeat split; auto.
    + destruct (Hsame (coerce_cell parse_numeric Num)) as (H1 & H2 & H3 & H4).
      repeat split; auto. now rewrite app_nil_r; destruct h.
  - destruct Hkeep as (H1 & H2 & H3 & H4).
    repeat split; auto. now rewrite app_nil_r; destruct h.
Qed.

Lemma touched_getitem (df df1 : DataFrame) (c : string) :
  getitem df1 c = getitem df c ->
  touched df1 c = touched df c
  /\ conversion_warnings df1 c = conversion_warnings df c
  /\ rectified_cell df1 c = rectified_cell df c.
Proof.
  intros H.
  unfold rectified_cell, touched, conversion_warnings, conversion_error.
  rewrite H. repeat split.
Qed.

Lemma rectify_fold (names : list string) :
  NoDup names ->
  forall (df : DataFrame) (n : nat) (h : ErrorHandler.t),
  let '(df', n', h') :=
    fold_left (fun acc col => DataValidator.rectify_column col acc) names
              (df, n, h) in
  columns df' = columns df
  /\ List.length (rows df') = List.length (rows df)
  /\ (forall i r r',
         nth_error (rows df) i = Some r ->
         nth_error (rows df') i = Some r' ->
         forall c,
           get_cell (columns df) r' c =
           if PyStr.mem c names
           then option_map (rectified_cell df c) (get_cell (columns df) r c)
           else get_cell (columns df) r c)
  /\ n' = n + List.length (filter (touched df) names)
  /\ h' = mk (errors h) (warnings h ++ flat_map (conversion_warnings df) names)
             (corrections h).
Proof.
  induction names as [|col rest IH]; intros Hnd df n h.
  - simpl. repeat split.
    + intros i r r' Hr Hr' c. rewrite Hr in Hr'. now injection Hr' as <-.
    + lia.
    + rewrite app_nil_r. now destruct h.
  - cbn [fold_left].
    pose proof (rectify_column_step df n h col) as Hstep.
    destruct (DataValidator.rectify_column col (df, n, h)) as [[df1 n1] h1].
    destruct Hstep as (Hc1 & Hl1 & Hcell1 & Hget1 & Hn1 & Hh1).
    apply NoDup_cons_iff in Hnd as [Hcol Hnd'].
    specialize (IH Hnd' df1 n1 h1).
    destruct (fold_left _ rest (df1, n1, h1)) as [[df' n'] h'].
    destruct IH as (Hc & Hl & Hcell & Hn & Hh).
    assert (Hrest : forall c, In c rest ->
              touched df1 c = touched df c
              /\ conversion_warnings df1 c = conversion_warnings df c
              /\ rectified_cell df1 c = rectified_cell df c).
    { intros c Hin. apply touched_getitem. apply Hget1.
      intros ->. contradiction. }
    repeat split.
    + congruence.
    + congruence.
    + intros i r r' Hr Hr' c.
      destruct (nth_error_same_length (rows df) (rows df1) i r Hl1 Hr)
        as [r1 Hr1].
      rewrite Hc1 in Hcell.
      rewrite (Hcell i r1 r' Hr1 Hr' c).
      rewrite (Hcell1 i r r1 Hr Hr1 c).
      unfold PyStr.mem. cbn [existsb]. fold (PyStr.mem c rest).
      destruct (String.eqb c col) eqn:E.
      * apply String.eqb_eq in E. subst c.
        apply mem_not_In in Hcol. rewrite Hcol. reflexivity.
      * simpl. destruct (PyStr.mem c rest) eqn:Hm; [|reflexivity].
        apply mem_In in Hm. destruct (Hrest c Hm) as (_ & _ & ->).
        reflexivity.
    + rewrite Hn, Hn1. cbn [filter].
      rewrite (filter_ext_in (touched df1) (touched df) rest)
        by (intros c Hin; apply (Hrest c Hin)).
      destruct (touched df col); simpl; lia.
    + rewrite Hh, Hh1. cbn [errors warnings corrections flat_map].
      rewrite (flat_map_ext_In (conversion_warnings df1)
                               (conversion_warnings df) rest)
        by (intros c Hin; apply (Hrest c Hin)).
      now rewrite <- app_assoc.
Qed.

(** C2 (amended) -- Type rectification of a table with distinct column
    labels.  A column whose lowered label contains [date] or [dob] is
    parsed as dates; otherwise a column whose lowered label contains
    [salary], or whose label is exactly [salary], [pay],
    [annual_salary] or [compensation], is coerced to numbers; in both
    cases a value that does not parse becomes missing, and a column on
    which the converter raises is left as it was, with a warning.  No
    other column changes.  One summary correction counts the converted
    columns when there is at least one, and none is logged otherwise. *)
Theorem rectify_data_types_columns (df : DataFrame) (h : ErrorHandler.t) :
  NoDup (columns df) ->
  let '(df', h') := DataValidator.rectify_data_types df h in
  columns df' = columns df
  /\ len df' = len df
  /\ (forall i r r' c,
         nth_error (rows df) i = Some r ->
         nth_error (rows df') i = Some r' ->
         get_cell (columns df) r' c
         = option_map (rectified_cell df c) (get_cell (columns df) r c))
  /\ corrections h' =
       corrections h
         ++ type_corrections (List.length (filter (touched df) (columns df)))
                             (len df)
  /\ warnings h' =
       warnings h ++ flat_map (conversion_warnings df) (columns df)
  /\ errors h' = errors h.
Proof.
  intros Hnd. unfold DataValidator.rectify_data_types.
  pose proof (@rectify_fold (columns df) Hnd df 0 h) as H.
  destruct (fold_left _ (columns df) (df, 0, h)) as [[df' n'] h0].
  destruct H as (Hc & Hl & Hcell & Hn & Hh).
  simpl in Hn. subst n' h0. unfold type_corrections, len. rewrite Hl.
  assert (Hcells : forall i r r' c,
             nth_error (rows df) i = Some r ->
             nth_error (rows df') i = Some r' ->
             get_cell (columns df) r' c
             = option_map (rectified_cell df c) (get_cell (columns df) r c)).
  { intros i r r' c Hr Hr'. rewrite (Hcell i r r' Hr Hr' c).
    destruct (PyStr.mem c (columns df)) eqn:Hm; [reflexivity|].
    destruct (get_cell (columns df) r c) as [x|] eqn:G; [|reflexivity].
    apply get_cell_In in G. apply mem_In in G. congruence. }
  destruct (0 <? List.length (filter (touched df) (columns df)))%nat;
    simpl; repeat split; auto.
  now rewrite app_nil_r.
Qed.

End RectifyTypes.

(** ** Column mapping *)

Section MapColumns.

Import Pandas ErrorHandler RobustMultiSourceETL.

Lemma get_set_same {V : Type} (d : PyDict.dict V) (k : string) (v w : V) :
  PyDict.get d k = Some w -> PyDict.get (PyDict.set d k v) k = Some v.
Proof.
  induction d as [|[k' v'] d IH]; simpl; [discriminate|].
  destruct (String.eqb k' k) eqn:E; simpl; rewrite E; auto.
Qed.

Lemma get_set_other {V : Type} (d : PyDict.dict V) (k k' : string) (v : V) :
  k <> k' -> PyDict.get (PyDict.set d k v) k' = PyDict.get d k'.
Proof.
  intros Hne. induction d as [|[k0 v0] d IH]; simpl.
  - destruct (String.eqb k k') eqn:E; [|reflexivity].
    apply String.eqb_eq in E. contradiction.
  - destruct (String.eqb k0 k) eqn:E; simpl.
    + apply String.eqb_eq in E. subst k0.
      destruct (String.eqb k k') eqn:E'; [|reflexivity].
      apply String.eqb_eq in E'. contradiction.
    + now rewrite IH.
Qed.

Lemma set_set {V : Type} (d : PyDict.dict V) (k : string) (v w x : V) :
  PyDict.get d k = Some x ->
  PyDict.set (PyDict.set d k v) k w = PyDict.set d k w.
Proof.
  induction d as [|[k' v'] d IH]; simpl; [discriminate|].
  destruct (String.eqb k' k) eqn:E; simpl; rewrite E; [reflexivity|].
  intros H. now rewrite IH.
Qed.

Lemma keys_set {V : Type} (d : PyDict.dict V) (k : string) (v w : V) :
  PyDict.get d k = Some w -> PyDict.keys (PyDict.set d k v) = PyDict.keys d.
Proof.
  induction d as [|[k' v'] d IH]; simpl; [discriminate|].
  destruct (String.eqb k' k) eqn:E; simpl; [reflexivity|].
  intros H. now rewrite IH.
Qed.

(** What [map_columns] does for a registered source. *)
Lemma map_columns_registered (df : DataFrame) (source_name : string)
      (s : ETL) (info : source_info) :
  PyDict.get (data_sources s) source_name = Some info ->
  map_columns df source_name s =
  let s1 := with_error_handler
              (warn_missing_keys df source_name (mapping info)
                                 (error_handler s)) s in
  if is_nil (available_keys df (mapping info))
  then (Return None,
        with_data_sources
          (PyDict.set (data_sources s) source_name
                      (with_status mapping_failed info))
          (with_error_handler
             (ErrorHandler.log_error
                ("mapping_" ++ source_name)%string
                "No columns could be mapped"
                (Some ("Available cols: "
                         ++ PyStr.repr_list (columns df))%string)
                (error_handler s1)) s1))
  else (Return (Some (setitem_scalar (renamed df (mapping info)) "source"
                                     (Some (Str source_name)))),
        with_data_sources
          (PyDict.set (data_sources s) source_name
                      (with_status mapped info)) s1).
Proof.
  intros Hget.
  unfold map_columns, try_except, bind, source, set_status, source,
    log_warning, log_error, modify, ret, bind.
  rewrite Hget.
  fold (available_keys df (mapping info)).
  fold (missing_keys df (mapping info)).
  unfold warn_missing_keys, renamed.
  destruct (is_nil (missing_keys df (mapping info)));
    destruct (is_nil (available_keys df (mapping info)));
    cbn; rewrite Hget; reflexivity.
Qed.

Lemma available_keys_nil (df : DataFrame) (m : PyDict.dict string) :
  (forall k, In k (PyDict.keys m) -> ~ In k (columns df)) ->
  available_keys df m = [] /\ missing_keys df m = PyDict.keys m.
Proof.
  intros H. unfold available_keys, missing_keys.
  induction (PyDict.keys m) as [|k ks IH]; simpl; [now split|].
  assert (Hk : PyStr.mem k (columns df) = false).
  { apply mem_not_In. apply H. now left. }
  rewrite Hk. simpl.
  destruct IH as [-> ->]; [|now split].
  intros k' Hk'. apply H. now right.
Qed.

(** C4 -- When no key of the mapping of a registered source occurs among
    the columns of its table, [map_columns] returns none, appends exactly
    one error record to the ledger and sets the status of the source to
    [mapping_failed].  The missing keys give one warning (when the
    mapping has keys at all), which goes to the warnings and not to the
    errors; nothing else of the pipeline changes. *)
Theorem map_columns_no_match
        (df : DataFrame) (source_name : string) (s : ETL)
        (info : source_info) :
  PyDict.get (data_sources s) source_name = Some info ->
  (forall k, In k (PyDict.keys (mapping info)) -> ~ In k (columns df)) ->
  let '(result, s') := map_columns df source_name s in
  result = Return None
  /\ errors (error_handler s') =
       errors (error_handler s)
         ++ [mkError ("mapping_" ++ source_name)%string
                     "No columns could be mapped"
                     (Some ("Available cols: "
                              ++ PyStr.repr_list (columns df))%string)]
  /\ List.length (errors (error_handler s'))
       = List.length (errors (error_handler s)) + 1
  /\ PyDict.get (data_sources s') source_name
       = Some (with_status mapping_failed info)
  /\ warnings (error_handler s') =
       warnings (error_handler s)
         ++ (if is_nil (PyDict.keys (mapping info)) then []
             else [mkWarning ("mapping_" ++ source_name)%string
                     ("Missing columns in mapping: "
                        ++ PyStr.repr_list (PyDict.keys (mapping info)))%string])
  /\ corrections (error_handler s') = corrections (error_handler s)
  /\ consolidated_data s' = consolidated_data s
  /\ transformed_data s' = transformed_data s
  /\ pipeline_status s' = pipeline_status s.
Proof.
  intros Hget Hnone.
  rewrite (map_columns_registered df source_name s info Hget).
  destruct (available_keys_nil df (mapping info) Hnone) as [Ha Hm].
  cbv zeta. rewrite Ha. cbn [is_nil].
  unfold warn_missing_keys. rewrite Hm.
  destruct (is_nil (PyDict.keys (mapping info))); cbn;
    repeat split;
    try (rewrite length_app; reflexivity);
    try (now rewrite app_nil_r);
    try (eapply get_set_same; eassumption).
Qed.

Lemma map_columns_unregistered (df : DataFrame) (source_name : string)
      (s : ETL) :
  PyDict.get (data_sources s) source_name = None ->
  fst (map_columns df source_name s) = Raise (KeyError source_name).
Proof.
  intros Hget.
  unfold map_columns, try_except, bind, source, set_status, source,
    log_warning, log_error, modify, ret, bind.
  rewrite Hget. cbn. rewrite Hget. reflexivity.
Qed.

Lemma pick_length (c : string) (cols : list string) (r : row) :
  List.length r = List.length cols ->
  List.length (pick c cols r) = List.length (filter (String.eqb c) cols).
Proof.
  revert r. induction cols as [|n cols IH]; intros [|x r] Hlen; simpl in *;
    try reflexivity; try discriminate.
  injection Hlen as Hlen. rewrite (String.eqb_sym c n).
  destruct (String.eqb n c); simpl; now rewrite IH.
Qed.

Lemma getitem_list_well_formed (df : DataFrame) (names : list string) :
  well_formed df -> well_formed (getitem_list df names).
Proof.
  unfold well_formed, getitem_list. simpl. intros H.
  apply Forall_forall. intros r Hr.
  apply in_map_iff in Hr as [r0 [<- Hr0]].
  rewrite Forall_forall in H. specialize (H r0 Hr0).
  induction names as [|c names IH]; simpl; [reflexivity|].
  rewrite !length_app, IH. f_equal. now apply pick_length.
Qed.

Lemma rename_well_formed (df : DataFrame) (m : PyDict.dict string) :
  well_formed df -> well_formed (rename df m).
Proof.
  unfold well_formed, rename. simpl. now rewrite length_map.
Qed.

Lemma pick_update_const (v : cell) (c : string) (cols : list string) (r : row) :
  Forall (eq v) (pick c cols (update_row (fun _ => v) c cols r)).
Proof.
  revert r. induction cols as [|n cols IH]; intros [|x r]; simpl;
    try constructor.
  destruct (String.eqb n c); [constructor; [reflexivity|]|]; apply IH.
Qed.

Lemma get_cell_new_column (v : cell) (c : string) (cols : list string)
      (r : row) :
  ~ In c cols -> List.length r = List.length cols ->
  get_cell (cols ++ [c]) (r ++ [v]) c = Some v
  /\ pick c (cols ++ [c]) (r ++ [v]) = [v].
Proof.
  revert r. induction cols as [|n cols IH]; intros [|x r] Hin Hlen;
    simpl in *; try discriminate.
  - rewrite String.eqb_refl. now split.
  - injection Hlen as Hlen.
    destruct (String.eqb n c) eqn:E.
    + apply String.eqb_eq in E. subst n. exfalso. apply Hin. now left.
    + apply IH; [|assumption]. intros H. apply Hin. now right.
Qed.

Lemma setitem_scalar_cells (d : DataFrame) (c : string) (v : cell) :
  well_formed d ->
  In c (columns (setitem_scalar d c v))
  /\ forall r, In r (rows (setitem_scalar d c v)) ->
       get_cell (columns (setitem_scalar d c v)) r c = Some v
       /\ Forall (eq v) (pick c (columns (setitem_scalar d c v)) r).
Proof.
  intros Hwf. unfold well_formed in Hwf. rewrite Forall_forall in Hwf.
  unfold setitem_scalar.
  destruct (PyStr.mem c (columns d)) eqn:Hm; simpl.
  - apply mem_In in Hm. split; [assumption|].
    intros r Hr. apply in_map_iff in Hr as [r0 [<- Hr0]].
    split; [|apply pick_update_const].
    rewrite get_cell_update_same.
    destruct (get_cell_Some (columns d) r0 c Hm (Hwf r0 Hr0)) as [x ->].
    reflexivity.
  - apply mem_not_In in Hm. split; [apply in_or_app; right; now left|].
    intros r Hr. apply in_map_iff in Hr as [r0 [<- Hr0]].
    destruct (get_cell_new_column v c (columns d) r0 Hm (Hwf r0 Hr0))
      as [-> ->].
    split; [reflexivity | now constructor].
Qed.

(** C10 -- In every table that [map_columns] returns, taken from a
    rectangular table, there is a column labelled [source], and in every
    row every cell under that label is the identifier of the source.
    The assignment is unconditional: when the mapping has renamed a data
    column to [source], that column is the provenance column (no column
    is added), its data is gone, and no error is recorded. *)
Theorem map_columns_provenance
        (df : DataFrame) (source_name : string) (s : ETL)
        (df' : DataFrame) :
  well_formed df ->
  fst (map_columns df source_name s) = Return (Some df') ->
  In "source" (columns df')
  /\ (forall r, In r (rows df') ->
        get_cell (columns df') r "source" = Some (Some (Str source_name))
        /\ Forall (eq (Some (Str source_name)))
                  (pick "source" (columns df') r))
  /\ (exists info,
        PyDict.get (data_sources s) source_name = Some info
        /\ columns df' =
           if PyStr.mem "source" (columns (renamed df (mapping info)))
           then columns (renamed df (mapping info))
           else columns (renamed df (mapping info)) ++ ["source"])
  /\ errors (error_handler (snd (map_columns df source_name s)))
     = errors (error_handler s).
Proof.
  intros Hwf Hres.
  destruct (PyDict.get (data_sources s) source_name) as [info|] eqn:Hget.
  - rewrite (map_columns_registered df source_name s info Hget) in *.
    cbv zeta in *.
    destruct (is_nil (available_keys df (mapping info)));
      [discriminate|].
    cbn [fst snd] in *. injection Hres as <-.
    assert (Hwf' : well_formed (renamed df (mapping info))).
    { unfold renamed. apply rename_well_formed.
      now apply getitem_list_well_formed. }
    destruct (setitem_scalar_cells (renamed df (mapping info)) "source"
                (Some (Str source_name)) Hwf') as [Hin Hcells].
    repeat split.
    + exact Hin.
    + now apply Hcells.
    + now apply Hcells.
    + exists info. split; [reflexivity|].
      unfold setitem_scalar.
      destruct (PyStr.mem "source" (columns (renamed df (mapping info))));
        reflexivity.
    + unfold warn_missing_keys.
      destruct (is_nil (missing_keys df (mapping info))); reflexivity.
  - rewrite (map_columns_unregistered df source_name s Hget) in Hres.
    discriminate.
Qed.

End MapColumns.

(** ** Consolidation *)

Section Consolidation.

Import Pandas ErrorHandler RobustMultiSourceETL.

Lemma union_columns_In (cols acc : list string) (c : string) :
  In c (union_columns acc cols) <-> In c acc \/ In c cols.
Proof.
  unfold union_columns. revert acc.
  induction cols as [|n cols IH]; intros acc; simpl; [tauto|].
  rewrite IH. destruct (PyStr.mem n acc) eqn:E.
  - apply mem_In in E. split; [tauto|].
    intros [H|[<-|H]]; tauto.
  - rewrite in_app_iff. simpl. tauto.
Qed.

Lemma union_columns_NoDup (cols acc : list string) :
  NoDup acc -> NoDup (union_columns acc cols).
Proof.
  unfold union_columns. revert acc.
  induction cols as [|n cols IH]; intros acc Hnd; simpl; [assumption|].
  apply IH. destruct (PyStr.mem n acc) eqn:E; [assumption|].
  apply mem_not_In in E.
  apply NoDup_app; [assumption | repeat constructor; tauto |].
  intros x Hx [<-|[]]. contradiction.
Qed.

Lemma all_columns_In (dfs : list DataFrame) (acc : list string) (c : string) :
  In c (fold_left (fun acc df => union_columns acc (columns df)) dfs acc)
  <-> In c acc \/ exists df, In df dfs /\ In c (columns df).
Proof.
  revert acc. induction dfs as [|d dfs IH]; intros acc; simpl.
  - split; [tauto|]. intros [H|[df [[] _]]]. assumption.
  - rewrite IH, union_columns_In. split.
    + intros [[H|H]|[df [H1 H2]]]; [tauto| |].
      * right. exists d. tauto.
      * right. exists df. tauto.
    + intros [H|[df [[<-|H1] H2]]]; [tauto|tauto|].
      right. exists df. tauto.
Qed.

Lemma all_columns_NoDup (dfs : list DataFrame) (acc : list string) :
  NoDup acc ->
  NoDup (fold_left (fun acc df => union_columns acc (columns df)) dfs acc).
Proof.
  revert acc. induction dfs as [|d dfs IH]; intros acc Hnd; simpl;
    [assumption|].
  apply IH. now apply union_columns_NoDup.
Qed.

Lemma get_cell_map (f : string -> cell) (cs : list string) (c : string) :
  In c cs -> get_cell cs (map f cs) c = Some (f c).
Proof.
  induction cs as [|n cs IH]; simpl; [tauto|].
  intros Hin. destruct (String.eqb n c) eqn:E.
  - apply String.eqb_eq in E. now subst.
  - apply IH. destruct Hin as [->|Hin]; [|assumption].
    rewrite String.eqb_refl in E. discriminate.
Qed.

Lemma stacked_length (f : DataFrame -> row -> row) (dfs : list DataFrame) :
  List.length (flat_map (fun df => map (f df) (rows df)) dfs)
  = total_rows dfs.
Proof.
  unfold total_rows, len.
  induction dfs as [|d dfs IH]; simpl; [reflexivity|].
  now rewrite length_app, length_map, IH.
Qed.

Lemma stacked_nth (f : DataFrame -> row -> row)
      (pre post : list DataFrame) (df : DataFrame)
      (rpre rpost : list row) (r : row) :
  rows df = rpre ++ r :: rpost ->
  nth_error (flat_map (fun df => map (f df) (rows df)) (pre ++ df :: post))
            (total_rows pre + List.length rpre)
  = Some (f df r).
Proof.
  intros Hrows. rewrite flat_map_app.
  rewrite nth_error_app2; rewrite stacked_length; [|lia].
  replace (total_rows pre + List.length rpre - total_rows pre)
    with (List.length rpre) by lia.
  simpl. rewrite Hrows, map_app. simpl.
  rewrite <- app_assoc.
  rewrite nth_error_app2; rewrite length_map; [|lia].
  now rewrite Nat.sub_diag.
Qed.

Lemma get_cell_absent (cols : list string) (r : row) (c : string) :
  ~ In c cols -> get_cell cols r c = None.
Proof.
  intros H. destruct (get_cell cols r c) eqn:G; [|reflexivity].
  apply get_cell_In in G. contradiction.
Qed.

Lemma is_unique_NoDup (cols : list string) :
  is_unique cols = true <-> NoDup cols.
Proof.
  induction cols as [|c cols IH]; simpl.
  - split; [constructor | reflexivity].
  - rewrite andb_true_iff, negb_true_iff, IH, NoDup_cons_iff.
    split; intros [H1 H2]; (split; [|assumption]).
    + now apply mem_not_In.
    + destruct (PyStr.mem c cols) eqn:E; [|reflexivity].
      apply mem_In in E. contradiction.
Qed.

Lemma all_unique_NoDup (dfs : list DataFrame) :
  forallb (fun d => is_unique (columns d)) dfs = true
  <-> forall df, In df dfs -> NoDup (columns df).
Proof.
  rewrite forallb_forall. split; intros H df Hin.
  - apply is_unique_NoDup. now apply H.
  - apply is_unique_NoDup. now apply H.
Qed.

(** [pd.concat] on frames with distinct labels. *)
Lemma concat_unique (dfs : list DataFrame) :
  dfs <> [] ->
  (forall df, In df dfs -> NoDup (columns df)) ->
  concat dfs = Return (outer_concat dfs).
Proof.
  intros Hne Hnd. destruct dfs as [|d dfs]; [contradiction|].
  unfold concat. apply all_unique_NoDup in Hnd. now rewrite Hnd.
Qed.

(** [pd.concat] on frames of which one has a repeated label, and which
    do not all carry the same labels. *)
Lemma concat_raises (dfs : list DataFrame) :
  (exists df, In df dfs /\ ~ NoDup (columns df)) ->
  same_labels dfs = false ->
  exists e, concat dfs = Raise e.
Proof.
  intros [df [Hin Hdup]] Hsame.
  destruct dfs as [|d dfs]; [contradiction|].
  unfold concat. rewrite Hsame.
  destruct (forallb (fun d => is_unique (columns d)) (d :: dfs)) eqn:Hu.
  - contradiction Hdup.
    exact (proj1 (all_unique_NoDup (d :: dfs)) Hu df Hin).
  - eexists. reflexivity.
Qed.

Lemma equals_eq (a b : list string) : equals a b = true <-> a = b.
Proof.
  revert b. induction a as [|x a IH]; intros [|y b]; simpl;
    try (split; [discriminate | discriminate]); [tauto|].
  rewrite andb_true_iff, String.eqb_eq, IH.
  split; [intros [-> ->]; reflexivity | intros H; injection H; auto].
Qed.

Lemma union_columns_fresh (cols acc : list string) :
  NoDup (acc ++ cols) -> union_columns acc cols = acc ++ cols.
Proof.
  unfold union_columns. revert acc.
  induction cols as [|c cols IH]; intros acc Hnd; simpl.
  - now rewrite app_nil_r.
  - assert (E : PyStr.mem c acc = false).
    { apply mem_not_In. intros Hin.
      apply NoDup_remove_2 in Hnd. apply Hnd.
      apply in_or_app. now left. }
    rewrite E.
    replace (acc ++ c :: cols) with ((acc ++ [c]) ++ cols)
      by (rewrite <- app_assoc; reflexivity).
    apply IH. now rewrite <- app_assoc.
Qed.

Lemma union_columns_known (cols acc : list string) :
  (forall c, In c cols -> In c acc) -> union_columns acc cols = acc.
Proof.
  unfold union_columns.
  induction cols as [|c cols IH]; intros Hin; simpl; [reflexivity|].
  assert (E : PyStr.mem c acc = true)
    by (apply mem_In, Hin; now left).
  rewrite E. apply IH. intros x Hx. apply Hin. now right.
Qed.

Lemma reindex_row_same (cols : list string) (r : row) :
  NoDup cols -> List.length r = List.length cols ->
  reindex_row cols cols r = r.
Proof.
  unfold reindex_row. revert r.
  induction cols as [|n cols IH]; intros [|x r] Hnd Hlen;
    try discriminate; [reflexivity|].
  apply NoDup_cons_iff in Hnd as [Hn Hnd]. injection Hlen as Hlen.
  cbn [map get_cell]. rewrite String.eqb_refl. f_equal.
  etransitivity; [|exact (IH r Hnd Hlen)].
  apply map_ext_in. intros c Hc.
  destruct (String.eqb n c) eqn:E; [|reflexivity].
  apply String.eqb_eq in E. subst c. contradiction.
Qed.

(** On rectangular frames that all carry the same distinct labels, the
    outer join stacks the rows as they are. *)
Lemma outer_concat_same_labels (df : DataFrame) (dfs : list DataFrame) :
  NoDup (columns df) ->
  same_labels (df :: dfs) = true ->
  Forall well_formed (df :: dfs) ->
  outer_concat (df :: dfs)
  = mkDataFrame (columns df) (flat_map rows (df :: dfs)).
Proof.
  intros Hnd Hsame Hwf. cbn [same_labels] in Hsame.
  assert (Hall : forall d, In d (df :: dfs) -> columns d = columns df).
  { intros d [<-|Hd]; [reflexivity|].
    rewrite forallb_forall in Hsame. now apply equals_eq, Hsame. }
  assert (Hcols : fold_left (fun acc d => union_columns acc (columns d))
                            (df :: dfs) [] = columns df).
  { cbn [fold_left].
    rewrite (union_columns_fresh (columns df) [] Hnd). cbn [app].
    assert (Hrest : forall d, In d dfs -> columns d = columns df)
      by (intros d Hd; apply Hall; now right).
    clear - Hrest. induction dfs as [|d dfs IH]; [reflexivity|].
    cbn [fold_left]. rewrite union_columns_known.
    - apply IH. intros x Hx. apply Hrest. now right.
    - intros c Hc. rewrite <- (Hrest d); [assumption | now left]. }
  unfold outer_concat. rewrite Hcols. f_equal.
  apply flat_map_ext_In. intros d Hd.
  rewrite (Hall d Hd).
  rewrite Forall_forall in Hwf. specialize (Hwf d Hd).
  unfold well_formed in Hwf. rewrite (Hall d Hd) in Hwf.
  etransitivity; [|apply map_id].
  apply map_ext_in. intros r Hr.
  apply reindex_row_same; [assumption|].
  rewrite Forall_forall in Hwf. now apply Hwf.
Qed.

(** C6 (amended) -- Consolidation of the surviving tables.  It never
    raises, and it reports success exactly when a table survived and
    the tables can be joined: their labels are distinct within each
    table, or all tables carry the same labels.  Without a surviving
    table it logs that there is nothing to consolidate.  When every
    surviving table has distinct column labels, the consolidated table
    has as columns the union of the columns of the inputs, each once;
    its number of rows is the sum of theirs; the rows are stacked in the
    order of registration, one for each input row; the cell of such a
    row under a column is the cell of the input row, or missing when the
    table of that row does not have the column; and the ledger is left
    as it is.  When a surviving table has a repeated label and the
    tables do not all carry the same labels, consolidation reports
    failure although tables survived: the exception of the join is
    caught and logged, and no consolidated table is set. *)
Theorem consolidate_union (s : ETL) :
  let '(result, s') := consolidate s in
  result
  = Return (negb (is_nil (surviving s))
            && (forallb (fun d => is_unique (columns d)) (surviving s)
                || same_labels (surviving s)))
  /\ (surviving s = [] ->
      consolidated_data s' = consolidated_data s
      /\ error_handler s'
         = ErrorHandler.log_error "consolidation"
             "No data sources to consolidate"
             (Some "All sources failed to process") (error_handler s))
  /\ (surviving s <> [] ->
      (forall df, In df (surviving s) -> NoDup (columns df)) ->
      result = Return true
      /\ exists table,
        consolidated_data s' = Some table
        /\ error_handler s' = error_handler s
        /\ NoDup (columns table)
        /\ (forall c, In c (columns table)
                      <-> exists df, In df (surviving s) /\ In c (columns df))
        /\ len table = total_rows (surviving s)
        /\ (forall pre df post rpre r rpost,
              surviving s = pre ++ df :: post ->
              rows df = rpre ++ r :: rpost ->
              exists r',
                nth_error (rows table) (total_rows pre + List.length rpre)
                = Some r'
                /\ forall c,
                    In c (columns table) ->
                    get_cell (columns table) r' c
                    = Some (cell_or_null (get_cell (columns df) r c))
                    /\ (~ In c (columns df) ->
                        get_cell (columns table) r' c = Some Null)))
  /\ (surviving s <> [] ->
      (exists df, In df (surviving s) /\ ~ NoDup (columns df)) ->
      same_labels (surviving s) = false ->
      result = Return false
      /\ consolidated_data s' = consolidated_data s
      /\ exists details,
           error_handler s'
           = ErrorHandler.log_error "consolidation"
               "Failed to consolidate data" (Some details) (error_handler s)).
Proof.
  unfold consolidate, try_except, bind, get, lift_outcome, log_error,
    modify, ret.
  fold (surviving s).
  destruct (surviving s) as [|d0 dfs] eqn:Hs.
  - cbn. split; [reflexivity|]. split; [now split|].
    split; intros H; now contradiction H.
  - cbn [is_nil negb andb].
    destruct (concat (d0 :: dfs)) as [table|e] eqn:Hcat.
    + cbn [fst snd consolidated_data with_consolidated_data error_handler].
      split; [|split; [discriminate|split]].
      * unfold concat in Hcat.
        destruct (forallb (fun d => is_unique (columns d)) (d0 :: dfs));
          [reflexivity|].
        destruct (same_labels (d0 :: dfs)); [reflexivity | discriminate].
      * intros _ Hnd. split; [reflexivity|].
        rewrite concat_unique in Hcat; [|discriminate|assumption].
        injection Hcat as <-.
        exists (outer_concat (d0 :: dfs)). repeat split.
        -- unfold outer_concat. cbn [columns]. apply all_columns_NoDup.
           constructor.
        -- unfold outer_concat. cbn [columns]. intros H.
           apply all_columns_In in H as [[]|H]. exact H.
        -- unfold outer_concat. cbn [columns]. intros H.
           apply all_columns_In. now right.
        -- unfold outer_concat, len. cbn [rows]. apply stacked_length.
        -- intros pre df post rpre r rpost Hsplit Hrows.
           rewrite Hsplit. set (all := pre ++ df :: post).
           set (cols := columns (outer_concat all)).
           exists (reindex_row cols (columns df) r). split.
           ++ change (rows (outer_concat all)) with
                (flat_map (fun d => map (reindex_row cols (columns d))
                                        (rows d)) all).
              unfold all.
              exact (stacked_nth (fun df => reindex_row cols (columns df))
                                 pre post df rpre rpost r Hrows).
           ++ intros c Hc. unfold reindex_row.
              rewrite (get_cell_map
                         (fun c => match get_cell (columns df) r c with
                                   | Some x => x
                                   | None => Null
                                   end) cols c Hc).
              split; [reflexivity|].
              intros Habs.
              now rewrite (get_cell_absent (columns df) r c Habs).
      * intros _ Hdup Hsame.
        destruct (concat_raises (d0 :: dfs) Hdup Hsame) as [e He].
        rewrite He in Hcat. discriminate.
    + cbn [fst snd consolidated_data with_error_handler error_handler].
      split; [|split; [discriminate|split]].
      * unfold concat in Hcat.
        destruct (forallb (fun d => is_unique (columns d)) (d0 :: dfs));
          [discriminate|].
        destruct (same_labels (d0 :: dfs)); [discriminate | reflexivity].
      * intros _ Hnd.
        rewrite concat_unique in Hcat; [discriminate|discriminate|assumption].
      * intros _ _ _. split; [reflexivity|]. split; [reflexivity|].
        now exists (str_exn e).
Qed.

End Consolidation.

(** C6, as stated, fails: consolidation can fail although tables
    survived.  The first source of the sample pipeline renames two
    columns of its file to [employee_id]; both sources are extracted and
    mapped, the first table carrying that label twice; the join of the
    two tables raises, and [consolidate] returns False with an error,
    sets no consolidated table, and the run ends in
    [failed_consolidate]. *)
Lemma consolidate_fails_with_tables :
  let fs := Sample.disk [("in/a.csv", Sample.badges);
                         ("in/b.csv", Sample.staff)] in
  let s_x := snd (RobustMultiSourceETL.extract_and_map_all
                    (L := Sample.lib) fs Sample.shared_label) in
  fst (RobustMultiSourceETL.extract_and_map_all
         (L := Sample.lib) fs Sample.shared_label) = Return true
  /\ map columns (surviving s_x)
     = [["employee_id"; "employee_id"; "source"]; ["employee_id"; "source"]]
  /\ map Pandas.len (surviving s_x) = [2; 2]
  /\ fst (RobustMultiSourceETL.consolidate s_x) = Return false
  /\ consolidated_data (snd (RobustMultiSourceETL.consolidate s_x)) = None
  /\ ErrorHandler.errors
       (error_handler (snd (RobustMultiSourceETL.consolidate s_x)))
     = [ErrorHandler.mkError "consolidation" "Failed to consolidate data"
          (Some "Reindexing only valid with uniquely valued Index objects")]
  /\ RobustMultiSourceETL.run (L := Sample.lib) fs "out.csv" None
                              Sample.shared_label
     = (Return false,
        RobustMultiSourceETL.with_pipeline_status failed_consolidate
          (RobustMultiSourceETL.with_error_handler
             (ErrorHandler.log_error "pipeline" "Consolidation phase failed"
                (Some "Could not merge sources")
                (error_handler (snd (RobustMultiSourceETL.consolidate s_x))))
             s_x)).
Proof. vm_compute. repeat split. Qed.

(** ** Transformation *)

Section Transform.

Import Pandas ErrorHandler RobustMultiSourceETL.

Context {L : Lib}.

Lemma rowwise_refl (t : DataFrame) : rowwise t t.
Proof. exists (fun r => r). now rewrite map_id. Qed.

Lemma rowwise_trans (t1 t2 t3 : DataFrame) :
  rowwise t1 t2 -> rowwise t2 t3 -> rowwise t1 t3.
Proof.
  intros [F HF] [G HG]. exists (fun r => G (F r)).
  now rewrite HG, HF, map_map.
Qed.

Lemma rowwise_len (t t' : DataFrame) : rowwise t t' -> len t' = len t.
Proof. intros [F HF]. unfold len. now rewrite HF, length_map. Qed.

Lemma apply_column_rowwise (f : cell -> cell) (t : DataFrame) (col : string) :
  rowwise t (apply_column f t col).
Proof.
  unfold apply_column. rewrite setitem_map.
  now eexists (fun r => update_row _ col (columns t) r).
Qed.

Lemma format_date_columns_rowwise (config : option Config) (t : DataFrame) :
  rowwise t (format_date_columns config t).
Proof.
  unfold format_date_columns.
  generalize (match config with
              | Some c => if config_truthy config
                          then match date_columns c with
                               | Some l => l
                               | None => []
                               end
                          else []
              | None => []
              end).
  intros l. revert t. induction l as [|col l IH]; intros t; simpl.
  - apply rowwise_refl.
  - eapply rowwise_trans; [|apply IH].
    destruct (PyStr.mem col (columns t));
      [apply apply_column_rowwise | apply rowwise_refl].
Qed.

Lemma rectify_missing_values_rowwise (rules : PyDict.dict value)
      (t : DataFrame) (h : ErrorHandler.t) :
  rowwise t (fst (DataValidator.rectify_missing_values t rules h)).
Proof.
  unfold DataValidator.rectify_missing_values.
  revert t h. induction rules as [|[col v] rules IH]; intros t h.
  - apply rowwise_refl.
  - cbn [fold_left].
    destruct (DataValidator.fill_rule (t, h) (col, v)) as [t1 h1] eqn:E.
    eapply rowwise_trans; [|apply IH].
    unfold DataValidator.fill_rule in E.
    destruct (PyStr.mem col (columns t));
      [destruct (0 <? count_na (getitem t col))%nat|];
      injection E as <- <-;
      first [apply (apply_column_rowwise (fillna v)) | apply rowwise_refl].
Qed.

Lemma drop_seen_map_length (F : row -> row) (rs : list row) :
  List.length (drop_seen [] (map F rs)) <= List.length (drop_seen [] rs).
Proof.
  rewrite <- (length_map F (drop_seen [] rs)).
  apply NoDup_incl_length; [apply drop_seen_NoDup|].
  intros x Hx. apply drop_seen_In in Hx as [Hx _].
  apply in_map_iff in Hx as [r [<- Hr]].
  apply in_map. apply drop_seen_In. split; [assumption | intros []].
Qed.

Lemma fill_missing_runs (config : option Config) (t : DataFrame) (s : ETL) :
  exists t' s',
    fill_missing config t s = (Return t', s')
    /\ rowwise t t'.
Proof.
  unfold fill_missing.
  match goal with |- context [negb (is_nil ?r)] => generalize r end.
  intros rules. destruct (negb (is_nil rules)).
  - unfold on_ledger.
    pose proof (rectify_missing_values_rowwise rules t (error_handler s)) as H.
    destruct (DataValidator.rectify_missing_values t rules (error_handler s))
      as [t' h'].
    now exists t', (with_error_handler h' s).
  - exists t, s. split; [reflexivity | apply rowwise_refl].
Qed.

Lemma select_final_columns_runs (config : option Config) (t : DataFrame)
      (s : ETL) :
  exists t' s',
    select_final_columns config t s = (Return t', s')
    /\ len t' = len t.
Proof.
  unfold select_final_columns.
  destruct config as [c|]; [|now exists t, s].
  destruct (final_columns c) as [final_cols|]; [|now exists t, s].
  destruct (config_truthy (Some c) && negb (is_nil final_cols));
    [|now exists t, s].
  unfold bind, log_warning, modify, ret.
  match goal with |- context [is_nil ?m] => destruct (is_nil m) end;
    eexists; eexists; (split; [reflexivity|]);
    unfold len, getitem_list; simpl; now rewrite length_map.
Qed.

Lemma wants_duplicates_removed_iff (config : option Config) :
  wants_duplicates_removed config = true
  <-> exists c, config = Some c
                /\ config_truthy (Some c) = true
                /\ remove_duplicates c <> Some false.
Proof.
  unfold wants_duplicates_removed. split.
  - destruct config as [c|]; [|rewrite andb_false_r; discriminate].
    intros H. apply andb_true_iff in H as [Ht Hr].
    exists c. repeat split; [assumption|].
    intros E. rewrite E in Hr. discriminate.
  - intros [c [-> [Ht Hr]]]. rewrite Ht. simpl.
    destruct (remove_duplicates c) as [[|]|]; congruence.
Qed.

Lemma select_final_columns_projects (config : option Config) (t : DataFrame)
      (s : ETL) :
  exists t' s',
    select_final_columns config t s = (Return t', s')
    /\ rowwise t t'
    /\ corrections (error_handler s') = corrections (error_handler s)
    /\ (match config with
        | Some c => final_columns c
        | None => None
        end = None -> t' = t).
Proof.
  assert (Hsame : exists t' s',
             ret t s = (Return t', s')
             /\ rowwise t t'
             /\ corrections (error_handler s') = corrections (error_handler s)
             /\ (match config with
                 | Some c => final_columns c
                 | None => None
                 end = None -> t' = t)).
  { exists t, s. repeat split. apply rowwise_refl. }
  unfold select_final_columns.
  destruct config as [c|]; [|exact Hsame].
  destruct (final_columns c) as [final_cols|]; [|exact Hsame].
  destruct (config_truthy (Some c) && negb (is_nil final_cols));
    [|exact Hsame].
  unfold bind, log_warning, modify, ret.
  match goal with |- context [is_nil ?m] => destruct (is_nil m) end;
    eexists; eexists; (split; [reflexivity|]);
    (split; [now eexists|]); (split; [reflexivity | discriminate]).
Qed.

Lemma drop_seen_shrinks (rs : list row) :
  ~ NoDup rs -> List.length (drop_seen [] rs) < List.length rs.
Proof.
  intros Hdup. pose proof (drop_seen_length rs []) as Hle.
  destruct (Nat.eq_dec (List.length (drop_seen [] rs)) (List.length rs))
    as [E|E]; [|lia].
  contradiction Hdup.
  apply NoDup_incl_NoDup with (l := drop_seen [] rs).
  - apply drop_seen_NoDup.
  - lia.
  - intros r Hr. now apply drop_seen_In in Hr.
Qed.

(** C3 (amended) -- On a consolidated table with distinct column
    labels, the transform phase removes exact full-row duplicates
    whenever a non-empty configuration is supplied that does not set
    [remove_duplicates] to false.  The duplicate step then receives the
    table [before] that gender normalization, date formatting and
    missing-value filling make of the consolidated table, row by row,
    and keeps [drop_duplicates before]: the first occurrence of every
    row, so that the kept rows are pairwise different and a row is kept
    exactly when it occurs in [before].  The transformed table is the
    projection of the kept table on the final columns, row by row, and
    the kept table itself when no final column is requested.  It has no
    more rows than the consolidated table has distinct rows, and fewer
    rows than the consolidated table when that contains a duplicate; a
    correction with the number of removed rows is logged exactly when a
    row was removed.  When no configuration or an empty one is supplied,
    or when it sets [remove_duplicates] to false, the step is skipped:
    no row is removed and no such correction is logged. *)
Theorem transform_removes_duplicates
        (config : option Config) (s : ETL) (consolidated : DataFrame) :
  consolidated_data s = Some consolidated ->
  NoDup (columns consolidated) ->
  let '(result, s') := transform config s in
  result = Return true
  /\ (exists before s3 t s4 s5,
        fill_missing config
          (format_date_columns config (normalize_gender_column consolidated)) s
        = (Return before, s3)
        /\ rowwise consolidated before
        /\ transformed_data s' = Some t
        /\ let kept := if wants_duplicates_removed config
                       then drop_duplicates before else before in
           let removed := len before - len kept in
           select_final_columns config kept s4 = (Return t, s5)
           /\ rowwise kept t
           /\ (match config with
               | Some c => final_columns c
               | None => None
               end = None -> t = kept)
           /\ NoDup (rows (drop_duplicates before))
           /\ (forall r, In r (rows (drop_duplicates before))
                         <-> In r (rows before))
           /\ corrections (error_handler s')
              = corrections (error_handler s3)
                  ++ (if wants_duplicates_removed config && (0 <? removed)%nat
                      then [mkCorrection "transform" "Removed duplicate rows"
                                         removed]
                      else [])
           /\ if wants_duplicates_removed config
              then len t = len (drop_duplicates before)
                   /\ len t <= len (drop_duplicates consolidated)
                   /\ (~ NoDup (rows consolidated) -> len t < len consolidated)
              else len t = len consolidated)
  /\ (wants_duplicates_removed config = true
      <-> exists c, config = Some c
                    /\ config_truthy (Some c) = true
                    /\ remove_duplicates c <> Some false).
Proof.
  intros Hc _. unfold transform, try_except, bind, get. rewrite Hc.
  pose proof (format_date_columns_rowwise config
                (normalize_gender_column consolidated)) as Hdates.
  assert (Hgender : rowwise consolidated (normalize_gender_column consolidated)).
  { unfold normalize_gender_column.
    destruct (PyStr.mem "gender" (columns consolidated));
      [apply apply_column_rowwise | apply rowwise_refl]. }
  set (t2 := format_date_columns config (normalize_gender_column consolidated))
    in *.
  destruct (fill_missing_runs config t2 s) as (t3 & s3 & Hfm & Hfill).
  rewrite Hfm.
  assert (H3 : rowwise consolidated t3).
  { eapply rowwise_trans; [exact Hgender|].
    eapply rowwise_trans; [exact Hdates | exact Hfill]. }
  set (kept := if wants_duplicates_removed config
               then drop_duplicates t3 else t3).
  set (removed := len t3 - len kept).
  assert (Hdup : exists s4,
             remove_duplicate_rows config t3 s3 = (Return kept, s4)
             /\ corrections (error_handler s4)
                = corrections (error_handler s3)
                    ++ (if wants_duplicates_removed config
                           && (0 <? removed)%nat
                        then [mkCorrection "transform"
                                "Removed duplicate rows" removed]
                        else [])).
  { unfold remove_duplicate_rows, removed, kept.
    destruct (wants_duplicates_removed config); cbn [andb].
    - unfold on_ledger, DataValidator.rectify_duplicates.
      destruct (0 <? len t3 - len (drop_duplicates t3))%nat;
        eexists; (split; [reflexivity|]); cbn;
        [reflexivity | now rewrite app_nil_r].
    - exists s3. split; [reflexivity | now rewrite app_nil_r]. }
  destruct Hdup as (s4 & Hrm & Hcorr). rewrite Hrm.
  destruct (select_final_columns_projects config kept s4)
    as (t5 & s5 & Hsel & Hproj & Hc5 & Hnone).
  rewrite Hsel. cbn. split; [reflexivity|]. split.
  - exists t3, s3, t5, s4, s5.
    split; [reflexivity|]. split; [exact H3|]. split; [reflexivity|].
    split; [exact Hsel|]. split; [exact Hproj|]. split; [exact Hnone|].
    split; [unfold drop_duplicates; simpl; apply drop_seen_NoDup|].
    split.
    { intros r. unfold drop_duplicates. simpl.
      rewrite drop_seen_In. simpl. tauto. }
    split; [now rewrite Hc5|].
    pose proof (rowwise_len kept t5 Hproj) as H5.
    pose proof (rowwise_len consolidated t3 H3) as Hlen3.
    unfold kept in *. clear kept removed Hcorr Hrm Hsel Hproj Hnone.
    destruct (wants_duplicates_removed config).
    + split; [exact H5|]. split.
      * rewrite H5. destruct H3 as [F HF]. unfold len, drop_duplicates.
        simpl. rewrite HF. apply drop_seen_map_length.
      * intros Hdup. rewrite H5, <- Hlen3.
        unfold len, drop_duplicates. simpl. apply drop_seen_shrinks.
        intros Hnd. apply Hdup. destruct H3 as [F HF]. rewrite HF in Hnd.
        now apply NoDup_map_inv in Hnd.
    + now rewrite H5.
  - apply wants_duplicates_removed_iff.
Qed.

End Transform.

(** C3, as stated, fails: with no configuration, and with an empty one,
    the two equal rows of the consolidated table are both kept and no
    correction is logged, while the same table under a configuration
    that only names another key loses the duplicate. *)
Lemma transform_keeps_duplicates_without_config :
  let s := RobustMultiSourceETL.with_consolidated_data
             (Some Sample.twins) (RobustMultiSourceETL.init "in" "out") in
  let empty_config := Some (mkConfig None None None None []) in
  let other_config := Some (mkConfig None None None None ["note"]) in
  Pandas.len (Pandas.drop_duplicates Sample.twins) = 1
  /\ fst (RobustMultiSourceETL.transform (L := Sample.lib) None s)
     = Return true
  /\ transformed_data
       (snd (RobustMultiSourceETL.transform (L := Sample.lib) None s))
     = Some Sample.twins
  /\ ErrorHandler.corrections
       (error_handler
          (snd (RobustMultiSourceETL.transform (L := Sample.lib) None s)))
     = []
  /\ transformed_data
       (snd (RobustMultiSourceETL.transform (L := Sample.lib) empty_config s))
     = Some Sample.twins
  /\ transformed_data
       (snd (RobustMultiSourceETL.transform (L := Sample.lib) other_config s))
     = Some (Pandas.drop_duplicates Sample.twins).
Proof. vm_compute. repeat split. Qed.

(** ** Extraction of one source *)

(** Projections of updated pipelines, ledgers and registry entries. *)
Ltac state_simpl :=
  cbn [input_path output_path error_handler data_sources consolidated_data
       transformed_data pipeline_status
       RobustMultiSourceETL.with_error_handler
       RobustMultiSourceETL.with_data_sources
       RobustMultiSourceETL.with_consolidated_data
       RobustMultiSourceETL.with_transformed_data
       RobustMultiSourceETL.with_pipeline_status
       RobustMultiSourceETL.with_status RobustMultiSourceETL.with_data
       filename mapping data status
       ErrorHandler.errors ErrorHandler.warnings ErrorHandler.corrections
       ErrorHandler.log_error ErrorHandler.log_warning
       ErrorHandler.log_correction
       fst snd negb failure_errors survives] in *.

Section Extraction.

Import Pandas ErrorHandler RobustMultiSourceETL.

Context {L : Lib}.

Variable fs : FileSystem.

Lemma same_frame_refl (s : ETL) : same_frame s s.
Proof. repeat split. Qed.

Lemma same_frame_trans (s1 s2 s3 : ETL) :
  same_frame s1 s2 -> same_frame s2 s3 -> same_frame s1 s3.
Proof.
  unfold same_frame. intros (A1 & A2 & A3 & A4 & A5 & A6)
                            (B1 & B2 & B3 & B4 & B5 & B6).
  repeat split; congruence.
Qed.

(** A failing source: what [extract_source] followed by [map_columns]
    leaves behind. *)
Lemma process_source_fails (source_name : string) (acc : nat * list string)
      (s : ETL) (info : source_info) :
  PyDict.get (data_sources s) source_name = Some info ->
  survives (fate fs (input_path s) info) = false ->
  exists s',
    process_source fs source_name acc s
    = (Return (fst acc, snd acc ++ [source_name]), s')
    /\ same_frame s s'
    /\ PyDict.get (data_sources s') source_name
       = Some (with_status (fate fs (input_path s) info) info)
    /\ (forall k, k <> source_name ->
          PyDict.get (data_sources s') k = PyDict.get (data_sources s) k)
    /\ List.length (errors (error_handler s'))
       = List.length (errors (error_handler s))
         + failure_errors (fate fs (input_path s) info).
Proof.
  intros Hget Hfate. destruct acc as [n failed].
  unfold fate in *.
  unfold process_source, extract_source.
  unfold try_except, bind, source, get, on_ledger, set_status, source,
    lift_outcome, log_error, log_warning, modify, ret, bind,
    DataValidator.validate_file_exists.
  rewrite Hget. cbn [fst snd].
  destruct (negb (fs_exists fs (PyPath.join (input_path s) (filename info))))
    eqn:Hex.
  - state_simpl. rewrite Hget. state_simpl.
    eexists. split; [reflexivity|].
    split; [|split; [|split]].
    + repeat split. state_simpl. eapply keys_set; eassumption.
    + state_simpl. eapply get_set_same; eassumption.
    + intros k Hk. state_simpl. apply get_set_other. congruence.
    + state_simpl. now rewrite length_app.
  - state_simpl.
    destruct (read_file fs (PyPath.join (input_path s) (filename info)))
      as [df|e] eqn:Hread.
    + state_simpl. rewrite Hget. state_simpl.
      unfold DataValidator.validate_dataframe.
      destruct (negb (is_nil (DataValidator.frame_issues df))) eqn:Hiss.
      * state_simpl. rewrite (get_set_same _ _ _ _ Hget). state_simpl.
        eexists. split; [reflexivity|].
        split; [|split; [|split]].
        -- repeat split. state_simpl.
           erewrite keys_set; [|eapply get_set_same; eassumption].
           eapply keys_set; eassumption.
        -- state_simpl. eapply get_set_same. eapply get_set_same; eassumption.
        -- intros k Hk. state_simpl.
           rewrite !get_set_other by congruence. reflexivity.
        -- state_simpl. simpl. lia.
      * state_simpl.
        match goal with
        | |- context [map_columns df source_name ?st] => set (s1 := st)
        end.
        assert (Hget1 : PyDict.get (data_sources s1) source_name
                        = Some (with_status extracted info)).
        { unfold s1. state_simpl. eapply get_set_same; eassumption. }
        rewrite (map_columns_registered df source_name s1 _ Hget1).
        cbv zeta. cbn [mapping with_status].
        destruct (is_nil (available_keys df (mapping info))) eqn:Hav;
          [|discriminate].
        unfold s1. state_simpl.
        eexists. split; [reflexivity|].
        split; [|split; [|split]].
        -- repeat split. state_simpl.
           erewrite keys_set; [|eapply get_set_same; eassumption].
           eapply keys_set; eassumption.
        -- state_simpl. erewrite set_set by eassumption.
           eapply get_set_same; eassumption.
        -- intros k Hk. state_simpl.
           rewrite !get_set_other by congruence. reflexivity.
        -- state_simpl. unfold warn_missing_keys.
           destruct (is_nil (missing_keys df (mapping info))); state_simpl;
             simpl; now rewrite length_app.
    + state_simpl. rewrite Hget. state_simpl.
      eexists. split; [reflexivity|].
      split; [|split; [|split]].
      * repeat split. state_simpl. eapply keys_set; eassumption.
      * state_simpl. eapply get_set_same; eassumption.
      * intros k Hk. state_simpl. apply get_set_other. congruence.
      * state_simpl. now rewrite length_app.
Qed.

Lemma In_get {V : Type} (d : PyDict.dict V) (k : string) (v : V) :
  NoDup (PyDict.keys d) -> In (k, v) d -> PyDict.get d k = Some v.
Proof.
  induction d as [|[k' v'] d IH]; simpl; [tauto|].
  intros Hnd [Heq|Hin].
  - injection Heq as -> ->. now rewrite String.eqb_refl.
  - apply NoDup_cons_iff in Hnd as [Hk Hnd].
    destruct (String.eqb k' k) eqn:E; [|now apply IH].
    apply String.eqb_eq in E. subst k'. exfalso. apply Hk.
    unfold PyDict.keys. apply in_map_iff. now exists (k, v).
Qed.

Lemma map_get_keys {V A : Type} (g : option V -> A) (d : PyDict.dict V) :
  NoDup (PyDict.keys d) ->
  map (fun k => g (PyDict.get d k)) (PyDict.keys d)
  = map (fun kv => g (Some (snd kv))) d.
Proof.
  induction d as [|[k v] d IH]; simpl; [reflexivity|].
  intros Hnd. apply NoDup_cons_iff in Hnd as [Hk Hnd].
  rewrite String.eqb_refl. f_equal. rewrite <- (IH Hnd).
  apply map_ext_in. intros k' Hk'.
  destruct (String.eqb k k') eqn:E; [|reflexivity].
  apply String.eqb_eq in E. subst k'. contradiction.
Qed.

Lemma process_sources_all_fail (names : list string) :
  NoDup names ->
  forall (acc : nat * list string) (s : ETL),
  (forall name, In name names ->
     exists info, PyDict.get (data_sources s) name = Some info
                  /\ survives (fate fs (input_path s) info) = false) ->
  exists s',
    process_sources fs names acc s = (Return (fst acc, snd acc ++ names), s')
    /\ same_frame s s'
    /\ (forall name info,
          In name names ->
          PyDict.get (data_sources s) name = Some info ->
          PyDict.get (data_sources s') name
          = Some (with_status (fate fs (input_path s) info) info))
    /\ (forall k, ~ In k names ->
          PyDict.get (data_sources s') k = PyDict.get (data_sources s) k)
    /\ List.length (errors (error_handler s'))
       = List.length (errors (error_handler s)) + errors_of_failures fs s names.
Proof.
  unfold errors_of_failures.
  induction names as [|name rest IH]; intros Hnd acc s Hall.
  - exists s. simpl. rewrite app_nil_r. destruct acc as [n failed].
    split; [reflexivity|]. split; [apply same_frame_refl|].
    repeat split; try tauto. now rewrite Nat.add_0_r.
  - apply NoDup_cons_iff in Hnd as [Hname Hnd].
    destruct (Hall name (or_introl eq_refl)) as (info & Hget & Hfate).
    destruct (process_source_fails name acc s info Hget Hfate)
      as (s1 & Hrun & Hframe & Hget1 & Hother & Herr).
    assert (Hpath : input_path s1 = input_path s) by apply Hframe.
    assert (Hall1 : forall k, In k rest ->
              exists i, PyDict.get (data_sources s1) k = Some i
                        /\ survives (fate fs (input_path s1) i) = false).
    { intros k Hk. rewrite Hpath, Hother by (intros ->; contradiction).
      apply Hall. now right. }
    destruct (IH Hnd (fst acc, snd acc ++ [name]) s1 Hall1)
      as (s' & Hrun' & Hframe' & Hget' & Hother' & Herr').
    exists s'. split; [|split; [|split; [|split]]].
    + cbn [process_sources]. unfold bind. rewrite Hrun.
      rewrite Hrun'. cbn [fst snd]. now rewrite <- app_assoc.
    + eapply same_frame_trans; eassumption.
    + intros k i [<-|Hk] Hi.
      * rewrite Hother' by assumption. rewrite Hget1. congruence.
      * rewrite <- Hpath. apply Hget'; [assumption|].
        rewrite Hother by (intros ->; contradiction). assumption.
    + intros k Hk. rewrite Hother'.
      * apply Hother. intros ->. apply Hk. now left.
      * intros H. apply Hk. now right.
    + rewrite Herr', Herr. cbn [map list_sum]. rewrite Hget.
      rewrite Hpath.
      rewrite (map_ext_in
                 (fun k => match PyDict.get (data_sources s1) k with
                           | Some i => failure_errors (fate fs (input_path s) i)
                           | None => 0
                           end)
                 (fun k => match PyDict.get (data_sources s) k with
                           | Some i => failure_errors (fate fs (input_path s) i)
                           | None => 0
                           end) rest).
      * rewrite <- Nat.add_assoc. reflexivity.
      * intros k Hk. rewrite Hother by (intros ->; contradiction).
        reflexivity.
Qed.

End Extraction.

(** ** The run *)

Section Run.

Import Pandas ErrorHandler RobustMultiSourceETL.

Context {L : Lib}.

Variable fs : FileSystem.

Lemma finally_block (s : ETL) :
  bind get
       (fun s => bind (lift_outcome
                         (save_error_log fs (error_handler s) (output_path s)))
                      (fun _ => print_error_summary)) s
  = (finally_result fs s, s).
Proof.
  unfold bind, print_error_summary, bind, get, lift_outcome,
    enumerate_int, raise, ret, finally_result.
  destruct (save_error_log fs _ _); [|reflexivity].
  cbn [get_error_report total_warnings].
  destruct (warnings (error_handler s)); reflexivity.
Qed.

Lemma try_finally_run {A : Type} (m : M A) (fin : M unit) (s : ETL)
      (r : outcome A) (s1 : ETL) (o : outcome unit) :
  m s = (r, s1) -> fin s1 = (o, s1) ->
  try_finally m fin s
  = (match o with
     | Return _ => r
     | Raise e => Raise e
     end, s1).
Proof.
  intros Hm Hfin. unfold try_finally. rewrite Hm, Hfin.
  destruct o; reflexivity.
Qed.

Lemma extract_and_map_all_fail (s : ETL) :
  NoDup (PyDict.keys (data_sources s)) ->
  (forall name info, In (name, info) (data_sources s) ->
     survives (fate fs (input_path s) info) = false) ->
  exists s',
    extract_and_map_all fs s = (Return false, s')
    /\ same_frame s s'
    /\ (forall name info,
          In (name, info) (data_sources s) ->
          PyDict.get (data_sources s') name
          = Some (with_status (fate fs (input_path s) info) info))
    /\ List.length (errors (error_handler s'))
       = List.length (errors (error_handler s))
         + list_sum (map (fun kv => failure_errors
                                      (fate fs (input_path s) (snd kv)))
                         (data_sources s)).
Proof.
  intros Hnd Hall.
  assert (Hall' : forall name, In name (PyDict.keys (data_sources s)) ->
            exists info, PyDict.get (data_sources s) name = Some info
                         /\ survives (fate fs (input_path s) info) = false).
  { intros name Hin. unfold PyDict.keys in Hin.
    apply in_map_iff in Hin as [[k info] [<- Hin]].
    exists info. split; [now apply In_get | now apply (Hall k)]. }
  destruct (process_sources_all_fail fs (PyDict.keys (data_sources s)) Hnd
              (0, []) s Hall')
    as (s' & Hrun & Hframe & Hget & _ & Herr).
  exists s'. split; [|split; [|split]].
  - unfold extract_and_map_all, bind, get, ret. rewrite Hrun. reflexivity.
  - exact Hframe.
  - intros name info Hin. apply Hget.
    + unfold PyDict.keys. apply in_map_iff. now exists (name, info).
    + now apply In_get.
  - rewrite Herr. f_equal. unfold errors_of_failures. f_equal.
    exact (map_get_keys
             (fun o => match o with
                       | Some info => failure_errors (fate fs (input_path s) info)
                       | None => 0
                       end) (data_sources s) Hnd).
Qed.

(** The run returns the status of its phases unless its [finally] block
    raises. *)
Lemma run_returns_unless_finally_raises
      (output_filename : string) (config : option Config) (s : ETL) :
  exists b s',
    run fs output_filename config s
    = (match finally_result fs s' with
       | Return _ => Return b
       | Raise e => Raise e
       end, s').
Proof.
  unfold run.
  set (phases := run_phases fs output_filename config).
  assert (H : exists b s', try_except phases
                (fun e =>
                   bind (log_error "pipeline" "Unexpected pipeline error"
                                   (Some (str_exn e)))
                        (fun _ => bind (set_pipeline_status failed_unexpected)
                                       (fun _ => ret false))) s
              = (Return b, s')).
  { unfold try_except. destruct (phases s) as [[b|e] s1].
    - now exists b, s1.
    - eexists. eexists. reflexivity. }
  destruct H as (b & s' & H). exists b, s'.
  apply try_finally_run; [exact H | apply finally_block].
Qed.

(** C5 (amended) -- When every registered source fails extraction,
    validation or mapping, the run ends with the status
    [failed_extract]; consolidation, transformation and loading are not
    executed: the pipeline is left as the extraction phase left it, with
    the error of the phase appended and the status set, so the
    consolidated and transformed tables stay as they were; every source
    has the status of its failure.  The ledger gains one error for the
    phase and one for every source that failed otherwise than by
    validation, which gives a warning; when every source points at a
    missing file, the number of errors is at least the number of
    sources. *)
Theorem run_all_sources_fail
        (output_filename : string) (config : option Config) (s : ETL) :
  NoDup (PyDict.keys (data_sources s)) ->
  (forall name info, In (name, info) (data_sources s) ->
     survives (fate fs (input_path s) info) = false) ->
  let '(result, s') := run fs output_filename config s in
  let s_x := snd (extract_and_map_all fs s) in
  result <> Return true
  /\ pipeline_status s' = failed_extract
  /\ consolidated_data s' = consolidated_data s
  /\ transformed_data s' = transformed_data s
  /\ s' = with_pipeline_status failed_extract
            (with_error_handler
               (mk (errors (error_handler s_x) ++ [extract_phase_error])
                   (warnings (error_handler s_x))
                   (corrections (error_handler s_x))) s_x)
  /\ (forall name info,
        In (name, info) (data_sources s) ->
        PyDict.get (data_sources s') name
        = Some (with_status (fate fs (input_path s) info) info))
  /\ List.length (errors (error_handler s'))
     = List.length (errors (error_handler s))
       + list_sum (map (fun kv => failure_errors
                                    (fate fs (input_path s) (snd kv)))
                       (data_sources s))
       + 1
  /\ ((forall name info, In (name, info) (data_sources s) ->
         fate fs (input_path s) info = file_not_found) ->
      List.length (data_sources s) <= List.length (errors (error_handler s'))).
Proof.
  intros Hnd Hall.
  destruct (extract_and_map_all_fail s Hnd Hall)
    as (sx & Hx & Hframe & Hget & Herr).
  unfold run.
  rewrite (try_finally_run _ _ s (Return false)
             (with_pipeline_status failed_extract
                (with_error_handler
                   (mk (errors (error_handler sx) ++ [extract_phase_error])
                       (warnings (error_handler sx))
                       (corrections (error_handler sx))) sx))
             (finally_result fs
                (with_pipeline_status failed_extract
                   (with_error_handler
                      (mk (errors (error_handler sx) ++ [extract_phase_error])
                          (warnings (error_handler sx))
                          (corrections (error_handler sx))) sx))));
    [| unfold try_except, run_phases, bind at 1; rewrite Hx; reflexivity
     | apply finally_block ].
  rewrite Hx.
  cbn [snd].
  destruct Hframe as (F1 & F2 & F3 & F4 & F5 & F6).
  assert (Hlen : List.length (errors (error_handler sx) ++ [extract_phase_error])
                 = List.length (errors (error_handler s))
                   + list_sum (map (fun kv => failure_errors
                                      (fate fs (input_path s) (snd kv)))
                                   (data_sources s)) + 1).
  { rewrite length_app, Herr. reflexivity. }
  assert (Hmissing :
            (forall name info, In (name, info) (data_sources s) ->
               fate fs (input_path s) info = file_not_found) ->
            List.length (data_sources s)
            <= List.length (errors (error_handler sx) ++ [extract_phase_error])).
  { intros Hnf. rewrite Hlen.
    assert (Hsum : list_sum (map (fun kv => failure_errors
                                    (fate fs (input_path s) (snd kv)))
                                 (data_sources s))
                   = List.length (data_sources s)).
    { clear - Hnf. induction (data_sources s) as [|[k i] d IH];
        [reflexivity|].
      cbn [map list_sum fold_right snd List.length].
      rewrite (Hnf k i) by now left.
      fold (list_sum (map (fun kv => failure_errors
                                       (fate fs (input_path s) (snd kv))) d)).
      rewrite IH; [reflexivity|].
      intros name info Hin. apply (Hnf name info). now right. }
    rewrite Hsum. clear. lia. }
  destruct (finally_result fs _);
    state_simpl; (split; [discriminate|]); repeat split;
    try assumption; try reflexivity.
Qed.

End Run.

(* ================================================================== *)
(** * The properties on sample data *)

Section Samples.

Import Pandas ErrorHandler RobustMultiSourceETL.

(** C1 -- The run raises.  The only source of the sample pipeline is
    read, mapped, consolidated, transformed and loaded, and the status
    becomes [completed_successfully]; the mapping names a column that the
    file lacks, which logs a warning; the error log is written; then the
    summary iterates over the number of warnings and the run ends with a
    [TypeError] instead of returning its status. *)
Theorem run_raises_after_warning :
  let fs := Sample.disk [("in/staff.csv", Sample.staff)] in
  let '(result, s') :=
    run (L := Sample.lib) fs "out.csv" None Sample.hr_pipeline in
  result = Raise (TypeError "'int' object is not iterable")
  /\ pipeline_status s' = completed_successfully
  /\ errors (error_handler s') = []
  /\ warnings (error_handler s')
     = [mkWarning "mapping_hr" "Missing columns in mapping: ['dept']"]
  /\ save_error_log fs (error_handler s') (output_path s') = Return tt.
Proof. vm_compute. repeat split. Qed.

(** C2, as stated, fails: the labels [base_pay] and [Compensation]
    contain [pay] and [compensation] when lowered, yet both columns are
    left as strings, the unparseable [n/a] included, and the summary
    correction counts the two other columns only. *)
Lemma rectify_data_types_skips_pay_columns :
  let '(df', h') :=
    DataValidator.rectify_data_types (L := Sample.lib) Sample.payroll
                                     ErrorHandler.init in
  PyStr.contains "pay" (PyStr.lower "base_pay") = true
  /\ PyStr.contains "compensation" (PyStr.lower "Compensation") = true
  /\ getitem df' "base_pay" = [Some (Str "70"); Some (Str "n/a")]
  /\ getitem df' "Compensation" = [Some (Str "9"); Some (Str "n/a")]
  /\ getitem df' "salary" = [Some (Num 5000); Null]
  /\ getitem df' "hire_date" = [Some (Date 20200105); Null]
  /\ corrections h'
     = [mkCorrection "data_type_fix" "Rectified data types for 2 columns" 2].
Proof. vm_compute. repeat split. Qed.

(** C5, as stated, fails: two sources whose files hold a header and no
    record both fail validation, the run ends in [failed_extract], and
    the ledger holds one error, fewer than the two sources. *)
Lemma run_validation_failures_one_error :
  let fs := Sample.disk [("in/a.csv", Sample.header_only);
                         ("in/b.csv", Sample.header_only)] in
  let s' := snd (run (L := Sample.lib) fs "out.csv" None Sample.two_sources) in
  map (fun kv => status (snd kv)) (data_sources s')
  = [validation_failed; validation_failed]
  /\ pipeline_status s' = failed_extract
  /\ List.length (errors (error_handler s')) = 1
  /\ List.length (data_sources Sample.two_sources) = 2
  /\ List.length (warnings (error_handler s')) = 2.
Proof. vm_compute. repeat split. Qed.

(** The amended C2 on the sample payroll: the date and salary columns
    are converted, the pay columns are not. *)
Lemma rectify_data_types_columns_witness :
  NoDup (columns Sample.payroll)
  /\ let '(df', h') :=
       DataValidator.rectify_data_types (L := Sample.lib) Sample.payroll
                                        ErrorHandler.init in
     columns df' = columns Sample.payroll
     /\ len df' = 2
     /\ corrections h'
        = type_corrections
            (List.length (filter (touched (L := Sample.lib) Sample.payroll)
                                 (columns Sample.payroll))) 2.
Proof.
  assert (Hnd : NoDup (columns Sample.payroll)).
  { repeat constructor; simpl; intuition discriminate. }
  split; [exact Hnd|].
  pose proof (@rectify_data_types_columns Sample.lib Sample.payroll
                ErrorHandler.init Hnd) as H.
  destruct (DataValidator.rectify_data_types Sample.payroll ErrorHandler.init)
    as [df' h'].
  destruct H as (H1 & H2 & _ & H4 & _).
  repeat split; assumption.
Defined.

(** The amended C3 on the sample table under a configuration that holds
    one unrelated key: one of the two equal rows goes. *)
Lemma transform_removes_duplicates_witness :
  let s := with_consolidated_data (Some Sample.twins) (init "in" "out") in
  let config := Some (mkConfig None None None None ["note"]) in
  consolidated_data s = Some Sample.twins
  /\ NoDup (columns Sample.twins)
  /\ wants_duplicates_removed config = true
  /\ ~ NoDup (rows Sample.twins)
  /\ fst (transform (L := Sample.lib) config s) = Return true
  /\ exists t,
       transformed_data (snd (transform (L := Sample.lib) config s)) = Some t
       /\ len t <= len (drop_duplicates Sample.twins)
       /\ len t < len Sample.twins.
Proof.
  cbv zeta. split; [reflexivity|].
  assert (Hnd : NoDup (columns Sample.twins)).
  { repeat constructor; simpl; intuition discriminate. }
  split; [exact Hnd|]. split; [reflexivity|].
  assert (Hdup : ~ NoDup (rows Sample.twins)).
  { simpl. intros H. apply NoDup_cons_iff in H as [H _].
    apply H. now left. }
  split; [exact Hdup|].
  pose proof (@transform_removes_duplicates Sample.lib
                (Some (mkConfig None None None None ["note"]))
                (with_consolidated_data (Some Sample.twins) (init "in" "out"))
                Sample.twins eq_refl Hnd) as H.
  destruct (transform _ _) as [result s'].
  destruct H as (H1 & (before & s3 & t & s4 & s5 & _ & _ & Ht & H) & _).
  cbv zeta in H.
  destruct H as (_ & _ & _ & _ & _ & _ & H).
  change (wants_duplicates_removed
            (Some (mkConfig None None None None ["note"]))) with true in H.
  destruct H as (_ & Hle & Hlt).
  split; [exact H1|]. exists t.
  split; [exact Ht|]. split; [exact Hle | exact (Hlt Hdup)].
Defined.

(** C4 on the sample pipeline and a table without any mapped column. *)
Lemma map_columns_no_match_witness :
  let '(result, s') :=
    map_columns Sample.header_only "a"
                (with_data_sources
                   [("a", mkSource "a.csv" [("dept", "department")] None
                                   extracted)]
                   (init "in" "out")) in
  result = Return None
  /\ List.length (errors (error_handler s')) = 1
  /\ PyDict.get (data_sources s') "a"
     = Some (mkSource "a.csv" [("dept", "department")] None mapping_failed)
  /\ List.length (warnings (error_handler s')) = 1.
Proof.
  pose proof (map_columns_no_match Sample.header_only "a"
                (with_data_sources
                   [("a", mkSource "a.csv" [("dept", "department")] None
                                   extracted)]
                   (init "in" "out"))
                (mkSource "a.csv" [("dept", "department")] None extracted)
                eq_refl) as H.
  assert (Hnone : forall k,
             In k (PyDict.keys [("dept", "department")]) ->
             ~ In k (columns Sample.header_only)).
  { simpl. intros k [<-|[]] H0. intuition discriminate. }
  specialize (H Hnone).
  destruct (map_columns _ _ _) as [result s'].
  destruct H as (H1 & _ & H3 & H4 & H5 & _).
  repeat split.
  - exact H1.
  - exact H3.
  - exact H4.
  - rewrite H5. reflexivity.
Defined.

(** The amended C5 on two sources whose files are missing. *)
Lemma run_all_sources_fail_witness :
  let fs := Sample.disk [] in
  let s' := snd (run (L := Sample.lib) fs "out.csv" None Sample.two_sources) in
  NoDup (PyDict.keys (data_sources Sample.two_sources))
  /\ pipeline_status s' = failed_extract
  /\ consolidated_data s' = None
  /\ transformed_data s' = None
  /\ List.length (data_sources Sample.two_sources)
     <= List.length (errors (error_handler s')).
Proof.
  cbv zeta.
  assert (Hnd : NoDup (PyDict.keys (data_sources Sample.two_sources))).
  { repeat constructor; simpl; intuition discriminate. }
  assert (Hall : forall name info,
             In (name, info) (data_sources Sample.two_sources) ->
             fate (Sample.disk []) (input_path Sample.two_sources) info
             = file_not_found).
  { simpl. intros name info [H|[H|[]]]; injection H as <- <-; reflexivity. }
  pose proof (@run_all_sources_fail Sample.lib (Sample.disk []) "out.csv" None
                Sample.two_sources Hnd
                (fun name info Hin =>
                   f_equal survives (Hall name info Hin))) as H.
  destruct (run _ _ _ _) as [result s'].
  destruct H as (_ & H2 & H3 & H4 & _ & _ & _ & H8).
  split; [exact Hnd|]. repeat split.
  - exact H2.
  - exact H3.
  - exact H4.
  - exact (H8 Hall).
Defined.

(** C6 on the sample pipeline with two tables. *)
Lemma consolidate_union_witness :
  surviving Sample.two_tables <> []
  /\ (forall df, In df (surviving Sample.two_tables) -> NoDup (columns df))
  /\ fst (consolidate Sample.two_tables) = Return true
  /\ exists table,
       consolidated_data (snd (consolidate Sample.two_tables)) = Some table
       /\ len table = 5
       /\ NoDup (columns table).
Proof.
  assert (Hne : surviving Sample.two_tables <> []) by discriminate.
  assert (Hnd : forall df, In df (surviving Sample.two_tables) ->
                           NoDup (columns df)).
  { simpl. intros df [<-|[<-|[]]];
      repeat constructor; simpl; intuition discriminate. }
  split; [exact Hne|]. split; [exact Hnd|].
  pose proof (consolidate_union Sample.two_tables) as H.
  destruct (consolidate Sample.two_tables) as [result s'].
  destruct H as (_ & _ & H & _).
  destruct (H Hne Hnd) as (H1 & table & Ht & _ & Hcols & _ & Hlen & _).
  split; [exact H1|].
  exists table. repeat split; assumption.
Defined.

(** C7 on the sample table with missing cells. *)
Lemma rectify_missing_values_fills_witness :
  let rules := [("department", Str "Unassigned"); ("gender", Str "Unknown");
                ("employee_id", Num 0)] in
  NoDup (columns Sample.gaps) /\ NoDup (PyDict.keys rules)
  /\ let '(df', h') :=
       DataValidator.rectify_missing_values (L := Sample.lib) Sample.gaps
                                            rules ErrorHandler.init in
     columns df' = columns Sample.gaps
     /\ len df' = 3
     /\ corrections h' = fill_corrections (L := Sample.lib) Sample.gaps rules.
Proof.
  cbv zeta.
  assert (Hnd : NoDup (columns Sample.gaps)).
  { repeat constructor; simpl; intuition discriminate. }
  assert (Hrules : NoDup (PyDict.keys
                            [("department", Str "Unassigned");
                             ("gender", Str "Unknown");
                             ("employee_id", Num 0)])).
  { repeat constructor; simpl; intuition discriminate. }
  split; [exact Hnd|]. split; [exact Hrules|].
  pose proof (@rectify_missing_values_fills Sample.lib Sample.gaps _
                ErrorHandler.init Hnd Hrules) as H.
  destruct (DataValidator.rectify_missing_values _ _ _) as [df' h'].
  destruct H as (H1 & H2 & _ & H4 & _).
  repeat split; assumption.
Defined.

(** C10 on a mapping that renames the data column [sex] to [source]:
    the column holds the identifier of the source in every row. *)
Lemma map_columns_provenance_witness :
  let s := with_data_sources
             [("hr", mkSource "staff.csv"
                       [("emp_id", "employee_id"); ("sex", "source")]
                       None extracted)]
             (init "in" "out") in
  let df' := mkDataFrame ["employee_id"; "source"]
               [ [Some (Num 1); Some (Str "hr")];
                 [Some (Num 2); Some (Str "hr")];
                 [Some (Num 1); Some (Str "hr")] ] in
  well_formed Sample.staff
  /\ fst (map_columns Sample.staff "hr" s) = Return (Some df')
  /\ In "source" (columns df')
  /\ errors (error_handler (snd (map_columns Sample.staff "hr" s))) = [].
Proof.
  cbv zeta.
  assert (Hwf : well_formed Sample.staff) by (repeat constructor).
  split; [exact Hwf|]. split; [reflexivity|].
  destruct (map_columns_provenance Sample.staff "hr"
              (with_data_sources
                 [("hr", mkSource "staff.csv"
                           [("emp_id", "employee_id"); ("sex", "source")]
                           None extracted)]
                 (init "in" "out"))
              (mkDataFrame ["employee_id"; "source"]
                 [ [Some (Num 1); Some (Str "hr")];
                   [Some (Num 2); Some (Str "hr")];
                   [Some (Num 1); Some (Str "hr")] ])
              Hwf eq_refl) as (H1 & _ & _ & H4).
  split; [exact H1 | exact H4].
Defined.

End Samples.

(* ================================================================== *)
(** * Further properties of the pipeline *)

(** ** Validation of a frame *)

Section Validation.

Import Pandas ErrorHandler.

Lemma frame_issues_nil (df : DataFrame) :
  is_nil (DataValidator.frame_issues df) = has_content df.
Proof.
  unfold DataValidator.frame_issues, has_content, empty, len.
  destruct (columns df) as [|c cs]; [reflexivity|].
  destruct (rows df) as [|r rs]; reflexivity.
Qed.

(** X1 -- [validate_dataframe] accepts a frame exactly when it has at
    least one column and at least one row.  An accepted frame leaves the
    ledger untouched; a rejected one adds exactly one warning under the
    name of the source, whose list of issues starts with "DataFrame is
    empty", and no error or correction. *)
Theorem validate_dataframe_content
        (df : DataFrame) (source_name : string) (h : ErrorHandler.t) :
  let '(ok, h') := DataValidator.validate_dataframe df source_name h in
  ok = has_content df
  /\ DataValidator.frame_issues df
     = (if has_content df then []
        else "DataFrame is empty" :: tl (DataValidator.frame_issues df))
  /\ h' = (if has_content df then h
           else mk (errors h)
                   (warnings h
                      ++ [mkWarning source_name
                            ("Issues: "
                               ++ PyStr.join ", "
                                    (DataValidator.frame_issues df))%string])
                   (corrections h)).
Proof.
  unfold DataValidator.validate_dataframe.
  rewrite (frame_issues_nil df).
  destruct (has_content df) eqn:E; cbn [negb].
  - repeat split. rewrite <- frame_issues_nil in E.
    destruct (DataValidator.frame_issues df); [reflexivity|discriminate].
  - repeat split.
    unfold DataValidator.frame_issues, has_content, empty, len in *.
    destruct (columns df) as [|c cs]; destruct (rows df) as [|r rs];
      cbn in *; try discriminate; reflexivity.
Qed.

End Validation.

(** ** Removal of duplicate rows *)

(** X2 -- [rectify_duplicates] loses no distinct row: the rows of its
    result are pairwise different, a row occurs in the result exactly
    when it occurs in the input, the columns stay, and a table without
    duplicates comes back as it is with an untouched ledger. *)
Theorem rectify_duplicates_keeps_rows
        (df : DataFrame) (source_name : string) (h : ErrorHandler.t) :
  let '(df', h') := DataValidator.rectify_duplicates df source_name h in
  columns df' = columns df
  /\ NoDup (rows df')
  /\ (forall r, In r (rows df') <-> In r (rows df))
  /\ Pandas.len df' <= Pandas.len df
  /\ (NoDup (rows df) <-> df' = df)
  /\ (NoDup (rows df) <-> Pandas.len df' = Pandas.len df)
  /\ (Pandas.len df' = Pandas.len df <-> h' = h).
Proof.
  unfold DataValidator.rectify_duplicates.
  pose proof (drop_duplicates_len df) as Hle.
  assert (Hin : forall r, In r (rows (Pandas.drop_duplicates df))
                          <-> In r (rows df)).
  { intros r. unfold Pandas.drop_duplicates. simpl.
    rewrite drop_seen_In. simpl. tauto. }
  assert (Hnd : NoDup (rows (Pandas.drop_duplicates df))).
  { unfold Pandas.drop_duplicates. simpl. apply drop_seen_NoDup. }
  assert (Hfix : NoDup (rows df) <-> Pandas.drop_duplicates df = df).
  { split.
    - intros H. unfold Pandas.drop_duplicates. destruct df as [cols rs].
      simpl in *. f_equal. apply drop_seen_fixed; [assumption|].
      intros r _ [].
    - intros H. rewrite <- H. exact Hnd. }
  assert (Hlen : NoDup (rows df)
                 <-> Pandas.len (Pandas.drop_duplicates df) = Pandas.len df).
  { split.
    - intros H. apply Hfix in H. now rewrite H.
    - intros H. unfold Pandas.len in H.
      apply NoDup_incl_NoDup with (l := rows (Pandas.drop_duplicates df)).
      + exact Hnd.
      + lia.
      + intros r Hr. now apply Hin. }
  set (d := Pandas.drop_duplicates df) in *.
  destruct (0 <? Pandas.len df - Pandas.len d)%nat eqn:E.
  - apply Nat.ltb_lt in E. repeat split; auto; try apply Hin; try apply Hfix;
      try apply Hlen; try lia.
    intros H. exfalso.
    apply (f_equal (fun x => List.length (ErrorHandler.corrections x))) in H.
    simpl in H. rewrite length_app in H. simpl in H. lia.
  - apply Nat.ltb_ge in E. repeat split; auto; try apply Hin; try apply Hfix;
      try apply Hlen. intros _. lia.
Qed.

(** ** Insertion of missing columns *)

Section MissingColumns.

Import Pandas ErrorHandler.

Lemma get_cell_app_other (v : cell) (c c' : string) (cols : list string)
      (r : row) :
  c' <> c -> List.length r = List.length cols ->
  get_cell (cols ++ [c]) (r ++ [v]) c' = get_cell cols r c'.
Proof.
  intros Hne. revert r.
  induction cols as [|n cols IH]; intros [|x r] Hlen; simpl in *;
    try discriminate.
  - destruct (String.eqb c c') eqn:E; [|reflexivity].
    apply String.eqb_eq in E. congruence.
  - injection Hlen as Hlen. destruct (String.eqb n c'); [reflexivity|].
    now apply IH.
Qed.

Lemma setitem_scalar_well_formed (d : DataFrame) (c : string) (v : cell) :
  well_formed d -> well_formed (setitem_scalar d c v).
Proof.
  unfold well_formed, setitem_scalar. intros H.
  rewrite Forall_forall in H.
  destruct (PyStr.mem c (columns d)); simpl; apply Forall_forall;
    intros r Hr; apply in_map_iff in Hr as [r0 [<- Hr0]].
  - rewrite update_row_length. now apply H.
  - rewrite !length_app. simpl. now rewrite (H r0 Hr0).
Qed.

Lemma setitem_scalar_len (d : DataFrame) (c : string) (v : cell) :
  List.length (rows (setitem_scalar d c v)) = List.length (rows d).
Proof.
  unfold setitem_scalar.
  destruct (PyStr.mem c (columns d)); simpl; apply length_map.
Qed.

Lemma setitem_scalar_get (d : DataFrame) (c : string) (v : cell)
      (i : nat) (r r1 : row) (c' : string) :
  well_formed d ->
  nth_error (rows d) i = Some r ->
  nth_error (rows (setitem_scalar d c v)) i = Some r1 ->
  get_cell (columns (setitem_scalar d c v)) r1 c'
  = if String.eqb c' c then Some v else get_cell (columns d) r c'.
Proof.
  intros Hwf Hr Hr1.
  assert (Hlen : List.length r = List.length (columns d)).
  { unfold well_formed in Hwf. rewrite Forall_forall in Hwf.
    apply Hwf. eapply nth_error_In; eassumption. }
  unfold setitem_scalar in *. revert Hr1.
  destruct (PyStr.mem c (columns d)) eqn:Hm; cbn [rows columns];
    intros Hr1;
    rewrite nth_error_map in Hr1; unfold row in *; rewrite Hr in Hr1; simpl in Hr1;
    injection Hr1 as <-.
  - apply mem_In in Hm.
    destruct (String.eqb c' c) eqn:E.
    + apply String.eqb_eq in E. subst c'.
      rewrite get_cell_update_same.
      destruct (get_cell_Some (columns d) r c Hm Hlen) as [x ->].
      reflexivity.
    + apply String.eqb_neq in E. apply get_cell_update_other. congruence.
  - apply mem_not_In in Hm.
    destruct (String.eqb c' c) eqn:E.
    + apply String.eqb_eq in E. subst c'.
      now destruct (get_cell_new_column v c (columns d) r Hm Hlen).
    + apply String.eqb_neq in E. now apply get_cell_app_other.
Qed.

Lemma union_columns_missing (cols acc required : list string) :
  incl cols acc ->
  union_columns acc (filter (fun c => negb (PyStr.mem c cols)) required)
  = union_columns acc required.
Proof.
  unfold union_columns. revert acc.
  induction required as [|c req IH]; intros acc Hincl; simpl; [reflexivity|].
  destruct (PyStr.mem c cols) eqn:Hc; simpl.
  - apply mem_In in Hc. apply Hincl in Hc. apply mem_In in Hc.
    rewrite Hc. now apply IH.
  - apply IH. destruct (PyStr.mem c acc); [assumption|].
    intros x Hx. apply in_or_app. left. now apply Hincl.
Qed.

Lemma add_columns_fold (source_name : string) (l : list string) :
  forall (d : DataFrame) (h : ErrorHandler.t),
  well_formed d ->
  let '(d', h') :=
    fold_left
      (fun (acc : DataFrame * ErrorHandler.t) (col : string) =>
         let '(df, h) := acc in
         let df := setitem_scalar df col Null in
         (df,
          log_correction source_name
            ("Added missing column: " ++ col ++ " (filled with None)")%string
            (len df) h))
      l (d, h) in
  columns d' = union_columns (columns d) l
  /\ well_formed d'
  /\ List.length (rows d') = List.length (rows d)
  /\ (forall i r r' c,
         nth_error (rows d) i = Some r ->
         nth_error (rows d') i = Some r' ->
         get_cell (columns d') r' c
         = if PyStr.mem c l then Some Null else get_cell (columns d) r c)
  /\ h' = mk (errors h) (warnings h)
             (corrections h ++ map (added_column source_name (len d)) l).
Proof.
  induction l as [|col l IH]; intros d h Hwf.
  - simpl. repeat split; auto.
    + intros i r r' c Hr Hr'. rewrite Hr in Hr'. now injection Hr' as <-.
    + rewrite app_nil_r. now destruct h.
  - cbn [fold_left].
    pose proof (setitem_scalar_well_formed d col Null Hwf) as Hwf1.
    pose proof (setitem_scalar_len d col Null) as Hlen1.
    specialize (IH (setitem_scalar d col Null)
                   (log_correction source_name
                      ("Added missing column: " ++ col
                         ++ " (filled with None)")%string
                      (len (setitem_scalar d col Null)) h) Hwf1).
    destruct (fold_left _ l _) as [d' h'].
    destruct IH as (Hc & Hw & Hl & Hcell & Hh).
    repeat split.
    + rewrite Hc. unfold setitem_scalar, union_columns. cbn [fold_left].
      destruct (PyStr.mem col (columns d)); reflexivity.
    + exact Hw.
    + congruence.
    + intros i r r' c Hr Hr'.
      destruct (nth_error_same_length (rows d)
                  (rows (setitem_scalar d col Null)) i r Hlen1 Hr)
        as [r1 Hr1].
      rewrite (Hcell i r1 r' c Hr1 Hr').
      rewrite (setitem_scalar_get d col Null i r r1 c Hwf Hr Hr1).
      unfold PyStr.mem. cbn [existsb]. fold (PyStr.mem c l).
      destruct (String.eqb c col), (PyStr.mem c l); reflexivity.
    + rewrite Hh.
      assert (Hlen' : len (setitem_scalar d col Null) = len d)
        by exact Hlen1.
      rewrite !Hlen'.
      cbn [errors warnings corrections log_correction map].
      unfold added_column at 2. now rewrite <- app_assoc.
Qed.

(** X3 -- [rectify_missing_columns] on a rectangular table.  Afterwards
    the columns are the old ones followed by the required ones that were
    missing, each once, in the order required; the number of rows stays;
    every cell under an old column is unchanged and every cell under an
    added column is missing.  One warning lists the missing columns when
    there are any, one correction is logged for every missing entry of
    the list, with the number of rows, and no error.  A second call with
    the same requirements changes neither the table nor the ledger. *)
Theorem rectify_missing_columns_adds
        (df : DataFrame) (required_columns : list string)
        (source_name : string) (h : ErrorHandler.t) :
  well_formed df ->
  let missing := missing_columns df required_columns in
  let '(df', h') :=
    DataValidator.rectify_missing_columns df required_columns source_name h in
  columns df' = union_columns (columns df) required_columns
  /\ (forall c, In c (columns df')
                <-> In c (columns df) \/ In c required_columns)
  /\ len df' = len df
  /\ (forall i r r' c,
         nth_error (rows df) i = Some r ->
         nth_error (rows df') i = Some r' ->
         get_cell (columns df') r' c
         = if PyStr.mem c missing then Some Null
           else get_cell (columns df) r c)
  /\ errors h' = errors h
  /\ warnings h' =
       warnings h
         ++ (if is_nil missing then []
             else [mkWarning source_name
                     ("Missing columns detected: "
                        ++ PyStr.repr_list missing)%string])
  /\ corrections h' =
       corrections h ++ map (added_column source_name (len df)) missing
  /\ DataValidator.rectify_missing_columns df' required_columns source_name h'
     = (df', h').
Proof.
  intros Hwf missing.
  unfold DataValidator.rectify_missing_columns.
  fold (missing_columns df required_columns). fold missing.
  assert (Hunion : union_columns (columns df) missing
                   = union_columns (columns df) required_columns).
  { apply union_columns_missing. intros x Hx. exact Hx. }
  assert (Hnone : forall d,
             columns d = union_columns (columns df) required_columns ->
             filter (fun col => negb (PyStr.mem col (columns d)))
                    required_columns = []).
  { intros d Hd.
    assert (H : forall c, In c required_columns ->
                negb (PyStr.mem c (columns d)) = false).
    { intros c Hc. apply negb_false_iff. apply mem_In. rewrite Hd.
      apply union_columns_In. now right. }
    clear - H. induction required_columns as [|c l IH]; [reflexivity|].
    simpl. rewrite (H c) by now left.
    apply IH. intros x Hx. apply H. now right. }
  assert (Hiff : forall d,
             columns d = union_columns (columns df) required_columns ->
             forall c, In c (columns d)
                       <-> In c (columns df) \/ In c required_columns).
  { intros d Hd c. rewrite Hd. apply union_columns_In. }
  destruct (is_nil missing) eqn:Hnil.
  - destruct missing as [|m ms] eqn:Hm; [|discriminate].
    simpl in Hunion. unfold union_columns in Hunion at 1. simpl in Hunion.
    split; [exact Hunion|]. split; [exact (Hiff df Hunion)|].
    split; [reflexivity|]. split.
    { intros i r r' c Hr Hr'. rewrite Hr in Hr'. now injection Hr' as <-. }
    split; [reflexivity|]. split; [now rewrite app_nil_r|].
    split; [now rewrite app_nil_r|].
    rewrite (Hnone df Hunion). reflexivity.
  - pose proof (add_columns_fold source_name missing df
                  (log_warning source_name
                     ("Missing columns detected: "
                        ++ PyStr.repr_list missing)%string h) Hwf) as H.
    destruct (fold_left _ missing _) as [d' h'].
    destruct H as (Hc & Hw & Hl & Hcell & Hh).
    rewrite Hunion in Hc.
    split; [exact Hc|]. split; [exact (Hiff d' Hc)|].
    split; [exact Hl|]. split; [exact Hcell|].
    rewrite Hh. cbn [errors warnings corrections log_warning].
    split; [reflexivity|]. split; [reflexivity|]. split; [reflexivity|].
    rewrite (Hnone d' Hc). reflexivity.
Qed.

End MissingColumns.

(** ** Registration of sources *)

Section Registration.

Import ErrorHandler RobustMultiSourceETL.

Lemma get_set_eq {V : Type} (d : PyDict.dict V) (k : string) (v : V) :
  PyDict.get (PyDict.set d k v) k = Some v.
Proof.
  induction d as [|[k' v'] d IH]; simpl.
  - now rewrite String.eqb_refl.
  - destruct (String.eqb k' k) eqn:E; simpl; rewrite E; auto.
Qed.

Lemma keys_set_any {V : Type} (d : PyDict.dict V) (k : string) (v : V) :
  PyDict.keys (PyDict.set d k v)
  = if PyStr.mem k (PyDict.keys d) then PyDict.keys d
    else PyDict.keys d ++ [k].
Proof.
  induction d as [|[k' v'] d IH]; simpl; [reflexivity|].
  unfold PyStr.mem. cbn [existsb]. fold (PyStr.mem k (PyDict.keys d)).
  rewrite (String.eqb_sym k k').
  destruct (String.eqb k' k) eqn:E; simpl; [reflexivity|].
  rewrite IH. now destruct (PyStr.mem k (PyDict.keys d)).
Qed.

Lemma keys_set_NoDup {V : Type} (d : PyDict.dict V) (k : string) (v : V) :
  NoDup (PyDict.keys d) -> NoDup (PyDict.keys (PyDict.set d k v)).
Proof.
  intros H. rewrite keys_set_any.
  destruct (PyStr.mem k (PyDict.keys d)) eqn:E; [assumption|].
  apply mem_not_In in E.
  apply NoDup_app; [assumption | repeat constructor; tauto |].
  intros x Hx [<-|[]]. contradiction.
Qed.

(** X4 -- [register_source] and lookup.  After a registration the
    source is found under its name with the given file and mapping, no
    table and the status [registered]; every other source is as before.
    A new name goes last in the order of the sources, a name registered
    before keeps its place (its entry is replaced), and names stay
    distinct.  Nothing is logged and the call cannot fail. *)
Theorem register_source_lookup
        (source_name filename : string) (column_mapping : PyDict.dict string)
        (s : ETL) :
  let '(result, s') :=
    register_source source_name filename column_mapping s in
  result = Return tt
  /\ PyDict.get (data_sources s') source_name
     = Some (mkSource filename column_mapping None registered)
  /\ (forall k, k <> source_name ->
        PyDict.get (data_sources s') k = PyDict.get (data_sources s) k)
  /\ PyDict.keys (data_sources s')
     = (if PyStr.mem source_name (PyDict.keys (data_sources s))
        then PyDict.keys (data_sources s)
        else PyDict.keys (data_sources s) ++ [source_name])
  /\ (NoDup (PyDict.keys (data_sources s))
      <-> NoDup (PyDict.keys (data_sources s')))
  /\ error_handler s' = error_handler s
  /\ consolidated_data s' = consolidated_data s
  /\ transformed_data s' = transformed_data s
  /\ pipeline_status s' = pipeline_status s.
Proof.
  unfold register_source, modify. cbn [data_sources with_data_sources
    error_handler consolidated_data transformed_data pipeline_status].
  repeat split.
  - apply get_set_eq.
  - intros k Hk. apply get_set_other. congruence.
  - apply keys_set_any.
  - apply keys_set_NoDup.
  - rewrite keys_set_any.
    destruct (PyStr.mem source_name (PyDict.keys (data_sources s)));
      [tauto|].
    intros H. apply NoDup_app_remove_r in H. exact H.
Qed.

(** X5 -- Registering a list of sources with distinct names on a fresh
    pipeline yields exactly those names, in the order of registration,
    each found with its file and mapping. *)
Theorem register_sources_in_order
        (input_path output_path : string)
        (specs : list (string * (string * PyDict.dict string))) :
  NoDup (map fst specs) ->
  let s' :=
    fold_left (fun s spec =>
                 snd (register_source (fst spec) (fst (snd spec))
                                      (snd (snd spec)) s))
              specs (init input_path output_path) in
  PyDict.keys (data_sources s') = map fst specs
  /\ forall name file m,
       In (name, (file, m)) specs ->
       PyDict.get (data_sources s') name
       = Some (mkSource file m None registered).
Proof.
  intros Hnd.
  assert (G : forall (specs : list (string * (string * PyDict.dict string)))
                     (s : ETL),
             NoDup (PyDict.keys (data_sources s) ++ map fst specs) ->
             let s' :=
               fold_left (fun s spec =>
                            snd (register_source (fst spec) (fst (snd spec))
                                                 (snd (snd spec)) s))
                         specs s in
             PyDict.keys (data_sources s')
             = PyDict.keys (data_sources s) ++ map fst specs
             /\ (forall name file m,
                   In (name, (file, m)) specs ->
                   PyDict.get (data_sources s') name
                   = Some (mkSource file m None registered))
             /\ (forall k, ~ In k (map fst specs) ->
                   PyDict.get (data_sources s') k
                   = PyDict.get (data_sources s) k)).
  { clear. induction specs as [|[name [file m]] specs IH]; intros s Hnd.
    - simpl. rewrite app_nil_r. repeat split; tauto.
    - cbn [fold_left fst snd map].
      pose proof (register_source_lookup name file m s) as H.
      destruct (register_source name file m s) as [result s1].
      destruct H as (_ & Hget & Hother & Hkeys & _).
      cbn [snd].
      assert (Hfresh : ~ In name (PyDict.keys (data_sources s))).
      { intros Hin. cbn [map fst] in Hnd.
        apply NoDup_remove_2 in Hnd. apply Hnd.
        apply in_or_app. now left. }
      apply mem_not_In in Hfresh. rewrite Hfresh in Hkeys.
      assert (Hnd1 : NoDup (PyDict.keys (data_sources s1) ++ map fst specs)).
      { rewrite Hkeys, <- app_assoc. exact Hnd. }
      specialize (IH s1 Hnd1). cbv zeta in IH.
      destruct IH as (Hk & Hg & Ho).
      assert (Hname : ~ In name (map fst specs)).
      { intros Hin. cbn [map fst] in Hnd.
        apply NoDup_remove_2 in Hnd. apply Hnd.
        apply in_or_app. now right. }
      split; [|split].
      + rewrite Hk, Hkeys, <- app_assoc. reflexivity.
      + intros n f mm [Heq|Hin].
        * injection Heq as <- <- <-. rewrite Ho by assumption. exact Hget.
        * now apply Hg.
      + intros k Hk'. rewrite Ho.
        * apply Hother. intros ->. apply Hk'. now left.
        * intros Hin. apply Hk'. now right. }
  specialize (G specs (init input_path output_path) Hnd).
  cbv zeta in *. destruct G as (Hk & Hg & _).
  split; [exact Hk | exact Hg].
Qed.

End Registration.

(** ** Gender normalization again *)

Section Gender.

Import Pandas RobustMultiSourceETL.

Context {L : Lib}.

Lemma isspace_lower (a : ascii) :
  PyStr.isspace (PyStr.lower_ascii a) = PyStr.isspace a.
Proof.
  destruct a as [[] [] [] [] [] [] [] []]; vm_compute; reflexivity.
Qed.

Lemma lower_ascii_idempotent (a : ascii) :
  PyStr.lower_ascii (PyStr.lower_ascii a) = PyStr.lower_ascii a.
Proof.
  destruct a as [[] [] [] [] [] [] [] []]; vm_compute; reflexivity.
Qed.

Lemma lower_idempotent (s : string) :
  PyStr.lower (PyStr.lower s) = PyStr.lower s.
Proof.
  induction s as [|a s IH]; simpl; [reflexivity|].
  now rewrite lower_ascii_idempotent, IH.
Qed.

Lemma lstrip_lower (s : string) :
  PyStr.lstrip (PyStr.lower s) = PyStr.lower (PyStr.lstrip s).
Proof.
  induction s as [|a s IH]; simpl; [reflexivity|].
  rewrite isspace_lower. destruct (PyStr.isspace a); [exact IH | reflexivity].
Qed.

Lemma rstrip_cons (a : ascii) (s : string) :
  PyStr.rstrip (String a s)
  = match PyStr.rstrip s with
    | EmptyString =>
        if PyStr.isspace a then EmptyString else String a EmptyString
    | t => String a t
    end.
Proof. reflexivity. Qed.

Lemma rstrip_lower (s : string) :
  PyStr.rstrip (PyStr.lower s) = PyStr.lower (PyStr.rstrip s).
Proof.
  induction s as [|a s IH]; [reflexivity|].
  cbn [PyStr.lower]. rewrite !rstrip_cons, IH, isspace_lower.
  destruct (PyStr.rstrip s); simpl; [|reflexivity].
  destruct (PyStr.isspace a); reflexivity.
Qed.

Lemma strip_lower (s : string) :
  PyStr.strip (PyStr.lower s) = PyStr.lower (PyStr.strip s).
Proof. unfold PyStr.strip. now rewrite lstrip_lower, rstrip_lower. Qed.

Lemma lstrip_idempotent (s : string) :
  PyStr.lstrip (PyStr.lstrip s) = PyStr.lstrip s.
Proof.
  induction s as [|a s IH]; simpl; [reflexivity|].
  destruct (PyStr.isspace a) eqn:E; [exact IH|].
  simpl. now rewrite E.
Qed.

Lemma rstrip_idempotent (s : string) :
  PyStr.rstrip (PyStr.rstrip s) = PyStr.rstrip s.
Proof.
  induction s as [|a s IH]; [reflexivity|].
  rewrite (rstrip_cons a s).
  destruct (PyStr.rstrip s) as [|b t] eqn:E.
  - destruct (PyStr.isspace a) eqn:Ea; [reflexivity|].
    rewrite rstrip_cons. simpl. now rewrite Ea.
  - rewrite (rstrip_cons a (String b t)), IH. reflexivity.
Qed.

(** Stripping on the right keeps a first character that is no space. *)
Lemma lstrip_rstrip (s : string) :
  PyStr.lstrip s = s -> PyStr.lstrip (PyStr.rstrip s) = PyStr.rstrip s.
Proof.
  destruct s as [|a s]; [reflexivity|]. cbn [PyStr.lstrip].
  destruct (PyStr.isspace a) eqn:E.
  - intros H. exfalso.
    assert (Hlen : String.length (PyStr.lstrip s) <= String.length s).
    { clear. induction s as [|b s IH]; simpl; [lia|].
      destruct (PyStr.isspace b); simpl; lia. }
    rewrite H in Hlen. simpl in Hlen. lia.
  - intros _. rewrite rstrip_cons.
    destruct (PyStr.rstrip s); rewrite ?E; cbn [PyStr.lstrip];
      now rewrite E.
Qed.

Lemma strip_idempotent (s : string) :
  PyStr.strip (PyStr.strip s) = PyStr.strip s.
Proof.
  unfold PyStr.strip.
  rewrite (lstrip_rstrip (PyStr.lstrip s) (lstrip_idempotent s)).
  apply rstrip_idempotent.
Qed.

(** X6 -- Gender normalization does not depend on case or on
    surrounding white space, and it is idempotent: a normalized value
    normalizes to itself. *)
Theorem normalize_gender_stable (v : cell) (s : string) :
  normalize_gender (Some (Str (PyStr.lower s))) = normalize_gender (Some (Str s))
  /\ normalize_gender (Some (Str (PyStr.strip s)))
     = normalize_gender (Some (Str s))
  /\ normalize_gender (Some (Str (normalize_gender v))) = normalize_gender v.
Proof.
  split; [|split].
  - unfold normalize_gender. cbn [isna str].
    now rewrite strip_lower, lower_idempotent.
  - unfold normalize_gender. cbn [isna str].
    now rewrite strip_idempotent.
  - assert (Hfix : forall g, g = "M" \/ g = "F" \/ g = "Unknown" ->
                             normalize_gender (Some (Str g)) = g).
    { intros g [-> | [-> | ->]]; reflexivity. }
    apply Hfix. unfold normalize_gender.
    destruct (isna v); [tauto|].
    destruct (PyStr.mem _ ["m"; "mm"; "male"; "1"]); [tauto|].
    destruct (PyStr.mem _ ["f"; "ff"; "female"; "2"]); [tauto|].
    destruct (PyStr.mem _ ["0"; "unknown"]); tauto.
Qed.

End Gender.

(** ** The ledger is append-only *)

Section AppendOnly.

Import Pandas ErrorHandler RobustMultiSourceETL.

Context {L : Lib}.

Lemma extends_refl (h : ErrorHandler.t) : extends h h.
Proof. repeat split; exists []; now rewrite app_nil_r. Qed.

Lemma extends_trans (h1 h2 h3 : ErrorHandler.t) :
  extends h1 h2 -> extends h2 h3 -> extends h1 h3.
Proof.
  intros ([e1 E1] & [w1 W1] & [c1 C1]) ([e2 E2] & [w2 W2] & [c2 C2]).
  repeat split.
  - exists (e1 ++ e2). now rewrite E2, E1, app_assoc.
  - exists (w1 ++ w2). now rewrite W2, W1, app_assoc.
  - exists (c1 ++ c2). now rewrite C2, C1, app_assoc.
Qed.

Lemma extends_log_error stage msg details h :
  extends h (ErrorHandler.log_error stage msg details h).
Proof.
  repeat split; simpl; [eexists; reflexivity | |];
    exists []; now rewrite app_nil_r.
Qed.

Lemma extends_log_warning stage msg h :
  extends h (ErrorHandler.log_warning stage msg h).
Proof.
  repeat split; simpl; [| eexists; reflexivity |];
    exists []; now rewrite app_nil_r.
Qed.

Lemma extends_log_correction stage action n h :
  extends h (ErrorHandler.log_correction stage action n h).
Proof.
  repeat split; simpl; [| | eexists; reflexivity];
    exists []; now rewrite app_nil_r.
Qed.

Lemma appends_ret {A : Type} (a : A) : appends (ret a).
Proof. intros s. apply extends_refl. Qed.

Lemma appends_raise {A : Type} (e : exn) : appends (@raise A e).
Proof. intros s. apply extends_refl. Qed.

Lemma appends_get : appends get.
Proof. intros s. apply extends_refl. Qed.

Lemma appends_lift {A : Type} (o : outcome A) : appends (lift_outcome o).
Proof. intros s. apply extends_refl. Qed.

Lemma appends_bind {A B : Type} (m : M A) (f : A -> M B) :
  appends m -> (forall a, appends (f a)) -> appends (bind m f).
Proof.
  intros Hm Hf s. unfold bind. specialize (Hm s).
  destruct (m s) as [[a|e] s1]; [|exact Hm].
  eapply extends_trans; [exact Hm | apply Hf].
Qed.

Lemma appends_try_except {A : Type} (m : M A) (h : exn -> M A) :
  appends m -> (forall e, appends (h e)) -> appends (try_except m h).
Proof.
  intros Hm Hh s. unfold try_except. specialize (Hm s).
  destruct (m s) as [[a|e] s1]; [exact Hm|].
  eapply extends_trans; [exact Hm | apply Hh].
Qed.

Lemma appends_try_finally {A : Type} (m : M A) (fin : M unit) :
  appends m -> appends fin -> appends (try_finally m fin).
Proof.
  intros Hm Hf s. unfold try_finally. specialize (Hm s).
  destruct (m s) as [r s1]. specialize (Hf s1).
  destruct (fin s1) as [[u|e] s2];
    (eapply extends_trans; [exact Hm | exact Hf]).
Qed.

Lemma appends_modify (f : ETL -> ETL) :
  (forall s, extends (error_handler s) (error_handler (f s))) ->
  appends (modify f).
Proof. intros H s. apply H. Qed.

Lemma appends_on_ledger {A : Type} (f : ErrorHandler.t -> A * ErrorHandler.t) :
  (forall h, extends h (snd (f h))) -> appends (on_ledger f).
Proof.
  intros H s. unfold on_ledger. specialize (H (error_handler s)).
  destruct (f (error_handler s)) as [a h']. exact H.
Qed.

Lemma appends_log_error stage msg details :
  appends (log_error stage msg details).
Proof. apply appends_modify. intros s. apply extends_log_error. Qed.

Lemma appends_log_warning stage msg : appends (log_warning stage msg).
Proof. apply appends_modify. intros s. apply extends_log_warning. Qed.

Lemma appends_source name : appends (source name).
Proof.
  intros s. unfold source.
  destruct (PyDict.get (data_sources s) name); apply extends_refl.
Qed.

Lemma appends_set_status name st : appends (set_status name st).
Proof.
  apply appends_bind; [apply appends_source|].
  intros i. apply appends_modify. intros s. apply extends_refl.
Qed.

Lemma appends_set_data name df : appends (set_data name df).
Proof.
  apply appends_bind; [apply appends_source|].
  intros i. apply appends_modify. intros s. apply extends_refl.
Qed.

Lemma appends_set_pipeline_status p : appends (set_pipeline_status p).
Proof. apply appends_modify. intros s. apply extends_refl. Qed.

(** The passes of the validator only append. *)
Lemma extends_validate_file_exists fs file_path h :
  extends h (snd (DataValidator.validate_file_exists fs file_path h)).
Proof.
  unfold DataValidator.validate_file_exists.
  destruct (negb (fs_exists fs file_path));
    [apply extends_log_error | apply extends_refl].
Qed.

Lemma extends_validate_dataframe df name h :
  extends h (snd (DataValidator.validate_dataframe df name h)).
Proof.
  unfold DataValidator.validate_dataframe.
  destruct (negb (is_nil (DataValidator.frame_issues df)));
    [apply extends_log_warning | apply extends_refl].
Qed.

Lemma extends_rectify_duplicates df name h :
  extends h (snd (DataValidator.rectify_duplicates df name h)).
Proof.
  unfold DataValidator.rectify_duplicates.
  destruct (0 <? _)%nat; [apply extends_log_correction | apply extends_refl].
Qed.

Lemma extends_rectify_data_types df h :
  extends h (snd (DataValidator.rectify_data_types df h)).
Proof.
  unfold DataValidator.rectify_data_types.
  assert (H : forall names d n h0,
             extends h0 (snd (fold_left
                                (fun acc col =>
                                   DataValidator.rectify_column col acc)
                                names (d, n, h0)))).
  { induction names as [|col names IH]; intros d n h0.
    - apply extends_refl.
    - cbn [fold_left].
      pose proof (rectify_column_step d n h0 col) as Hstep.
      destruct (DataValidator.rectify_column col (d, n, h0))
        as [[d1 n1] h1].
      destruct Hstep as (_ & _ & _ & _ & _ & Hh1).
      eapply extends_trans; [|apply IH].
      rewrite Hh1. repeat split; simpl.
      + exists []. now rewrite app_nil_r.
      + eexists. reflexivity.
      + exists []. now rewrite app_nil_r. }
  specialize (H (columns df) df 0 h).
  destruct (fold_left _ (columns df) (df, 0, h)) as [[d' n'] h'].
  simpl in H.
  destruct (0 <? n')%nat; simpl; [|exact H].
  eapply extends_trans; [exact H | apply extends_log_correction].
Qed.

Lemma extends_rectify_missing_values df rules h :
  extends h (snd (DataValidator.rectify_missing_values df rules h)).
Proof.
  unfold DataValidator.rectify_missing_values. revert df h.
  induction rules as [|[col v] rules IH]; intros df h.
  - apply extends_refl.
  - cbn [fold_left].
    pose proof (fill_rule_step df h col v) as Hstep. cbv zeta in Hstep.
    destruct (DataValidator.fill_rule (df, h) (col, v)) as [d1 h1].
    destruct Hstep as (_ & _ & _ & _ & Hh1).
    eapply extends_trans; [|apply IH].
    rewrite Hh1.
    destruct (PyStr.mem col (columns df) && _);
      [apply extends_log_correction | apply extends_refl].
Qed.

Ltac appends_with known :=
  repeat first
    [ known
    | apply appends_try_except
    | apply appends_try_finally
    | apply appends_bind
    | apply appends_ret
    | apply appends_raise
    | apply appends_get
    | apply appends_lift
    | apply appends_log_error
    | apply appends_log_warning
    | apply appends_set_status
    | apply appends_set_data
    | apply appends_set_pipeline_status
    | apply appends_source
    | apply appends_on_ledger; intros;
      first [ apply extends_validate_file_exists
            | apply extends_validate_dataframe
            | apply extends_rectify_duplicates
            | apply extends_rectify_data_types
            | apply extends_rectify_missing_values ]
    | apply appends_modify; intros; apply extends_refl
    | progress intros
    | match goal with
      | |- appends (if ?b then _ else _) => destruct b
      | |- appends (match ?x with _ => _ end) => destruct x
      end ].

Ltac appends_auto := appends_with fail.

Lemma appends_extract_source fs name : appends (extract_source fs name).
Proof. unfold extract_source. appends_auto. Qed.

Lemma appends_map_columns df name : appends (map_columns df name).
Proof. unfold map_columns. appends_auto. Qed.

Lemma appends_process_source fs name acc : appends (process_source fs name acc).
Proof.
  unfold process_source. destruct acc as [n failed].
  appends_with ltac:(first [ apply appends_extract_source
                           | apply appends_map_columns ]).
Qed.

Lemma appends_process_sources fs names :
  forall acc, appends (process_sources fs names acc).
Proof.
  induction names as [|name names IH]; intros acc; cbn [process_sources].
  - apply appends_ret.
  - apply appends_bind; [apply appends_process_source | exact IH].
Qed.

Lemma appends_extract_and_map_all fs : appends (extract_and_map_all fs).
Proof.
  unfold extract_and_map_all.
  apply appends_bind; [apply appends_get|]. intros s.
  apply appends_bind; [apply appends_process_sources|]. intros acc.
  apply appends_ret.
Qed.

Lemma appends_consolidate : appends consolidate.
Proof. unfold consolidate. appends_auto. Qed.

Lemma appends_transform config : appends (transform config).
Proof.
  unfold transform, fill_missing, remove_duplicate_rows,
    select_final_columns.
  appends_auto.
Qed.

Lemma appends_load fs output_filename : appends (load fs output_filename).
Proof. unfold load. appends_auto. Qed.

Lemma appends_print_error_summary : appends print_error_summary.
Proof. unfold print_error_summary, enumerate_int. appends_auto. Qed.

(** X7 -- The ledger is append-only across a whole run: whatever the
    files, the configuration and the pipeline, and whether the run
    returns or raises, the errors, warnings and corrections recorded
    before the run are all still there afterwards, unchanged and in the
    same order, with the records of the run after them. *)
Theorem run_ledger_append_only
        (fs : FileSystem) (output_filename : string)
        (config : option Config) (s : ETL) :
  extends (error_handler s)
          (error_handler (snd (run fs output_filename config s))).
Proof.
  revert s. change (appends (run fs output_filename config)).
  unfold run, run_phases.
  appends_with ltac:(first [ apply appends_extract_and_map_all
                           | apply appends_consolidate
                           | apply appends_transform
                           | apply appends_load
                           | apply appends_print_error_summary ]).
Qed.

End AppendOnly.

(** ** The transformation phase as a whole *)

Section TransformPhase.

Import Pandas ErrorHandler RobustMultiSourceETL.

Context {L : Lib}.

Lemma with_error_handler_same (s : ETL) :
  with_error_handler (error_handler s) s = s.
Proof. now destruct s. Qed.

Lemma filter_eqb_NoDup (c : string) (cols : list string) :
  NoDup cols -> In c cols -> filter (String.eqb c) cols = [c].
Proof.
  induction cols as [|n cols IH]; intros Hnd Hin; [contradiction|].
  apply NoDup_cons_iff in Hnd as [Hn Hnd]. simpl.
  destruct (String.eqb c n) eqn:E.
  - apply String.eqb_eq in E. subst n. f_equal.
    clear IH Hin. induction cols as [|m cols IH]; [reflexivity|].
    simpl. destruct (String.eqb c m) eqn:E'.
    + apply String.eqb_eq in E'. subst m. exfalso. apply Hn. now left.
    + apply IH.
      * intros H. apply Hn. now right.
      * now apply NoDup_cons_iff in Hnd.
  - apply IH; [assumption|]. destruct Hin as [->|Hin]; [|assumption].
    rewrite String.eqb_refl in E. discriminate.
Qed.

Lemma getitem_list_columns (df : DataFrame) (names : list string) :
  NoDup (columns df) ->
  (forall c, In c names -> In c (columns df)) ->
  columns (getitem_list df names) = names.
Proof.
  intros Hnd Hin. unfold getitem_list. cbn [columns].
  induction names as [|c names IH]; [reflexivity|].
  cbn [flat_map]. rewrite filter_eqb_NoDup; [|assumption|apply Hin; now left].
  simpl. f_equal. apply IH. intros x Hx. apply Hin. now right.
Qed.

Lemma format_date_columns_columns (config : option Config) (t : DataFrame) :
  columns (format_date_columns config t) = columns t.
Proof.
  unfold format_date_columns.
  match goal with |- context [fold_left _ ?l _] => generalize l end.
  intros l. revert t. induction l as [|col l IH]; intros t; simpl.
  - reflexivity.
  - rewrite IH. now destruct (PyStr.mem col (columns t)).
Qed.

Lemma normalize_gender_column_columns (t : DataFrame) :
  columns (normalize_gender_column t) = columns t.
Proof.
  unfold normalize_gender_column.
  now destruct (PyStr.mem "gender" (columns t)).
Qed.

Lemma rectify_missing_values_keeps (rules : PyDict.dict value)
      (t : DataFrame) (h : ErrorHandler.t) :
  columns (fst (DataValidator.rectify_missing_values t rules h)) = columns t
  /\ errors (snd (DataValidator.rectify_missing_values t rules h)) = errors h
  /\ warnings (snd (DataValidator.rectify_missing_values t rules h))
     = warnings h.
Proof.
  unfold DataValidator.rectify_missing_values. revert t h.
  induction rules as [|[col v] rules IH]; intros t h.
  - now repeat split.
  - cbn [fold_left].
    pose proof (fill_rule_step t h col v) as Hstep. cbv zeta in Hstep.
    destruct (DataValidator.fill_rule (t, h) (col, v)) as [t1 h1].
    destruct Hstep as (Hc & _ & _ & _ & Hh).
    destruct (IH t1 h1) as (H1 & H2 & H3).
    rewrite H1, H2, H3, Hc, Hh.
    destruct (PyStr.mem col (columns t) && _); now repeat split.
Qed.

Lemma fill_missing_state (config : option Config) (t : DataFrame) (s : ETL) :
  exists t' h',
    fill_missing config t s = (Return t', with_error_handler h' s)
    /\ rowwise t t'
    /\ columns t' = columns t
    /\ errors h' = errors (error_handler s)
    /\ warnings h' = warnings (error_handler s).
Proof.
  unfold fill_missing.
  match goal with |- context [negb (is_nil ?r)] => generalize r end.
  intros rules. destruct (negb (is_nil rules)).
  - unfold on_ledger.
    pose proof (rectify_missing_values_rowwise rules t (error_handler s)) as H.
    pose proof (rectify_missing_values_keeps rules t (error_handler s)) as K.
    destruct (DataValidator.rectify_missing_values t rules (error_handler s))
      as [t' h'].
    exists t', h'. simpl in *. tauto.
  - exists t, (error_handler s). rewrite with_error_handler_same.
    repeat split. apply rowwise_refl.
Qed.

Lemma remove_duplicate_rows_state (config : option Config) (t : DataFrame)
      (s : ETL) :
  exists t' h',
    remove_duplicate_rows config t s = (Return t', with_error_handler h' s)
    /\ len t' <= len t
    /\ columns t' = columns t
    /\ errors h' = errors (error_handler s)
    /\ warnings h' = warnings (error_handler s).
Proof.
  unfold remove_duplicate_rows.
  destruct (wants_duplicates_removed config).
  - unfold on_ledger, DataValidator.rectify_duplicates.
    pose proof (drop_duplicates_len t) as Hle.
    destruct (0 <? len t - len (drop_duplicates t))%nat;
      eexists; eexists; (split; [reflexivity|]); now repeat split.
  - exists t, (error_handler s). rewrite with_error_handler_same.
    now repeat split.
Qed.

Lemma filter_mem_In (cols l : list string) :
  forall c, In c (filter (fun col => PyStr.mem col cols) l) -> In c cols.
Proof.
  intros c H. apply filter_In in H as [_ H]. now apply mem_In.
Qed.

Lemma select_final_columns_state (config : option Config) (t : DataFrame)
      (s : ETL) :
  exists t' h',
    select_final_columns config t s = (Return t', with_error_handler h' s)
    /\ len t' = len t
    /\ (NoDup (columns t) ->
        columns t' = final_projection config (columns t))
    /\ errors h' = errors (error_handler s)
    /\ warnings h'
       = warnings (error_handler s) ++ projection_warnings config (columns t).
Proof.
  unfold select_final_columns, final_projection, projection_warnings.
  assert (Hsame : exists t' h',
             ret t s = (Return t', with_error_handler h' s)
             /\ len t' = len t
             /\ (NoDup (columns t) -> columns t' = columns t)
             /\ errors h' = errors (error_handler s)
             /\ warnings h' = warnings (error_handler s) ++ []).
  { exists t, (error_handler s). rewrite with_error_handler_same.
    rewrite app_nil_r. now repeat split. }
  destruct config as [c|]; [|exact Hsame].
  destruct (final_columns c) as [[|col final_cols]|] eqn:Hfc;
    [ rewrite andb_false_r; exact Hsame | | exact Hsame ].
  assert (Ht : config_truthy (Some c) = true).
  { unfold config_truthy. rewrite Hfc. cbn.
    now rewrite !orb_true_r. }
  rewrite Ht. cbn [andb negb is_nil].
  unfold bind, log_warning, modify, ret.
  set (missing := filter (fun col0 => negb (PyStr.mem col0 (columns t)))
                         (col :: final_cols)).
  set (avail := filter (fun col0 => PyStr.mem col0 (columns t))
                       (col :: final_cols)).
  assert (Hlen : len (getitem_list t avail) = len t).
  { unfold len, getitem_list. simpl. apply length_map. }
  assert (Hcols : NoDup (columns t) -> columns (getitem_list t avail) = avail).
  { intros Hnd. apply getitem_list_columns; [assumption|].
    apply filter_mem_In. }
  destruct (is_nil missing).
  - exists (getitem_list t avail), (error_handler s).
    rewrite with_error_handler_same, app_nil_r. now repeat split.
  - eexists. eexists. split; [reflexivity|]. now repeat split.
Qed.

(** What [transform] does when there is a consolidated table. *)
Lemma transform_runs (config : option Config) (s : ETL) (c : DataFrame) :
  consolidated_data s = Some c ->
  exists t h',
    transform config s
    = (Return true, with_transformed_data (Some t) (with_error_handler h' s))
    /\ len t <= len c
    /\ (NoDup (columns c) -> columns t = final_projection config (columns c))
    /\ errors h' = errors (error_handler s)
    /\ warnings h'
       = warnings (error_handler s) ++ projection_warnings config (columns c).
Proof.
  intros Hc. unfold transform, try_except, bind, get. rewrite Hc.
  pose proof (format_date_columns_rowwise config
                (normalize_gender_column c)) as Hdates.
  pose proof (format_date_columns_columns config
                (normalize_gender_column c)) as Hdc.
  rewrite normalize_gender_column_columns in Hdc.
  assert (Hgender : rowwise c (normalize_gender_column c)).
  { unfold normalize_gender_column.
    destruct (PyStr.mem "gender" (columns c));
      [apply apply_column_rowwise | apply rowwise_refl]. }
  set (t2 := format_date_columns config (normalize_gender_column c)) in *.
  destruct (fill_missing_state config t2 s)
    as (t3 & h3 & -> & Hrow3 & Hc3 & He3 & Hw3).
  destruct (remove_duplicate_rows_state config t3 (with_error_handler h3 s))
    as (t4 & h4 & -> & Hl4 & Hc4 & He4 & Hw4).
  destruct (select_final_columns_state config t4
              (with_error_handler h4 (with_error_handler h3 s)))
    as (t5 & h5 & -> & Hl5 & Hc5 & He5 & Hw5).
  exists t5, h5. split; [reflexivity|].
  cbn [error_handler with_error_handler] in *.
  assert (Hcols4 : columns t4 = columns c) by congruence.
  repeat split.
  - rewrite Hl5.
    assert (len t3 = len c).
    { apply rowwise_len. eapply rowwise_trans; [exact Hgender|].
      eapply rowwise_trans; [exact Hdates | exact Hrow3]. }
    lia.
  - intros Hnd. rewrite <- Hcols4. apply Hc5. now rewrite Hcols4.
  - congruence.
  - rewrite Hw5, Hw4, Hw3, Hcols4. reflexivity.
Qed.

(** X8 -- [transform] without a consolidated table returns False, adds
    exactly one error and sets no transformed table.  With a
    consolidated table (of distinct column labels) it returns True, adds
    no error, and the transformed table has at most as many rows.  In
    both cases the consolidated table, the sources and the status of the
    pipeline are left as they are. *)
Theorem transform_frame (config : option Config) (s : ETL) :
  (forall c, consolidated_data s = Some c -> NoDup (columns c)) ->
  let '(result, s') := transform config s in
  result = Return (is_some (consolidated_data s))
  /\ consolidated_data s' = consolidated_data s
  /\ data_sources s' = data_sources s
  /\ pipeline_status s' = pipeline_status s
  /\ match consolidated_data s with
     | None =>
         transformed_data s' = transformed_data s
         /\ error_handler s' =
            ErrorHandler.log_error "transform"
              "No consolidated data to transform"
              (Some "Run consolidate() first") (error_handler s)
     | Some c =>
         errors (error_handler s') = errors (error_handler s)
         /\ exists t, transformed_data s' = Some t /\ len t <= len c
     end.
Proof.
  intros _.
  destruct (consolidated_data s) as [c|] eqn:Hc.
  - destruct (transform_runs config s c Hc) as (t & h' & -> & Hl & _ & He & _).
    cbn. repeat split; auto. now exists t.
  - unfold transform, try_except, bind, get, log_error, modify, ret.
    rewrite Hc. cbn. now repeat split.
Qed.

(** X9 -- Final-column projection.  When the configuration requests a
    non-empty list of final columns, the transformed table has exactly
    the requested columns that the consolidated table has, in the order
    of the request and not in the order of the table, and the requested
    columns that are absent give one warning, not an error.  Without
    such a request every column is kept and nothing is warned. *)
Theorem transform_final_columns
        (config : option Config) (s : ETL) (c : DataFrame) :
  consolidated_data s = Some c ->
  NoDup (columns c) ->
  let s' := snd (transform config s) in
  (exists t, transformed_data s' = Some t
             /\ columns t = final_projection config (columns c))
  /\ warnings (error_handler s')
     = warnings (error_handler s) ++ projection_warnings config (columns c)
  /\ errors (error_handler s') = errors (error_handler s).
Proof.
  intros Hc Hnd.
  destruct (transform_runs config s c Hc) as (t & h' & -> & _ & Hcols & He & Hw).
  cbn. repeat split; auto. exists t. split; [reflexivity | now apply Hcols].
Qed.

End TransformPhase.

(** ** The load phase *)

Section LoadPhase.

Import Pandas ErrorHandler RobustMultiSourceETL.

Lemma load_state (fs : FileSystem) (output_filename : string) (s : ETL) :
  exists h',
    snd (load fs output_filename s) = with_error_handler h' s
    /\ (exists b, fst (load fs output_filename s) = Return b).
Proof.
  unfold load, try_except, bind, get, lift_outcome, log_error, modify, ret.
  destruct (transformed_data s) as [t|].
  - destruct (fs_to_csv fs _ t) as [u|e]; cbn.
    + exists (error_handler s). rewrite with_error_handler_same.
      split; [reflexivity | now exists true].
    + eexists. split; [reflexivity | now exists false].
  - cbn. eexists. split; [reflexivity | now exists false].
Qed.

(** X10 -- [load] never raises.  Without a transformed table it returns
    False with one error; a failure to write the output file is caught
    and becomes a False result with one error that carries the text of
    the exception; it returns True exactly when the file was written,
    and then logs nothing.  The file is written under the output path,
    and the tables, sources and status are not touched. *)
Theorem load_catches_write_failure
        (fs : FileSystem) (output_filename : string) (s : ETL) :
  let '(result, s') := load fs output_filename s in
  let output_file := PyPath.join (output_path s) output_filename in
  result = Return (match transformed_data s with
                   | Some t =>
                       match fs_to_csv fs output_file t with
                       | Return _ => true
                       | Raise _ => false
                       end
                   | None => false
                   end)
  /\ error_handler s' =
     match transformed_data s with
     | Some t =>
         match fs_to_csv fs output_file t with
         | Return _ => error_handler s
         | Raise e =>
             ErrorHandler.log_error "load" "Failed to save data"
                                    (Some (str_exn e)) (error_handler s)
         end
     | None =>
         ErrorHandler.log_error "load" "No transformed data to load"
                                (Some "Run transform() first")
                                (error_handler s)
     end
  /\ data_sources s' = data_sources s
  /\ consolidated_data s' = consolidated_data s
  /\ transformed_data s' = transformed_data s
  /\ pipeline_status s' = pipeline_status s.
Proof.
  unfold load, try_except, bind, get, lift_outcome, log_error, modify, ret.
  destruct (transformed_data s) as [t|] eqn:Ht.
  - destruct (fs_to_csv fs _ t) as [u|e]; cbn; now repeat split.
  - cbn. now repeat split.
Qed.

End LoadPhase.

(** ** The state machine of the run *)

Section StateMachine.

Import Pandas ErrorHandler RobustMultiSourceETL.

Context {L : Lib}.

Variable fs : FileSystem.

Lemma transform_true (config : option Config) (s s' : ETL) :
  transform config s = (Return true, s') ->
  is_some (consolidated_data s') = true
  /\ is_some (transformed_data s') = true.
Proof.
  intros H. destruct (consolidated_data s) as [c|] eqn:Hc.
  - destruct (transform_runs config s c Hc) as (t & h' & E & _).
    rewrite E in H. injection H as <-. cbn. now rewrite Hc.
  - unfold transform, try_except, bind, get, log_error, modify, ret in H.
    rewrite Hc in H. cbn in H. discriminate.
Qed.

(** The phases end in a status that tells their result. *)
Lemma run_phases_status (output_filename : string) (config : option Config)
      (s : ETL) :
  match run_phases fs output_filename config s with
  | (Return true, s1) =>
      pipeline_status s1 = completed_successfully
      /\ is_some (consolidated_data s1) = true
      /\ is_some (transformed_data s1) = true
  | (Return false, s1) =>
      pipeline_status s1 = failed_extract
      \/ pipeline_status s1 = failed_consolidate
      \/ pipeline_status s1 = failed_transform
      \/ pipeline_status s1 = failed_load
  | (Raise _, _) => True
  end.
Proof.
  unfold run_phases. unfold bind at 1.
  destruct (extract_and_map_all fs s) as [[[|]|e] s1]; cbn [negb];
    [| cbn; tauto | exact I].
  unfold bind at 1.
  destruct (consolidate s1) as [[[|]|e] s2]; cbn [negb];
    [| cbn; tauto | exact I].
  unfold bind at 1.
  destruct (transform config s2) as [[[|]|e] s3] eqn:Ht; cbn [negb];
    [| cbn; tauto | exact I].
  apply transform_true in Ht as [Hc Hd].
  unfold bind at 1.
  destruct (load_state fs output_filename s3) as (h4 & Hs4 & [b Hb]).
  destruct (load fs output_filename s3) as [r4 s4].
  cbn [fst snd] in *. subst r4 s4.
  destruct b; cbn; tauto.
Qed.

(** X11 -- The state machine of [run].  Whatever happens, the run
    leaves the pipeline in one of the six final statuses, never in
    [initialized].  Its phases yield True exactly when the status is
    [completed_successfully], and then both the consolidated and the
    transformed table are set.  The caller gets that boolean unless the
    [finally] block raises: when the error log cannot be written, or
    when the ledger holds a warning. *)
Theorem run_state_machine
        (output_filename : string) (config : option Config) (s : ETL) :
  exists b s',
    run fs output_filename config s
    = (match finally_result fs s' with
       | Return _ => Return b
       | Raise e => Raise e
       end, s')
    /\ terminal (pipeline_status s') = true
    /\ (b = true <-> pipeline_status s' = completed_successfully)
    /\ (if b
        then is_some (consolidated_data s') && is_some (transformed_data s')
        else true) = true.
Proof.
  pose proof (run_phases_status output_filename config s) as H.
  unfold run.
  destruct (run_phases fs output_filename config s) as [[b|e] s1] eqn:Hp.
  - exists b, s1. split.
    + apply try_finally_run; [|apply finally_block].
      unfold try_except. now rewrite Hp.
    + destruct b.
      * destruct H as (H1 & H2 & H3). rewrite H1, H2, H3.
        repeat split; auto.
      * repeat split; try discriminate;
          destruct H as [H|[H|[H|H]]]; rewrite H; try reflexivity;
          discriminate.
  - eexists false, _. split.
    + apply try_finally_run; [|apply finally_block].
      unfold try_except. rewrite Hp.
      unfold bind, log_error, set_pipeline_status, modify, ret. reflexivity.
    + cbn. repeat split; discriminate.
Qed.

End StateMachine.

(** ** Extraction and mapping of all sources *)

Section ExtractPhase.

Import Pandas ErrorHandler RobustMultiSourceETL.

Context {L : Lib}.

Variable fs : FileSystem.

(** X12 -- [extract_source] on a registered source never raises.  It
    returns a table exactly when the file exists, is read without an
    exception and has at least one column and one row, and it sets the
    status of the source to [file_not_found], [extraction_failed],
    [validation_failed] or [extracted] accordingly; a file whose
    extension is none of [.csv], [.xlsx], [.xls] counts as a read
    failure.  A missing file and a read failure add one error each, an
    empty table adds one warning, and nothing else of the pipeline
    changes. *)
Theorem extract_source_outcome
        (source_name : string) (s : ETL) (info : source_info) :
  PyDict.get (data_sources s) source_name = Some info ->
  let '(result, s') := extract_source fs source_name s in
  let '(st, table) := extraction fs (input_path s) info in
  let file_path := PyPath.join (input_path s) (filename info) in
  result = Return table
  /\ PyDict.get (data_sources s') source_name = Some (with_status st info)
  /\ (forall k, k <> source_name ->
        PyDict.get (data_sources s') k = PyDict.get (data_sources s) k)
  /\ same_frame s s'
  /\ List.length (errors (error_handler s'))
     = List.length (errors (error_handler s))
       + match st with
         | file_not_found | extraction_failed => 1
         | _ => 0
         end
  /\ List.length (warnings (error_handler s'))
     = List.length (warnings (error_handler s))
       + match st with
         | validation_failed => 1
         | _ => 0
         end
  /\ corrections (error_handler s') = corrections (error_handler s)
  /\ (if fs_exists fs file_path
         && negb (PyStr.mem (PyPath.suffix file_path) [".csv"; ".xlsx"; ".xls"])
      then st else extraction_failed) = extraction_failed.
Proof.
  intros Hget.
  unfold extraction.
  unfold extract_source.
  unfold try_except, bind, source, get, on_ledger, set_status, source,
    lift_outcome, log_error, log_warning, modify, ret, bind,
    DataValidator.validate_file_exists.
  rewrite Hget. cbn [fst snd].
  destruct (fs_exists fs (PyPath.join (input_path s) (filename info)))
    eqn:Hex; cbn [negb andb].
  - state_simpl.
    assert (Hsuffix :
      (if negb (PyStr.mem (PyPath.suffix
                             (PyPath.join (input_path s) (filename info)))
                          [".csv"; ".xlsx"; ".xls"])
       then fst (match read_file fs
                         (PyPath.join (input_path s) (filename info)) with
                 | Return df =>
                     if has_content df then (extracted, Some df)
                     else (validation_failed, None)
                 | Raise _ => (extraction_failed, None)
                 end)
       else extraction_failed) = extraction_failed).
    { unfold read_file.
      set (sfx := PyPath.suffix (PyPath.join (input_path s) (filename info))).
      unfold PyStr.mem at 1. cbn [existsb].
      destruct (String.eqb sfx ".csv") eqn:E1; [reflexivity|].
      unfold PyStr.mem. cbn [existsb].
      destruct (String.eqb sfx ".xlsx"); [reflexivity|].
      destruct (String.eqb sfx ".xls"); reflexivity. }
    destruct (read_file fs (PyPath.join (input_path s) (filename info)))
      as [df|e] eqn:Hread.
    + state_simpl. rewrite Hget. state_simpl.
      unfold DataValidator.validate_dataframe.
      rewrite frame_issues_nil.
      destruct (has_content df) eqn:Hc; cbn [negb].
      * state_simpl.
        split; [reflexivity|]. split; [eapply get_set_same; eassumption|].
        split; [intros k Hk; apply get_set_other; congruence|].
        split; [repeat split; state_simpl; eapply keys_set; eassumption|].
        split; [lia|]. split; [lia|]. split; [reflexivity|].
        destruct (negb _); [exact Hsuffix | reflexivity].
      * state_simpl. rewrite (get_set_same _ _ _ _ Hget). state_simpl.
        split; [reflexivity|].
        split; [erewrite set_set by eassumption;
                eapply get_set_same; eassumption|].
        split; [intros k Hk; rewrite !get_set_other by congruence;
                reflexivity|].
        split; [repeat split; state_simpl;
                erewrite keys_set; [|eapply get_set_same; eassumption];
                eapply keys_set; eassumption|].
        split; [lia|]. split; [now rewrite length_app|].
        split; [reflexivity|].
        destruct (negb _); [exact Hsuffix | reflexivity].
    + state_simpl. rewrite Hget. state_simpl.
      split; [reflexivity|]. split; [eapply get_set_same; eassumption|].
      split; [intros k Hk; apply get_set_other; congruence|].
      split; [repeat split; state_simpl; eapply keys_set; eassumption|].
      split; [now rewrite length_app|]. split; [lia|].
      split; [reflexivity|].
      destruct (negb _); reflexivity.
  - state_simpl. rewrite Hget. state_simpl.
    split; [reflexivity|]. split; [eapply get_set_same; eassumption|].
    split; [intros k Hk; apply get_set_other; congruence|].
    split; [repeat split; state_simpl; eapply keys_set; eassumption|].
    split; [now rewrite length_app|]. split; [lia|].
    split; reflexivity.
Qed.

(** A surviving source: its table is stored and it counts as a success. *)
Lemma process_source_maps (source_name : string) (acc : nat * list string)
      (s : ETL) (info : source_info) :
  PyDict.get (data_sources s) source_name = Some info ->
  survives (fate fs (input_path s) info) = true ->
  exists s' d,
    process_source fs source_name acc s
    = (Return (fst acc + 1, snd acc), s')
    /\ same_frame s s'
    /\ PyDict.get (data_sources s') source_name
       = Some (mkSource (filename info) (mapping info) (Some d) mapped)
    /\ (forall k, k <> source_name ->
          PyDict.get (data_sources s') k = PyDict.get (data_sources s) k).
Proof.
  intros Hget Hfate. destruct acc as [n failed].
  unfold fate in Hfate.
  unfold process_source, extract_source.
  unfold try_except, bind, source, get, on_ledger, set_status, source,
    lift_outcome, log_error, log_warning, modify, ret, bind,
    DataValidator.validate_file_exists.
  rewrite Hget. cbn [fst snd].
  destruct (negb (fs_exists fs (PyPath.join (input_path s) (filename info))));
    [discriminate|].
  state_simpl.
  destruct (read_file fs (PyPath.join (input_path s) (filename info)))
    as [df|e]; [|discriminate].
  state_simpl. rewrite Hget. state_simpl.
  unfold DataValidator.validate_dataframe.
  destruct (negb (is_nil (DataValidator.frame_issues df))); [discriminate|].
  state_simpl.
  match goal with
  | |- context [map_columns df source_name ?st] => set (s1 := st)
  end.
  assert (Hget1 : PyDict.get (data_sources s1) source_name
                  = Some (with_status extracted info)).
  { unfold s1. state_simpl. eapply get_set_same; eassumption. }
  rewrite (map_columns_registered df source_name s1 _ Hget1).
  cbv zeta. cbn [mapping with_status].
  destruct (is_nil (available_keys df (mapping info))); [discriminate|].
  unfold set_data, bind, source, modify.
  set (m := setitem_scalar (renamed df (mapping info)) "source"
                           (Some (Str source_name))).
  set (s2 := with_data_sources _ _).
  destruct (DataValidator.rectify_data_types m (error_handler s2))
    as [m1 h1].
  cbn [error_handler with_error_handler].
  destruct (DataValidator.rectify_duplicates m1 source_name h1) as [m2 h2].
  cbn [data_sources with_error_handler].
  assert (Hget2 : PyDict.get (data_sources s2) source_name
                  = Some (with_status mapped (with_status extracted info))).
  { unfold s2. cbn [data_sources with_data_sources]. apply get_set_eq. }
  rewrite Hget2.
  eexists. exists m2. split; [reflexivity|].
  unfold s2, s1.
  split; [|split].
  - repeat split. state_simpl.
    rewrite !keys_set_any.
    assert (Hin : PyStr.mem source_name (PyDict.keys (data_sources s)) = true).
    { apply mem_In. unfold PyDict.keys.
      clear - Hget. induction (data_sources s) as [|[k v] d IH];
        [discriminate|].
      simpl in *. destruct (String.eqb k source_name) eqn:E.
      - left. now apply String.eqb_eq.
      - right. now apply IH. }
    repeat (rewrite !Hin; cbv iota). reflexivity.
  - state_simpl. apply get_set_eq.
  - intros k Hk. state_simpl.
    rewrite !get_set_other by congruence. reflexivity.
Qed.

(** Every registered source, one after the other. *)
Lemma process_sources_run (names : list string) :
  NoDup names ->
  forall (acc : nat * list string) (s : ETL),
  (forall name, In name names ->
     exists info, PyDict.get (data_sources s) name = Some info) ->
  exists s' failed,
    process_sources fs names acc s
    = (Return (fst acc
               + List.length
                   (filter (fun name =>
                              match PyDict.get (data_sources s) name with
                              | Some info =>
                                  survives (fate fs (input_path s) info)
                              | None => false
                              end) names),
               snd acc ++ failed), s')
    /\ same_frame s s'
    /\ (forall name info,
          In name names ->
          PyDict.get (data_sources s) name = Some info ->
          exists d,
            PyDict.get (data_sources s') name
            = Some (mkSource (filename info) (mapping info) d
                             (fate fs (input_path s) info))
            /\ if survives (fate fs (input_path s) info)
               then is_some d = true else d = data info)
    /\ (forall k, ~ In k names ->
          PyDict.get (data_sources s') k = PyDict.get (data_sources s) k).
Proof.
  induction names as [|name rest IH]; intros Hnd acc s Hall.
  - exists s, []. simpl. rewrite app_nil_r, Nat.add_0_r.
    destruct acc as [n failed].
    split; [reflexivity|]. split; [apply same_frame_refl|].
    split; [intros ? ? []|tauto].
  - apply NoDup_cons_iff in Hnd as [Hname Hnd].
    destruct (Hall name (or_introl eq_refl)) as (info & Hget).
    assert (Hstep : exists s1 acc1 d,
              process_source fs name acc s = (Return acc1, s1)
              /\ same_frame s s1
              /\ PyDict.get (data_sources s1) name
                 = Some (mkSource (filename info) (mapping info) d
                                  (fate fs (input_path s) info))
              /\ (if survives (fate fs (input_path s) info)
                  then is_some d = true else d = data info)
              /\ (forall k, k <> name ->
                    PyDict.get (data_sources s1) k
                    = PyDict.get (data_sources s) k)
              /\ fst acc1
                 = fst acc
                   + (if survives (fate fs (input_path s) info) then 1 else 0)
              /\ exists f1, snd acc1 = snd acc ++ f1).
    { destruct (survives (fate fs (input_path s) info)) eqn:Hf.
      - destruct (process_source_maps name acc s info Hget Hf)
          as (s1 & d & Hrun & Hframe & Hget1 & Hother).
        exists s1, (fst acc + 1, snd acc), (Some d).
        destruct (fate fs (input_path s) info); try discriminate.
        repeat split; try assumption; try apply Hframe.
        exists []. cbn. now rewrite app_nil_r.
      - destruct (process_source_fails fs name acc s info Hget Hf)
          as (s1 & Hrun & Hframe & Hget1 & Hother & _).
        exists s1, (fst acc, snd acc ++ [name]), (data info).
        repeat split; try assumption; try apply Hframe.
        + cbn. lia.
        + now exists [name]. }
    destruct Hstep as (s1 & acc1 & d & Hrun & Hframe & Hget1 & Hd & Hother
                       & Hn & f1 & Hf1).
    assert (Hpath : input_path s1 = input_path s) by apply Hframe.
    assert (Hall1 : forall k, In k rest ->
              exists i, PyDict.get (data_sources s1) k = Some i).
    { intros k Hk. rewrite Hother by (intros ->; contradiction).
      apply Hall. now right. }
    destruct (IH Hnd acc1 s1 Hall1)
      as (s' & failed & Hrun' & Hframe' & Hget' & Hother').
    exists s', (f1 ++ failed). split; [|split; [|split]].
    + cbn [process_sources]. unfold bind. rewrite Hrun, Hrun'.
      do 2 f_equal. apply f_equal2.
      * rewrite Hn. cbn [filter]. rewrite Hget.
        rewrite (filter_ext_in
                   (fun k => match PyDict.get (data_sources s1) k with
                             | Some i => survives (fate fs (input_path s1) i)
                             | None => false
                             end)
                   (fun k => match PyDict.get (data_sources s) k with
                             | Some i => survives (fate fs (input_path s) i)
                             | None => false
                             end) rest).
        -- destruct (survives (fate fs (input_path s) info)); simpl; lia.
        -- intros k Hk. rewrite Hpath.
           rewrite Hother by (intros ->; contradiction). reflexivity.
      * rewrite Hf1. now rewrite app_assoc.
    + eapply same_frame_trans; eassumption.
    + intros k i [<-|Hk] Hi.
      * rewrite Hother' by assumption. rewrite Hget in Hi.
        injection Hi as <-. exists d. split; assumption.
      * rewrite <- Hpath. apply Hget'; [assumption|].
        rewrite Hother by (intros ->; contradiction). assumption.
    + intros k Hk. rewrite Hother'.
      * apply Hother. intros ->. apply Hk. now left.
      * intros H. apply Hk. now right.
Qed.

Lemma filter_get_keys {V : Type} (g : option V -> bool) (d : PyDict.dict V) :
  NoDup (PyDict.keys d) ->
  filter (fun k => g (PyDict.get d k)) (PyDict.keys d)
  = map fst (filter (fun kv => g (Some (snd kv))) d).
Proof.
  induction d as [|[k v] d IH]; simpl; [reflexivity|].
  intros Hnd. apply NoDup_cons_iff in Hnd as [Hk Hnd].
  rewrite String.eqb_refl.
  assert (E : filter (fun k0 => g (if String.eqb k k0 then Some v
                                   else PyDict.get d k0)) (PyDict.keys d)
              = filter (fun k0 => g (PyDict.get d k0)) (PyDict.keys d)).
  { apply filter_ext_in. intros k' Hk'.
    destruct (String.eqb k k') eqn:E; [|reflexivity].
    apply String.eqb_eq in E. subst k'. contradiction. }
  rewrite E, (IH Hnd). now destruct (g (Some v)).
Qed.

Lemma get_In {V : Type} (d : PyDict.dict V) (k : string) (v : V) :
  PyDict.get d k = Some v -> In (k, v) d.
Proof.
  induction d as [|[k' v'] d IH]; simpl; [discriminate|].
  destruct (String.eqb k' k) eqn:E.
  - apply String.eqb_eq in E. subst k'. intros H. injection H as ->.
    now left.
  - intros H. right. now apply IH.
Qed.

(** The extraction phase on a pipeline whose sources have distinct
    names. *)
Lemma extract_and_map_all_run (s : ETL) :
  NoDup (PyDict.keys (data_sources s)) ->
  exists s',
    extract_and_map_all fs s = (Return (negb (is_nil (survivors fs s))), s')
    /\ same_frame s s'
    /\ (forall name info,
          In (name, info) (data_sources s) ->
          exists d,
            PyDict.get (data_sources s') name
            = Some (mkSource (filename info) (mapping info) d
                             (fate fs (input_path s) info))
            /\ if survives (fate fs (input_path s) info)
               then is_some d = true else d = data info).
Proof.
  intros Hnd.
  assert (Hall : forall name, In name (PyDict.keys (data_sources s)) ->
            exists info, PyDict.get (data_sources s) name = Some info).
  { intros name Hin. unfold PyDict.keys in Hin.
    apply in_map_iff in Hin as [[k info] [<- Hin]].
    exists info. now apply In_get. }
  destruct (process_sources_run (PyDict.keys (data_sources s)) Hnd
              (0, []) s Hall)
    as (s' & failed & Hrun & Hframe & Hget & _).
  exists s'. split; [|split].
  - unfold extract_and_map_all, bind, get, ret. rewrite Hrun.
    cbn [fst snd]. do 2 f_equal.
    rewrite (filter_get_keys
               (fun o => match o with
                         | Some info => survives (fate fs (input_path s) info)
                         | None => false
                         end) (data_sources s) Hnd).
    unfold survivors.
    destruct (map fst _); reflexivity.
  - exact Hframe.
  - intros name info Hin. apply Hget.
    + unfold PyDict.keys. apply in_map_iff. now exists (name, info).
    + now apply In_get.
Qed.

(** X13 -- Failures are isolated per source.  On a pipeline whose
    sources have distinct names, [extract_and_map_all] never raises and
    reports success exactly when at least one source comes through
    extraction, validation and mapping.  Every source ends with the
    status of its own outcome, whatever happened to the others: a
    surviving source has a table stored and the status [mapped], a
    failed one keeps the table it had and carries the status of its
    failure.  The tables and the status of the pipeline are untouched. *)
Theorem extract_and_map_all_isolation (s : ETL) :
  NoDup (PyDict.keys (data_sources s)) ->
  let '(result, s') := extract_and_map_all fs s in
  result = Return (negb (is_nil (survivors fs s)))
  /\ same_frame s s'
  /\ (forall name info,
        In (name, info) (data_sources s) ->
        exists d,
          PyDict.get (data_sources s') name
          = Some (mkSource (filename info) (mapping info) d
                           (fate fs (input_path s) info))
          /\ if survives (fate fs (input_path s) info)
             then is_some d = true else d = data info).
Proof.
  intros Hnd.
  destruct (extract_and_map_all_run s Hnd) as (s' & -> & Hframe & Hget).
  split; [reflexivity|]. split; assumption.
Qed.

Lemma consolidate_runs (s : ETL) :
  surviving s <> [] ->
  (forall df, In df (surviving s) -> NoDup (columns df)) ->
  consolidate s
  = (Return true,
     with_consolidated_data (Some (outer_concat (surviving s))) s).
Proof.
  intros Hne Hcols.
  pose proof (concat_unique (surviving s) Hne Hcols) as Hcat.
  unfold consolidate, try_except, bind, get, lift_outcome, log_error,
    modify, ret.
  fold (surviving s). rewrite Hcat.
  destruct (surviving s); [contradiction|reflexivity].
Qed.

(** X14 -- A run goes through when one source survives.  On a pipeline
    whose sources have distinct names, if at least one source comes
    through extraction and mapping (the surviving tables having distinct
    column labels), the run consolidates and transforms whatever the
    other sources did: the join of the surviving tables does not raise,
    the consolidated table is their concatenation and a transformed
    table is set.  The status is
    [completed_successfully] when the output file is written; a failure
    to write it does not propagate: it ends the run in [failed_load]
    with two more errors, one of the load and one of the run.  The
    caller receives the matching boolean unless the [finally] block
    raises. *)
Theorem run_with_one_survivor
        (output_filename : string) (config : option Config) (s : ETL) :
  NoDup (PyDict.keys (data_sources s)) ->
  survivors fs s <> [] ->
  (forall df, In df (surviving (snd (extract_and_map_all fs s))) ->
              NoDup (columns df)) ->
  let '(result, s') := run fs output_filename config s in
  let s_x := snd (extract_and_map_all fs s) in
  surviving s' <> []
  /\ data_sources s' = data_sources s_x
  /\ concat (surviving s') = Return (outer_concat (surviving s'))
  /\ consolidated_data s' = Some (outer_concat (surviving s'))
  /\ exists t,
       transformed_data s' = Some t
       /\ len t <= len (outer_concat (surviving s'))
       /\ pipeline_status s'
          = match fs_to_csv fs (PyPath.join (output_path s) output_filename)
                            t with
            | Return _ => completed_successfully
            | Raise _ => failed_load
            end
       /\ result
          = match finally_result fs s' with
            | Return _ =>
                Return
                  match fs_to_csv fs
                          (PyPath.join (output_path s) output_filename) t with
                  | Return _ => true
                  | Raise _ => false
                  end
            | Raise e => Raise e
            end
       /\ errors (error_handler s')
          = errors (error_handler s_x)
              ++ match fs_to_csv fs
                         (PyPath.join (output_path s) output_filename) t with
                 | Return _ => []
                 | Raise e =>
                     [mkError "load" "Failed to save data" (Some (str_exn e));
                      mkError "pipeline" "Load phase failed"
                              (Some "Could not save output")]
                 end.
Proof.
  intros Hnd Hsurv Hcols.
  destruct (extract_and_map_all_run s Hnd) as (s1 & Hx & Hframe & Hget).
  rewrite Hx in Hcols. cbn [snd] in Hcols.
  assert (Hne : surviving s1 <> []).
  { unfold survivors in Hsurv.
    destruct (filter _ (data_sources s)) as [|[name info] l] eqn:Hf;
      [now contradiction Hsurv|].
    assert (Hin : In (name, info)
                     (filter (fun kv => survives
                                          (fate fs (input_path s) (snd kv)))
                             (data_sources s)))
      by (rewrite Hf; now left).
    apply filter_In in Hin as [Hin Hs]. cbn [snd] in Hs.
    destruct (Hget name info Hin) as (d & Hd & Hsome).
    rewrite Hs in Hsome. destruct d as [d|]; [|discriminate].
    apply get_In in Hd. unfold surviving.
    intros Hnil.
    assert (Hd' : In d (flat_map (fun kv => match data (snd kv) with
                                            | Some df => [df]
                                            | None => []
                                            end) (data_sources s1))).
    { apply in_flat_map. eexists. split; [exact Hd|]. now left. }
    rewrite Hnil in Hd'. contradiction. }
  destruct Hframe as (F1 & F2 & F3 & F4 & F5 & F6).
  set (s2 := with_consolidated_data (Some (outer_concat (surviving s1))) s1).
  destruct (transform_runs config s2 (outer_concat (surviving s1)) eq_refl)
    as (t & h3 & Ht & Hlen & _ & He3 & _).
  set (s3 := with_transformed_data (Some t) (with_error_handler h3 s2)) in *.
  remember (fs_to_csv fs (PyPath.join (output_path s) output_filename) t)
    as written eqn:Hw.
  set (s4 := match written with
             | Return _ => with_pipeline_status completed_successfully s3
             | Raise e =>
                 with_pipeline_status failed_load
                   (with_error_handler
                      (ErrorHandler.log_error "pipeline" "Load phase failed"
                         (Some "Could not save output")
                         (ErrorHandler.log_error "load" "Failed to save data"
                            (Some (str_exn e)) h3)) s3)
             end).
  assert (Hphases : run_phases fs output_filename config s
                    = (Return match written with
                              | Return _ => true
                              | Raise _ => false
                              end, s4)).
  { unfold run_phases. unfold bind at 1. rewrite Hx.
    destruct (survivors fs s); [now contradiction Hsurv|]. cbn [is_nil negb].
    unfold bind at 1. rewrite (consolidate_runs s1 Hne Hcols). cbn [negb].
    fold s2. unfold bind at 1. rewrite Ht. cbn [negb].
    unfold bind at 1.
    unfold load, try_except, bind, get, lift_outcome, log_error,
      set_pipeline_status, modify, ret.
    fold s3. unfold s3 at 1. cbn [transformed_data with_transformed_data].
    change (output_path s3) with (output_path s1).
    rewrite F2, <- Hw. unfold s4.
    destruct written as [u|e]; reflexivity. }
  unfold run.
  rewrite (try_finally_run _ _ s
             (Return match written with
                     | Return _ => true
                     | Raise _ => false
                     end) s4 (finally_result fs s4));
    [ | unfold try_except; now rewrite Hphases | apply finally_block ].
  rewrite Hx. cbn [snd].
  assert (Hds : data_sources s4 = data_sources s1)
    by (unfold s4; destruct written; reflexivity).
  assert (Hsv : surviving s4 = surviving s1)
    by (unfold surviving; now rewrite Hds).
  rewrite Hsv.
  split; [exact Hne|]. split; [exact Hds|].
  split; [exact (concat_unique (surviving s1) Hne Hcols)|].
  split; [unfold s4; destruct written; reflexivity|].
  exists t. rewrite <- Hw.
  split; [unfold s4; destruct written; reflexivity|].
  split; [exact Hlen|].
  split; [unfold s4; destruct written; reflexivity|].
  split; [destruct (finally_result fs s4); reflexivity|].
  unfold s4. destruct written as [u|e]; cbn.
  - rewrite He3. cbn. now rewrite app_nil_r.
  - rewrite He3. cbn. now rewrite <- app_assoc.
Qed.

End ExtractPhase.

(** ** Column mapping of a source that has mapped columns *)

Section MapSelected.

Import Pandas ErrorHandler RobustMultiSourceETL.

Lemma pick_single (c : string) (cols : list string) (r : row) :
  NoDup cols -> List.length r = List.length cols -> In c cols ->
  pick c cols r = [cell_or_null (get_cell cols r c)].
Proof.
  revert r. induction cols as [|n cols IH]; intros [|x r] Hnd Hlen Hin;
    simpl in *; try contradiction; try discriminate.
  apply NoDup_cons_iff in Hnd as [Hn Hnd]. injection Hlen as Hlen.
  destruct (String.eqb n c) eqn:E.
  - apply String.eqb_eq in E. subst n. simpl. f_equal.
    clear - Hn Hlen. revert r Hlen.
    induction cols as [|m cols IH]; intros [|y r] Hlen; simpl in *;
      try reflexivity; try discriminate.
    destruct (String.eqb m c) eqn:E.
    + apply String.eqb_eq in E. subst m. exfalso. apply Hn. now left.
    + apply IH; [|now injection Hlen]. intros H. apply Hn. now right.
  - apply IH; try assumption.
    destruct Hin as [->|Hin]; [|assumption].
    rewrite String.eqb_refl in E. discriminate.
Qed.

Lemma selected_row (cols names : list string) (r : row) :
  NoDup cols -> List.length r = List.length cols ->
  (forall c, In c names -> In c cols) ->
  flat_map (fun c => pick c cols r) names
  = map (fun c => cell_or_null (get_cell cols r c)) names.
Proof.
  intros Hnd Hlen Hin.
  induction names as [|c names IH]; [reflexivity|].
  cbn [flat_map map].
  rewrite (pick_single c cols r Hnd Hlen) by (apply Hin; now left).
  simpl. f_equal. apply IH. intros x Hx. apply Hin. now right.
Qed.

Lemma get_cell_map2 (f : string -> string) (g : string -> cell)
      (l : list string) (k : string) :
  NoDup (map f l) -> In k l ->
  get_cell (map f l) (map g l) (f k) = Some (g k).
Proof.
  induction l as [|a l IH]; intros Hnd Hin; [contradiction|].
  cbn [map] in *. apply NoDup_cons_iff in Hnd as [Ha Hnd].
  cbn [get_cell].
  destruct Hin as [->|Hin].
  - now rewrite String.eqb_refl.
  - destruct (String.eqb (f a) (f k)) eqn:E.
    + apply String.eqb_eq in E. exfalso. apply Ha. rewrite E.
      now apply in_map.
    + now apply IH.
Qed.

Lemma renaming_get (m : PyDict.dict string) (l : list string) (c : string) :
  In c l ->
  PyDict.get (flat_map (fun col => match PyDict.get m col with
                                   | Some new => [(col, new)]
                                   | None => []
                                   end) l) c
  = PyDict.get m c.
Proof.
  induction l as [|a l IH]; intros Hin; [contradiction|].
  cbn [flat_map].
  destruct (String.eqb a c) eqn:E.
  - apply String.eqb_eq in E. subst a.
    destruct (PyDict.get m c) as [v|] eqn:G.
    + simpl. now rewrite String.eqb_refl.
    + simpl. clear IH Hin.
      induction l as [|b l IH]; [reflexivity|].
      cbn [flat_map].
      destruct (PyDict.get m b) as [w|] eqn:Gb; simpl; [|exact IH].
      destruct (String.eqb b c) eqn:Eb; [|exact IH].
      apply String.eqb_eq in Eb. subst b. congruence.
  - destruct Hin as [->|Hin]; [rewrite String.eqb_refl in E; discriminate|].
    destruct (PyDict.get m a) as [v|]; simpl; [rewrite E|]; now apply IH.
Qed.

Lemma new_labels_filter (p : string -> bool) (m : PyDict.dict string) :
  NoDup (PyDict.keys m) ->
  map (new_label m) (filter p (PyDict.keys m))
  = map snd (filter (fun kv => p (fst kv)) m).
Proof.
  induction m as [|[k v] m IH]; intros Hnd; [reflexivity|].
  cbn [PyDict.keys map fst] in *. apply NoDup_cons_iff in Hnd as [Hk Hnd].
  assert (E : forall l, (forall x, In x l -> In x (PyDict.keys m)) ->
                        map (new_label ((k, v) :: m)) l = map (new_label m) l).
  { intros l Hl. apply map_ext_in. intros x Hx. unfold new_label. simpl.
    destruct (String.eqb k x) eqn:E; [|reflexivity].
    apply String.eqb_eq in E. subst x. exfalso. apply Hk. now apply Hl. }
  cbn [filter fst]. destruct (p k).
  - cbn [map snd]. f_equal.
    + unfold new_label. simpl. now rewrite String.eqb_refl.
    + rewrite E; [now apply IH|]. intros x Hx.
      now apply filter_In in Hx as [Hx _].
  - rewrite E; [now apply IH|]. intros x Hx.
    now apply filter_In in Hx as [Hx _].
Qed.

Lemma renamed_columns (df : DataFrame) (m : PyDict.dict string) :
  NoDup (columns df) -> NoDup (PyDict.keys m) ->
  columns (renamed df m) = mapped_labels df m.
Proof.
  intros Hnd Hk. unfold renamed, rename. cbn [columns].
  rewrite getitem_list_columns;
    [|assumption|unfold available_keys; apply filter_mem_In].
  unfold mapped_labels.
  rewrite <- (new_labels_filter (fun k => PyStr.mem k (columns df)) m Hk).
  fold (available_keys df m).
  apply map_ext_in. intros c Hc. unfold new_label.
  now rewrite renaming_get.
Qed.

(** X15 -- [map_columns] on a source that has mapped columns.  For a
    registered source, a rectangular table with distinct labels and a
    mapping whose new labels for the columns of the table are distinct,
    the mapped table has exactly the columns named by the mapping, under
    their new labels and in the order of the mapping, followed by
    [source] unless a column was renamed to it; every other column of
    the table is dropped; no row is added or removed; and every cell
    under a new label other than [source] is the cell of the same row
    under the old label.  The status becomes [mapped] and no error is
    recorded. *)
Theorem map_columns_selects
        (df : DataFrame) (source_name : string) (s : ETL)
        (info : source_info) :
  PyDict.get (data_sources s) source_name = Some info ->
  well_formed df ->
  NoDup (columns df) ->
  NoDup (PyDict.keys (mapping info)) ->
  NoDup (mapped_labels df (mapping info)) ->
  mapped_labels df (mapping info) <> [] ->
  let '(result, s') := map_columns df source_name s in
  exists df',
    result = Return (Some df')
    /\ columns df'
       = (if PyStr.mem "source" (mapped_labels df (mapping info))
          then mapped_labels df (mapping info)
          else mapped_labels df (mapping info) ++ ["source"])
    /\ len df' = len df
    /\ PyDict.get (data_sources s') source_name
       = Some (with_status mapped info)
    /\ errors (error_handler s') = errors (error_handler s)
    /\ forall i r r' k v,
         nth_error (rows df) i = Some r ->
         nth_error (rows df') i = Some r' ->
         In (k, v) (mapping info) ->
         In k (columns df) ->
         v <> "source" ->
         get_cell (columns df') r' v = get_cell (columns df) r k.
Proof.
  intros Hget Hwf Hnd Hkeys Htargets Hne.
  rewrite (map_columns_registered df source_name s info Hget). cbv zeta.
  pose proof (renamed_columns df (mapping info) Hnd Hkeys) as Hcols.
  assert (Hav : is_nil (available_keys df (mapping info)) = false).
  { destruct (available_keys df (mapping info)) eqn:E; [|reflexivity].
    exfalso. apply Hne. rewrite <- Hcols. unfold renamed, rename.
    cbn [columns]. rewrite E. reflexivity. }
  rewrite Hav.
  assert (Hwf' : well_formed (renamed df (mapping info))).
  { unfold renamed. apply rename_well_formed.
    now apply getitem_list_well_formed. }
  set (m := mapping info) in *.
  set (d1 := renamed df m) in *.
  set (v0 := Some (Str source_name)).
  exists (setitem_scalar d1 "source" v0).
  split; [reflexivity|]. split; [|split; [|split; [|split]]].
  - unfold setitem_scalar. rewrite Hcols.
    now destruct (PyStr.mem "source" (mapped_labels df m)).
  - unfold len. rewrite setitem_scalar_len. unfold d1, renamed, rename,
      getitem_list. cbn [rows]. apply length_map.
  - state_simpl. eapply get_set_same; eassumption.
  - state_simpl. unfold warn_missing_keys.
    destruct (is_nil (missing_keys df m)); reflexivity.
  - intros i r r' k v Hr Hr' Hin Hk Hv.
    assert (Hlen : List.length r = List.length (columns df)).
    { unfold well_formed in Hwf. rewrite Forall_forall in Hwf.
      apply Hwf. eapply nth_error_In; eassumption. }
    assert (Hsel : nth_error (rows d1) i
                   = Some (map (fun c => cell_or_null
                                           (get_cell (columns df) r c))
                               (available_keys df m))).
    { unfold d1, renamed, rename, getitem_list. cbn [rows].
      rewrite nth_error_map. unfold row in *. rewrite Hr. cbn [option_map].
      f_equal. apply selected_row; try assumption.
      unfold available_keys. apply filter_mem_In. }
    rewrite (setitem_scalar_get d1 "source" v0 i _ r' v Hwf' Hsel Hr').
    destruct (String.eqb v "source") eqn:E;
      [apply String.eqb_eq in E; contradiction|].
    assert (Hkav : In k (available_keys df m)).
    { unfold available_keys. apply filter_In. split.
      - unfold PyDict.keys. apply in_map_iff. now exists (k, v).
      - now apply mem_In. }
    assert (Hlabels : columns d1 = map (new_label m) (available_keys df m)).
    { rewrite Hcols. unfold mapped_labels, available_keys.
      now rewrite new_labels_filter. }
    assert (Hv' : v = new_label m k).
    { unfold new_label. now rewrite (In_get m k v Hkeys Hin). }
    rewrite Hlabels, Hv'.
    rewrite get_cell_map2;
      [| rewrite <- Hlabels, Hcols; exact Htargets | exact Hkav].
    destruct (get_cell_Some (columns df) r k Hk Hlen) as [x ->].
    reflexivity.
Qed.

(** X16 -- A source that is not registered.  [extract_source] and
    [map_columns] each log one error, with the text of the [KeyError]
    of the lookup, and then raise a [KeyError] themselves: the handler
    that should return none fails on the status assignment.  Inside
    [extract_and_map_all] that exception is caught: the source is
    counted as failed, with a second error, and nothing but the ledger
    changes. *)
Theorem unregistered_source_raises
        (L : Lib) (fs : FileSystem) (df : DataFrame) (source_name : string)
        (acc : nat * list string) (s : ETL) :
  PyDict.get (data_sources s) source_name = None ->
  exists e,
    match e with
    | KeyError _ => True
    | _ => False
    end
    /\ extract_source fs source_name s
       = (Raise e,
          with_error_handler
            (ErrorHandler.log_error "extract_source"
               ("Unexpected error extracting " ++ source_name)%string
               (Some (str_exn e)) (error_handler s)) s)
    /\ map_columns df source_name s
       = (Raise e,
          with_error_handler
            (ErrorHandler.log_error ("map_columns_" ++ source_name)%string
               "Error during column mapping"
               (Some (str_exn e)) (error_handler s)) s)
    /\ process_source fs source_name acc s
       = (Return (fst acc, snd acc ++ [source_name]),
          with_error_handler
            (ErrorHandler.log_error
               ("extract_and_map_" ++ source_name)%string
               ("Unexpected error processing " ++ source_name)%string
               (Some (str_exn e))
               (ErrorHandler.log_error "extract_source"
                  ("Unexpected error extracting " ++ source_name)%string
                  (Some (str_exn e)) (error_handler s))) s).
Proof.
  intros Hget. destruct acc as [n failed].
  exists (KeyError source_name). split; [exact I|].
  unfold process_source, extract_source, map_columns.
  unfold try_except, bind, source, set_status, source, log_error, modify, ret,
    bind.
  rewrite Hget. cbn. rewrite Hget. cbn. repeat split.
Qed.

End MapSelected.

(** ** Filling twice *)

Section FillTwice.

Import Pandas ErrorHandler.

Context {L : Lib}.

Lemma count_na_zero (vs : list cell) :
  (forall x, In x vs -> x <> Null) -> count_na vs = 0.
Proof.
  intros H. unfold count_na.
  induction vs as [|x vs IH]; [reflexivity|]. simpl.
  destruct x as [y|]; simpl.
  - apply IH. intros z Hz. apply H. now right.
  - exfalso. apply (H None); [now left | reflexivity].
Qed.

Lemma fill_rule_frame (d : DataFrame) (h : ErrorHandler.t)
      (col : string) (v : value) :
  well_formed d ->
  let d1 := fst (DataValidator.fill_rule (d, h) (col, v)) in
  columns d1 = columns d
  /\ well_formed d1
  /\ (PyStr.mem col (columns d) = true -> count_na (getitem d1 col) = 0)
  /\ (forall c, count_na (getitem d c) = 0 -> count_na (getitem d1 c) = 0).
Proof.
  intros Hwf. cbv zeta.
  pose proof (fill_rule_step d h col v) as Hstep. cbv zeta in Hstep.
  unfold DataValidator.fill_rule in *.
  destruct (PyStr.mem col (columns d)) eqn:Hm;
    [destruct (0 <? count_na (getitem d col))%nat eqn:Hk|];
    cbn [fst] in *.
  - destruct Hstep as (Hc & _ & _ & Hget & _).
    assert (Hzero : count_na (getitem
                     (setitem_series d col
                        (map (fillna v) (getitem d col))) col) = 0).
    { apply count_na_zero. intros x Hx.
      rewrite setitem_map in Hx. unfold getitem in Hx. cbn [rows columns] in Hx.
      rewrite map_map in Hx. apply in_map_iff in Hx as [r [<- Hr]].
      rewrite get_cell_update_same.
      unfold well_formed in Hwf. rewrite Forall_forall in Hwf.
      apply mem_In in Hm.
      destruct (get_cell_Some (columns d) r col Hm (Hwf r Hr)) as [y ->].
      cbn. destruct y; discriminate. }
    split; [reflexivity|]. split; [|split].
    + rewrite setitem_map. unfold well_formed in *. cbn [rows columns].
      rewrite Forall_forall in *. intros r Hr.
      apply in_map_iff in Hr as [r0 [<- Hr0]].
      rewrite update_row_length. now apply Hwf.
    + intros _. exact Hzero.
    + intros c Hc0. destruct (String.eqb c col) eqn:E.
      * apply String.eqb_eq in E. subst c. exact Hzero.
      * apply String.eqb_neq in E. now rewrite Hget.
  - apply Nat.ltb_ge in Hk. repeat split; auto. intros _. lia.
  - repeat split; auto. discriminate.
Qed.

Lemma fill_fold_frame (rules : PyDict.dict value) :
  forall (d : DataFrame) (h : ErrorHandler.t),
  well_formed d ->
  let d' := fst (fold_left DataValidator.fill_rule rules (d, h)) in
  columns d' = columns d
  /\ (forall c, count_na (getitem d c) = 0 -> count_na (getitem d' c) = 0)
  /\ (forall col v, In (col, v) rules ->
        PyStr.mem col (columns d) = true -> count_na (getitem d' col) = 0).
Proof.
  induction rules as [|[col v] rules IH]; intros d h Hwf; cbv zeta.
  - simpl. repeat split; auto. intros ? ? [].
  - cbn [fold_left].
    destruct (fill_rule_frame d h col v Hwf) as (Hc1 & Hwf1 & Hz1 & Hk1).
    destruct (DataValidator.fill_rule (d, h) (col, v)) as [d1 h1].
    cbn [fst] in *.
    destruct (IH d1 h1 Hwf1) as (Hc & Hk & Hz).
    split; [congruence|]. split.
    + intros c Hc0. apply Hk. now apply Hk1.
    + intros c w [Heq|Hin] Hm.
      * injection Heq as <- <-. apply Hk. now apply Hz1.
      * apply (Hz c w Hin). now rewrite Hc1.
Qed.

Lemma fill_fold_fixed (rules : PyDict.dict value) (d : DataFrame)
      (h : ErrorHandler.t) :
  (forall col v, In (col, v) rules ->
     PyStr.mem col (columns d) = true -> count_na (getitem d col) = 0) ->
  fold_left DataValidator.fill_rule rules (d, h) = (d, h).
Proof.
  induction rules as [|[col v] rules IH]; intros H; [reflexivity|].
  cbn [fold_left].
  assert (E : DataValidator.fill_rule (d, h) (col, v) = (d, h)).
  { unfold DataValidator.fill_rule.
    destruct (PyStr.mem col (columns d)) eqn:Hm; [|reflexivity].
    rewrite (H col v (or_introl eq_refl) Hm). reflexivity. }
  rewrite E. apply IH. intros c w Hin. apply (H c w). now right.
Qed.

(** X17 -- Missing-value filling is idempotent on a rectangular table
    with distinct column labels: a second pass with the same rules
    returns the table of the first pass and logs nothing, because the
    first pass leaves no missing cell under any column that has a
    rule. *)
Theorem rectify_missing_values_idempotent
        (df : DataFrame) (fill_rules : PyDict.dict value)
        (h : ErrorHandler.t) :
  well_formed df ->
  NoDup (columns df) ->
  let '(df1, h1) := DataValidator.rectify_missing_values df fill_rules h in
  DataValidator.rectify_missing_values df1 fill_rules h1 = (df1, h1)
  /\ forall col v, In (col, v) fill_rules -> In col (columns df) ->
                   count_na (getitem df1 col) = 0.
Proof.
  intros Hwf _. unfold DataValidator.rectify_missing_values.
  destruct (fill_fold_frame fill_rules df h Hwf) as (Hc & _ & Hz).
  destruct (fold_left DataValidator.fill_rule fill_rules (df, h))
    as [df1 h1].
  cbn [fst] in *. split.
  - apply fill_fold_fixed. intros col v Hin Hm. apply (Hz col v Hin).
    now rewrite <- Hc.
  - intros col v Hin Hcol. apply (Hz col v Hin). now apply mem_In.
Qed.

End FillTwice.

(** ** The normalization steps of the transformation *)

Section Normalization.

Import Pandas ErrorHandler RobustMultiSourceETL.

Context {L : Lib}.

Lemma apply_column_cells (f : cell -> cell) (t : DataFrame) (col : string)
      (i : nat) (r r' : row) (c : string) :
  nth_error (rows t) i = Some r ->
  nth_error (rows (apply_column f t col)) i = Some r' ->
  get_cell (columns t) r' c
  = if String.eqb c col then option_map f (get_cell (columns t) r c)
    else get_cell (columns t) r c.
Proof.
  intros Hr Hr'. unfold apply_column in Hr'. rewrite setitem_map in Hr'.
  cbn [rows] in Hr'. rewrite nth_error_map in Hr'. unfold row in *.
  rewrite Hr in Hr'. cbn in Hr'. injection Hr' as <-.
  destruct (String.eqb c col) eqn:E.
  - apply String.eqb_eq in E. subst c. rewrite get_cell_update_same.
    now destruct (get_cell (columns t) r col).
  - apply String.eqb_neq in E. apply get_cell_update_other. congruence.
Qed.

Lemma apply_column_length (f : cell -> cell) (t : DataFrame) (col : string) :
  List.length (rows (apply_column f t col)) = List.length (rows t).
Proof.
  unfold apply_column. rewrite setitem_map. cbn [rows]. apply length_map.
Qed.

(** X18 -- The gender step of [transform], on a table with distinct
    column labels.  A table without a [gender] column is returned as it
    is.  Otherwise every cell of the [gender] column becomes the string
    M, F or Unknown that [normalize_gender] gives for it, so that no
    cell of the column is missing afterwards, and the columns, the
    number of rows and every other cell are unchanged. *)
Theorem normalize_gender_column_cells (t : DataFrame) :
  NoDup (columns t) ->
  let t' := normalize_gender_column t in
  columns t' = columns t
  /\ len t' = len t
  /\ (if PyStr.mem "gender" (columns t) then True else t' = t)
  /\ forall i r r' c,
       nth_error (rows t) i = Some r ->
       nth_error (rows t') i = Some r' ->
       get_cell (columns t) r' c
       = if String.eqb c "gender"
         then option_map (fun v => Some (Str (normalize_gender v)))
                         (get_cell (columns t) r c)
         else get_cell (columns t) r c.
Proof.
  intros _. cbv zeta. unfold normalize_gender_column.
  destruct (PyStr.mem "gender" (columns t)) eqn:Hm.
  - split; [reflexivity|]. split; [apply apply_column_length|].
    split; [exact I|].
    intros i r r' c Hr Hr'. eapply apply_column_cells; eassumption.
  - repeat split. intros i r r' c Hr Hr'. rewrite Hr in Hr'.
    injection Hr' as <-.
    destruct (String.eqb c "gender") eqn:E; [|reflexivity].
    apply String.eqb_eq in E. subst c.
    apply mem_not_In in Hm.
    now rewrite (get_cell_absent (columns t) r "gender" Hm).
Qed.

Lemma format_dates_fold (l : list string) :
  NoDup l ->
  forall t : DataFrame,
  let t' := fold_left (fun df col => if PyStr.mem col (columns df)
                                     then apply_column format_date df col
                                     else df) l t in
  columns t' = columns t
  /\ List.length (rows t') = List.length (rows t)
  /\ forall i r r' c,
       nth_error (rows t) i = Some r ->
       nth_error (rows t') i = Some r' ->
       get_cell (columns t) r' c
       = if PyStr.mem c l then option_map format_date (get_cell (columns t) r c)
         else get_cell (columns t) r c.
Proof.
  induction l as [|col l IH]; intros Hnd t; cbv zeta.
  - simpl. repeat split. intros i r r' c Hr Hr'. rewrite Hr in Hr'.
    now injection Hr' as <-.
  - apply NoDup_cons_iff in Hnd as [Hcol Hnd]. cbn [fold_left].
    set (t1 := if PyStr.mem col (columns t)
               then apply_column format_date t col else t).
    assert (H1 : columns t1 = columns t
                 /\ List.length (rows t1) = List.length (rows t)
                 /\ forall i r r1 c,
                      nth_error (rows t) i = Some r ->
                      nth_error (rows t1) i = Some r1 ->
                      get_cell (columns t) r1 c
                      = if String.eqb c col
                        then option_map format_date (get_cell (columns t) r c)
                        else get_cell (columns t) r c).
    { unfold t1. destruct (PyStr.mem col (columns t)) eqn:Hm.
      - split; [reflexivity|]. split; [apply apply_column_length|].
        intros i r r1 c Hr Hr1. eapply apply_column_cells; eassumption.
      - repeat split. intros i r r1 c Hr Hr1. rewrite Hr in Hr1.
        injection Hr1 as <-.
        destruct (String.eqb c col) eqn:E; [|reflexivity].
        apply String.eqb_eq in E. subst c. apply mem_not_In in Hm.
        now rewrite (get_cell_absent (columns t) r col Hm). }
    destruct H1 as (Hc1 & Hl1 & Hcell1).
    destruct (IH Hnd t1) as (Hc & Hl & Hcell).
    split; [congruence|]. split; [congruence|].
    intros i r r' c Hr Hr'.
    destruct (nth_error_same_length (rows t) (rows t1) i r Hl1 Hr)
      as [r1 Hr1].
    rewrite Hc1 in Hcell. rewrite (Hcell i r1 r' c Hr1 Hr').
    rewrite (Hcell1 i r r1 c Hr Hr1).
    unfold PyStr.mem at 2. cbn [existsb]. fold (PyStr.mem c l).
    destruct (String.eqb c col) eqn:E.
    + apply String.eqb_eq in E. subst c.
      apply mem_not_In in Hcol. rewrite Hcol. reflexivity.
    + reflexivity.
Qed.

(** X19 -- The date step of [transform], on a table with distinct
    column labels and for a list of date columns without repetition.
    Every cell of a listed column that the table
    has is replaced by what [format_date] gives for it: a missing or
    unparseable value becomes missing, a parsed one becomes its
    formatted string.  A listed column that the table lacks is skipped,
    and the columns, the number of rows and the cells of the other
    columns are unchanged; without a configuration nothing changes. *)
Theorem format_date_columns_cells (config : option Config) (t : DataFrame) :
  NoDup (columns t) ->
  NoDup (configured_dates config) ->
  let t' := format_date_columns config t in
  columns t' = columns t
  /\ len t' = len t
  /\ (forall i r r' c,
        nth_error (rows t) i = Some r ->
        nth_error (rows t') i = Some r' ->
        get_cell (columns t) r' c
        = if PyStr.mem c (configured_dates config)
          then option_map format_date (get_cell (columns t) r c)
          else get_cell (columns t) r c)
  /\ format_date Null = Null
  /\ (forall v, format_date v = Null
                \/ exists z, parse_datetime v = Parsed z
                             /\ format_date v = Some (Str (strftime_ymd z))).
Proof.
  intros _ Hnd.
  assert (E : format_date_columns config t
              = fold_left (fun df col => if PyStr.mem col (columns df)
                                         then apply_column format_date df col
                                         else df)
                          (configured_dates config) t).
  { unfold format_date_columns, configured_dates.
    destruct config as [c|]; [|reflexivity].
    destruct (config_truthy (Some c)) eqn:Ht; [reflexivity|].
    unfold config_truthy in Ht.
    destruct (date_columns c); [discriminate | reflexivity]. }
  cbv zeta. rewrite E.
  destruct (format_dates_fold (configured_dates config) Hnd t)
    as (Hc & Hl & Hcell).
  split; [exact Hc|]. split; [exact Hl|]. split; [exact Hcell|].
  split; [reflexivity|].
  intros v. unfold format_date.
  destruct (isna v); [now left|].
  destruct (parse_datetime v) as [z| |e]; [right; now exists z | now left..].
Qed.

End Normalization.

(** ** A run without sources *)

Section EmptyRun.

Import Pandas ErrorHandler RobustMultiSourceETL.

Context {L : Lib}.

(** X20 -- A run on a pipeline without any registered source ends in
    [failed_extract] with exactly one more error, that of the failed
    phase, leaves the consolidated and the transformed table as they
    were, and yields False (which the caller receives unless the
    [finally] block raises). *)
Theorem run_without_sources
        (fs : FileSystem) (output_filename : string)
        (config : option Config) (s : ETL) :
  data_sources s = [] ->
  let '(result, s') := run fs output_filename config s in
  pipeline_status s' = failed_extract
  /\ error_handler s'
     = ErrorHandler.log_error "pipeline" "Extract and map phase failed"
         (Some "No sources processed successfully") (error_handler s)
  /\ data_sources s' = []
  /\ consolidated_data s' = consolidated_data s
  /\ transformed_data s' = transformed_data s
  /\ result = match finally_result fs s' with
              | Return _ => Return false
              | Raise e => Raise e
              end.
Proof.
  intros Hnone.
  set (s1 := with_pipeline_status failed_extract
               (with_error_handler
                  (ErrorHandler.log_error "pipeline"
                     "Extract and map phase failed"
                     (Some "No sources processed successfully")
                     (error_handler s)) s)).
  assert (Hphases : run_phases fs output_filename config s
                    = (Return false, s1)).
  { unfold run_phases, extract_and_map_all, bind, get, ret, log_error,
      set_pipeline_status, modify.
    rewrite Hnone. reflexivity. }
  unfold run.
  rewrite (try_finally_run _ _ s (Return false) s1 (finally_result fs s1));
    [ | unfold try_except; now rewrite Hphases | apply finally_block ].
  unfold s1. cbn [pipeline_status error_handler data_sources
    consolidated_data transformed_data with_pipeline_status
    with_error_handler].
  repeat split; auto.
Qed.

End EmptyRun.

(* ================================================================== *)
(** * The further properties on sample data *)

Section MoreSamples.

Import Pandas ErrorHandler RobustMultiSourceETL.

Lemma rectify_missing_columns_adds_witness :
  well_formed Sample.gaps
  /\ columns (fst (DataValidator.rectify_missing_columns
                     Sample.gaps ["department"; "salary"; "salary"] "hr"
                     ErrorHandler.init))
     = ["employee_id"; "department"; "salary"]
  /\ List.length
       (corrections (snd (DataValidator.rectify_missing_columns
                            Sample.gaps ["department"; "salary"; "salary"]
                            "hr" ErrorHandler.init))) = 2.
Proof.
  assert (Hwf : well_formed Sample.gaps) by (repeat constructor).
  split; [exact Hwf|].
  pose proof (rectify_missing_columns_adds Sample.gaps
                ["department"; "salary"; "salary"] "hr" ErrorHandler.init
                Hwf) as H.
  cbv zeta in H.
  destruct (DataValidator.rectify_missing_columns _ _ _ _) as [df' h'].
  destruct H as (H1 & _ & _ & _ & _ & _ & H7 & _).
  cbn [fst snd]. split.
  - rewrite H1. reflexivity.
  - rewrite H7. reflexivity.
Defined.

Lemma register_sources_in_order_witness :
  let specs := [("a", ("a.csv", [("emp_id", "employee_id")]));
                ("b", ("b.csv", [("id", "employee_id")]))] in
  NoDup (map fst specs)
  /\ PyDict.keys
       (data_sources
          (fold_left (fun s spec =>
                        snd (register_source (fst spec) (fst (snd spec))
                                             (snd (snd spec)) s))
                     specs (init "in" "out")))
     = ["a"; "b"].
Proof.
  cbv zeta.
  assert (Hnd : NoDup (map fst [("a", ("a.csv", [("emp_id", "employee_id")]));
                                ("b", ("b.csv", [("id", "employee_id")]))])).
  { repeat constructor; simpl; intuition discriminate. }
  split; [exact Hnd|].
  exact (proj1 (register_sources_in_order "in" "out" _ Hnd)).
Defined.

Lemma transform_frame_witness :
  let s := with_consolidated_data (Some Sample.twins) (init "in" "out") in
  (forall c, consolidated_data s = Some c -> NoDup (columns c))
  /\ fst (transform (L := Sample.lib) None s) = Return true
  /\ consolidated_data (snd (transform (L := Sample.lib) None s))
     = Some Sample.twins.
Proof.
  cbv zeta.
  assert (Hnd : forall c,
             consolidated_data
               (with_consolidated_data (Some Sample.twins) (init "in" "out"))
             = Some c -> NoDup (columns c)).
  { intros c H. injection H as <-.
    repeat constructor; simpl; intuition discriminate. }
  split; [exact Hnd|].
  pose proof (@transform_frame Sample.lib None _ Hnd) as H.
  destruct (transform _ _) as [result s'].
  destruct H as (H1 & H2 & _). split; [exact H1 | exact H2].
Defined.

Lemma transform_final_columns_witness :
  let s := with_consolidated_data (Some Sample.twins) (init "in" "out") in
  let config :=
    Some (mkConfig None None None
                   (Some ["first_name"; "salary"; "employee_id"]) []) in
  consolidated_data s = Some Sample.twins
  /\ NoDup (columns Sample.twins)
  /\ (exists t,
        transformed_data (snd (transform (L := Sample.lib) config s)) = Some t
        /\ columns t = ["first_name"; "employee_id"])
  /\ List.length
       (warnings (error_handler (snd (transform (L := Sample.lib) config s))))
     = 1.
Proof.
  cbv zeta. split; [reflexivity|].
  assert (Hnd : NoDup (columns Sample.twins)).
  { repeat constructor; simpl; intuition discriminate. }
  split; [exact Hnd|].
  pose proof (@transform_final_columns Sample.lib
                (Some (mkConfig None None None
                         (Some ["first_name"; "salary"; "employee_id"]) []))
                (with_consolidated_data (Some Sample.twins) (init "in" "out"))
                Sample.twins eq_refl Hnd) as H.
  cbv zeta in H. destruct H as ((t & Ht & Hc) & Hw & _).
  split.
  - exists t. split; [exact Ht | exact Hc].
  - rewrite Hw. reflexivity.
Defined.

Lemma extract_source_outcome_witness :
  let fs := Sample.disk [("in/staff.csv", Sample.staff)] in
  PyDict.get (data_sources Sample.hr_pipeline) "hr"
  = Some (mkSource "staff.csv"
            [("emp_id", "employee_id"); ("sex", "gender");
             ("dept", "department")] None registered)
  /\ fst (extract_source fs "hr" Sample.hr_pipeline)
     = Return (Some Sample.staff).
Proof.
  cbv zeta. split; [reflexivity|].
  pose proof (extract_source_outcome
                (Sample.disk [("in/staff.csv", Sample.staff)])
                "hr" Sample.hr_pipeline _ eq_refl) as H.
  destruct (extract_source _ _ _) as [result s'].
  exact (proj1 H).
Defined.

Lemma extract_and_map_all_isolation_witness :
  let fs := Sample.disk [("in/a.csv", Sample.staff)] in
  NoDup (PyDict.keys (data_sources Sample.two_sources))
  /\ fst (extract_and_map_all (L := Sample.lib) fs Sample.two_sources)
     = Return true.
Proof.
  cbv zeta.
  assert (Hnd : NoDup (PyDict.keys (data_sources Sample.two_sources))).
  { repeat constructor; simpl; intuition discriminate. }
  split; [exact Hnd|].
  pose proof (@extract_and_map_all_isolation Sample.lib
                (Sample.disk [("in/a.csv", Sample.staff)])
                Sample.two_sources Hnd) as H.
  destruct (extract_and_map_all _ _) as [result s'].
  exact (proj1 H).
Defined.

Lemma run_with_one_survivor_witness :
  let fs := Sample.disk [("in/a.csv", Sample.staff)] in
  NoDup (PyDict.keys (data_sources Sample.two_sources))
  /\ survivors fs Sample.two_sources <> []
  /\ (forall df,
        In df (surviving
                 (snd (extract_and_map_all (L := Sample.lib) fs
                                           Sample.two_sources))) ->
        NoDup (columns df))
  /\ exists t,
       transformed_data
         (snd (run (L := Sample.lib) fs "out.csv" None Sample.two_sources))
       = Some t
       /\ pipeline_status
            (snd (run (L := Sample.lib) fs "out.csv" None Sample.two_sources))
          = completed_successfully.
Proof.
  cbv zeta.
  assert (Hnd : NoDup (PyDict.keys (data_sources Sample.two_sources))).
  { repeat constructor; simpl; intuition discriminate. }
  assert (Hsv : survivors (Sample.disk [("in/a.csv", Sample.staff)])
                          Sample.two_sources <> [])
    by (vm_compute; discriminate).
  assert (Hcols : forall df,
             In df (surviving
                      (snd (extract_and_map_all (L := Sample.lib)
                              (Sample.disk [("in/a.csv", Sample.staff)])
                              Sample.two_sources))) ->
             NoDup (columns df)).
  { intros df Hin. vm_compute in Hin. destruct Hin as [<-|[]].
    repeat constructor; simpl; intuition discriminate. }
  split; [exact Hnd|]. split; [exact Hsv|]. split; [exact Hcols|].
  pose proof (@run_with_one_survivor Sample.lib
                (Sample.disk [("in/a.csv", Sample.staff)]) "out.csv" None
                Sample.two_sources Hnd Hsv Hcols) as H.
  destruct (run _ _ _ _) as [result s'].
  destruct H as (_ & _ & _ & _ & t & Ht & _ & Hst & _).
  exists t. split; [exact Ht | exact Hst].
Defined.

Lemma map_columns_selects_witness :
  let s := with_data_sources
             [("hr", mkSource "staff.csv"
                       [("emp_id", "employee_id"); ("dept", "department");
                        ("sex", "gender")]
                       None extracted)]
             (init "in" "out") in
  well_formed Sample.staff
  /\ NoDup (columns Sample.staff)
  /\ mapped_labels Sample.staff
       [("emp_id", "employee_id"); ("dept", "department"); ("sex", "gender")]
     = ["employee_id"; "gender"]
  /\ exists df',
       fst (map_columns Sample.staff "hr" s) = Return (Some df')
       /\ columns df' = ["employee_id"; "gender"; "source"]
       /\ len df' = 3.
Proof.
  cbv zeta.
  assert (Hwf : well_formed Sample.staff) by (repeat constructor).
  assert (Hnd : NoDup (columns Sample.staff)).
  { repeat constructor; simpl; intuition discriminate. }
  split; [exact Hwf|]. split; [exact Hnd|]. split; [reflexivity|].
  assert (Hk : NoDup (PyDict.keys
                        [("emp_id", "employee_id"); ("dept", "department");
                         ("sex", "gender")])).
  { repeat constructor; simpl; intuition discriminate. }
  assert (Ht : NoDup (mapped_labels Sample.staff
                        [("emp_id", "employee_id"); ("dept", "department");
                         ("sex", "gender")])).
  { repeat constructor; simpl; intuition discriminate. }
  pose proof (map_columns_selects Sample.staff "hr"
                (with_data_sources
                   [("hr", mkSource "staff.csv"
                             [("emp_id", "employee_id");
                              ("dept", "department"); ("sex", "gender")]
                             None extracted)]
                   (init "in" "out"))
                _ eq_refl Hwf Hnd Hk Ht) as H.
  assert (Hne : mapped_labels Sample.staff
                  [("emp_id", "employee_id"); ("dept", "department");
                   ("sex", "gender")] <> []) by discriminate.
  specialize (H Hne).
  destruct (map_columns _ _ _) as [result s'].
  destruct H as (df' & H1 & H2 & H3 & _).
  exists df'. split; [exact H1|]. split; [exact H2 | exact H3].
Defined.

Lemma unregistered_source_raises_witness :
  PyDict.get (data_sources (init "in" "out")) "hr" = None
  /\ exists e,
       fst (extract_source (Sample.disk []) "hr" (init "in" "out")) = Raise e
       /\ fst (process_source (L := Sample.lib) (Sample.disk []) "hr" (0, [])
                              (init "in" "out"))
          = Return (0, ["hr"]).
Proof.
  split; [reflexivity|].
  destruct (unregistered_source_raises Sample.lib (Sample.disk [])
              Sample.staff "hr" (0, []) (init "in" "out") eq_refl)
    as (e & _ & H1 & _ & H3).
  exists e. rewrite H1, H3. split; reflexivity.
Defined.

Lemma rectify_missing_values_idempotent_witness :
  let rules := [("department", Str "Unassigned"); ("gender", Str "Unknown")] in
  well_formed Sample.gaps
  /\ NoDup (columns Sample.gaps)
  /\ count_na
       (getitem
          (fst (DataValidator.rectify_missing_values (L := Sample.lib)
                  Sample.gaps rules ErrorHandler.init)) "department") = 0.
Proof.
  cbv zeta.
  assert (Hwf : well_formed Sample.gaps) by (repeat constructor).
  assert (Hnd : NoDup (columns Sample.gaps)).
  { repeat constructor; simpl; intuition discriminate. }
  split; [exact Hwf|]. split; [exact Hnd|].
  pose proof (@rectify_missing_values_idempotent Sample.lib Sample.gaps
                [("department", Str "Unassigned"); ("gender", Str "Unknown")]
                ErrorHandler.init Hwf Hnd) as H.
  destruct (DataValidator.rectify_missing_values _ _ _) as [df1 h1].
  destruct H as [_ H]. cbn [fst].
  apply (H "department" (Str "Unassigned")).
  - now left.
  - simpl. tauto.
Defined.

Lemma format_date_columns_cells_witness :
  let config := Some (mkConfig (Some ["hire_date"; "birth_date"])
                               None None None []) in
  NoDup (columns Sample.payroll)
  /\ NoDup (configured_dates config)
  /\ columns (format_date_columns (L := Sample.lib) config Sample.payroll)
     = columns Sample.payroll
  /\ len (format_date_columns (L := Sample.lib) config Sample.payroll) = 2.
Proof.
  cbv zeta.
  assert (Hcols : NoDup (columns Sample.payroll)).
  { repeat constructor; simpl; intuition discriminate. }
  assert (Hnd : NoDup (configured_dates
                         (Some (mkConfig (Some ["hire_date"; "birth_date"])
                                         None None None [])))).
  { repeat constructor; simpl; intuition discriminate. }
  split; [exact Hcols|]. split; [exact Hnd|].
  destruct (@format_date_columns_cells Sample.lib _ Sample.payroll Hcols Hnd)
    as (H1 & H2 & _).
  split; [exact H1 | exact H2].
Defined.

Lemma normalize_gender_column_cells_witness :
  let t := mkDataFrame ["employee_id"; "gender"]
             [ [Some (Num 1); Some (Str "  MALE ")];
               [Some (Num 2); Null] ] in
  NoDup (columns t)
  /\ columns (normalize_gender_column (L := Sample.lib) t) = columns t
  /\ len (normalize_gender_column (L := Sample.lib) t) = 2.
Proof.
  cbv zeta.
  assert (Hcols : NoDup ["employee_id"; "gender"]).
  { repeat constructor; simpl; intuition discriminate. }
  split; [exact Hcols|].
  destruct (@normalize_gender_column_cells Sample.lib
              (mkDataFrame ["employee_id"; "gender"]
                 [ [Some (Num 1); Some (Str "  MALE ")];
                   [Some (Num 2); Null] ]) Hcols)
    as (H1 & H2 & _).
  split; [exact H1 | exact H2].
Defined.

Lemma run_without_sources_witness :
  data_sources (init "in" "out") = []
  /\ pipeline_status
       (snd (run (L := Sample.lib) (Sample.disk []) "out.csv" None
                 (init "in" "out")))
     = failed_extract.
Proof.
  split; [reflexivity|].
  pose proof (@run_without_sources Sample.lib (Sample.disk []) "out.csv" None
                (init "in" "out") eq_refl) as H.
  destruct (run _ _ _ _) as [result s'].
  exact (proj1 H).
Defined.

End MoreSamples.
